(** * neonblog: the post store and the markdown entry point

    A shallow embedding of [database.py], [models.py] and of
    [render_markdown] and the handlers that answer without a page template
    from [main.py], with the properties of the
    specification stated and proved over it.

    Conventions of the model
    - A Python [str] is a Rocq [string] holding its UTF-8 bytes.  The
      string primitives of the Python runtime that the store and the post
      model call ([upper], [split], [strip], [join], integer formatting)
      are written out over the characters of the text, with the blanks
      and the upper-case mapping of the Unicode character database.
    - The [posts] table is a finite map from the primary key to the row,
      together with the column list of the table and the AUTOINCREMENT
      counter that SQLite keeps in [sqlite_sequence].
    - [CURRENT_TIMESTAMP] is an input of every statement that reads it: a
      number of seconds.  The textual form SQLite stores sorts in the same
      order, and [datetime.fromisoformat] reads it back.
    - A raised exception is a value of [result].
    - What the code calls outside the repository and the Python runtime
      ([markdown2.markdown], [Path.suffix], [uuid.uuid4], [str.lower]) is
      a parameter of the handlers. *)

From Stdlib Require Import ZArith Ascii String DecimalString List Lia Permutation Sorted.
From stdpp Require Import gmap strings sorting.
Import ListNotations.

Local Open Scope Z_scope.

(** ** Python string primitives *)

Module PyStr.

(** A Python [str] is held as its UTF-8 bytes: a character is one to four
    bytes, and what Python does per character (blank or not, upper case)
    is done here per character. *)

Definition is_empty (s : string) : bool :=
  match s with EmptyString => true | String _ _ => false end.

(** [s + c] *)
Definition snoc (s : string) (c : ascii) : string :=
  s +:+ String c EmptyString.

(** The string of the given bytes. *)
Fixpoint of_codes (l : list N) : string :=
  match l with
  | [] => EmptyString
  | n :: l' => String (ascii_of_N n) (of_codes l')
  end.

(** How many bytes follow the first byte of a character. *)
Definition tail_bytes (c : ascii) : nat :=
  let n := N_of_ascii c in
  if (n <? 192)%N then 0%nat
  else if (n <? 224)%N then 1%nat
  else if (n <? 240)%N then 2%nat
  else 3%nat.

(** The characters of a string, each with its bytes.  [cur] is the
    character being read and [need] the number of bytes it still lacks. *)
Fixpoint chars_go (cur : string) (need : nat) (s : string) : list string :=
  match s with
  | EmptyString => if is_empty cur then [] else [cur]
  | String c s' =>
      match need with
      | O =>
          match tail_bytes c with
          | O => String c EmptyString :: chars_go EmptyString 0 s'
          | S k => chars_go (String c EmptyString) (S k) s'
          end
      | S O => snoc cur c :: chars_go EmptyString 0 s'
      | S k => chars_go (snoc cur c) k s'
      end
  end.

Definition chars (s : string) : list string := chars_go EmptyString 0 s.

(** The string of the given characters. *)
Fixpoint of_chars (l : list string) : string :=
  match l with
  | [] => EmptyString
  | ch :: l' => ch +:+ of_chars l'
  end.

(** The characters for which [str.isspace()] is true, the ones
    [str.split()] and [str.strip()] take for blanks: TAB, LF, VT, FF, CR,
    FS, GS, RS, US, the space, and U+0085, U+00A0, U+1680, U+2000 to
    U+200A, U+2028, U+2029, U+202F, U+205F, U+3000. *)
Definition whitespace : list string :=
  List.map of_codes
    [[9]; [10]; [11]; [12]; [13]; [28]; [29]; [30]; [31]; [32]; [194;
     133]; [194; 160]; [225; 154; 128]; [226; 128; 128]; [226; 128; 129];
     [226; 128; 130]; [226; 128; 131]; [226; 128; 132]; [226; 128; 133];
     [226; 128; 134]; [226; 128; 135]; [226; 128; 136]; [226; 128; 137];
     [226; 128; 138]; [226; 128; 168]; [226; 128; 169]; [226; 128; 175];
     [226; 129; 159]; [227; 128; 128]]%N.

(** [str.isspace] on one character. *)
Definition isspace (ch : string) : bool :=
  existsb (String.eqb ch) whitespace.

(** [str.split()] without arguments: the scan of CPython's
    [split_whitespace] over the characters.  [word] is the word being
    read. *)
Fixpoint split_go (word : list string) (l : list string)
    : list (list string) :=
  match l with
  | [] => match word with [] => [] | _ => [word] end
  | ch :: l' =>
      if isspace ch
      then match word with
           | [] => split_go [] l'
           | _ => word :: split_go [] l'
           end
      else split_go (word ++ [ch]) l'
  end.

Definition split (s : string) : list string :=
  List.map of_chars (split_go [] (chars s)).

(** [str.split(sep)] for a one-byte separator: empty pieces are kept, and
    the empty string gives one empty piece.  A byte below 128 is never
    part of a longer character. *)
Fixpoint split_on_go (sep : ascii) (piece s : string) : list string :=
  match s with
  | EmptyString => [piece]
  | String c s' =>
      if Ascii.eqb c sep
      then piece :: split_on_go sep EmptyString s'
      else split_on_go sep (snoc piece c) s'
  end.

Definition split_on (sep : ascii) (s : string) : list string :=
  split_on_go sep EmptyString s.

Fixpoint lstrip_chars (l : list string) : list string :=
  match l with
  | [] => []
  | ch :: l' => if isspace ch then lstrip_chars l' else l
  end.

Fixpoint rstrip_chars (l : list string) : list string :=
  match l with
  | [] => []
  | ch :: l' =>
      match rstrip_chars l' with
      | [] => if isspace ch then [] else [ch]
      | r => ch :: r
      end
  end.

Definition lstrip (s : string) : string := of_chars (lstrip_chars (chars s)).

Definition rstrip (s : string) : string := of_chars (rstrip_chars (chars s)).

(** [str.strip()] *)
Definition strip (s : string) : string :=
  of_chars (rstrip_chars (lstrip_chars (chars s))).

(** The characters outside ASCII that [str.upper()] changes, each with
    what it becomes, in UTF-8 (Unicode 14.0, the character database of
    Python 3.11).  One character may become two or three. *)
Definition upper_table : list (list N * list N) :=
  [([194; 181], [206; 156]); ([195; 159], [83; 83]); ([195; 160], [195;
   128]); ([195; 161], [195; 129]); ([195; 162], [195; 130]); ([195; 163],
   [195; 131]); ([195; 164], [195; 132]); ([195; 165], [195; 133]); ([195;
   166], [195; 134]); ([195; 167], [195; 135]); ([195; 168], [195; 136]);
   ([195; 169], [195; 137]); ([195; 170], [195; 138]); ([195; 171], [195;
   139]); ([195; 172], [195; 140]); ([195; 173], [195; 141]); ([195; 174],
   [195; 142]); ([195; 175], [195; 143]); ([195; 176], [195; 144]); ([195;
   177], [195; 145]); ([195; 178], [195; 146]); ([195; 179], [195; 147]);
   ([195; 180], [195; 148]); ([195; 181], [195; 149]); ([195; 182], [195;
   150]); ([195; 184], [195; 152]); ([195; 185], [195; 153]); ([195; 186],
   [195; 154]); ([195; 187], [195; 155]); ([195; 188], [195; 156]); ([195;
   189], [195; 157]); ([195; 190], [195; 158]); ([195; 191], [197; 184]);
   ([196; 129], [196; 128]); ([196; 131], [196; 130]); ([196; 133], [196;
   132]); ([196; 135], [196; 134]); ([196; 137], [196; 136]); ([196; 139],
   [196; 138]); ([196; 141], [196; 140]); ([196; 143], [196; 142]); ([196;
   145], [196; 144]); ([196; 147], [196; 146]); ([196; 149], [196; 148]);
   ([196; 151], [196; 150]); ([196; 153], [196; 152]); ([196; 155], [196;
   154]); ([196; 157], [196; 156]); ([196; 159], [196; 158]); ([196; 161],
   [196; 160]); ([196; 163], [196; 162]); ([196; 165], [196; 164]); ([196;
   167], [196; 166]); ([196; 169], [196; 168]); ([196; 171], [196; 170]);
   ([196; 173], [196; 172]); ([196; 175], [196; 174]); ([196; 177], [73]);
   ([196; 179], [196; 178]); ([196; 181], [196; 180]); ([196; 183], [196;
   182]); ([196; 186], [196; 185]); ([196; 188], [196; 187]); ([196; 190],
   [196; 189]); ([197; 128], [196; 191]); ([197; 130], [197; 129]); ([197;
   132], [197; 131]); ([197; 134], [197; 133]); ([197; 136], [197; 135]);
   ([197; 137], [202; 188; 78]); ([197; 139], [197; 138]); ([197; 141],
   [197; 140]); ([197; 143], [197; 142]); ([197; 145], [197; 144]); ([197;
   147], [197; 146]); ([197; 149], [197; 148]); ([197; 151], [197; 150]);
   ([197; 153], [197; 152]); ([197; 155], [197; 154]); ([197; 157], [197;
   156]); ([197; 159], [197; 158]); ([197; 161], [197; 160]); ([197; 163],
   [197; 162]); ([197; 165], [197; 164]); ([197; 167], [197; 166]); ([197;
   169], [197; 168]); ([197; 171], [197; 170]); ([197; 173], [197; 172]);
   ([197; 175], [197; 174]); ([197; 177], [197; 176]); ([197; 179], [197;
   178]); ([197; 181], [197; 180]); ([197; 183], [197; 182]); ([197; 186],
   [197; 185]); ([197; 188], [197; 187]); ([197; 190], [197; 189]); ([197;
   191], [83]); ([198; 128], [201; 131]); ([198; 131], [198; 130]); ([198;
   133], [198; 132]); ([198; 136], [198; 135]); ([198; 140], [198; 139]);
   ([198; 146], [198; 145]); ([198; 149], [199; 182]); ([198; 153], [198;
   152]); ([198; 154], [200; 189]); ([198; 158], [200; 160]); ([198; 161],
   [198; 160]); ([198; 163], [198; 162]); ([198; 165], [198; 164]); ([198;
   168], [198; 167]); ([198; 173], [198; 172]); ([198; 176], [198; 175]);
   ([198; 180], [198; 179]); ([198; 182], [198; 181]); ([198; 185], [198;
   184]); ([198; 189], [198; 188]); ([198; 191], [199; 183]); ([199; 133],
   [199; 132]); ([199; 134], [199; 132]); ([199; 136], [199; 135]); ([199;
   137], [199; 135]); ([199; 139], [199; 138]); ([199; 140], [199; 138]);
   ([199; 142], [199; 141]); ([199; 144], [199; 143]); ([199; 146], [199;
   145]); ([199; 148], [199; 147]); ([199; 150], [199; 149]); ([199; 152],
   [199; 151]); ([199; 154], [199; 153]); ([199; 156], [199; 155]); ([199;
   157], [198; 142]); ([199; 159], [199; 158]); ([199; 161], [199; 160]);
   ([199; 163], [199; 162]); ([199; 165], [199; 164]); ([199; 167], [199;
   166]); ([199; 169], [199; 168]); ([199; 171], [199; 170]); ([199; 173],
   [199; 172]); ([199; 175], [199; 174]); ([199; 176], [74; 204; 140]);
   ([199; 178], [199; 177]); ([199; 179], [199; 177]); ([199; 181], [199;
   180]); ([199; 185], [199; 184]); ([199; 187], [199; 186]); ([199; 189],
   [199; 188]); ([199; 191], [199; 190]); ([200; 129], [200; 128]); ([200;
   131], [200; 130]); ([200; 133], [200; 132]); ([200; 135], [200; 134]);
   ([200; 137], [200; 136]); ([200; 139], [200; 138]); ([200; 141], [200;
   140]); ([200; 143], [200; 142]); ([200; 145], [200; 144]); ([200; 147],
   [200; 146]); ([200; 149], [200; 148]); ([200; 151], [200; 150]); ([200;
   153], [200; 152]); ([200; 155], [200; 154]); ([200; 157], [200; 156]);
   ([200; 159], [200; 158]); ([200; 163], [200; 162]); ([200; 165], [200;
   164]); ([200; 167], [200; 166]); ([200; 169], [200; 168]); ([200; 171],
   [200; 170]); ([200; 173], [200; 172]); ([200; 175], [200; 174]); ([200;
   177], [200; 176]); ([200; 179], [200; 178]); ([200; 188], [200; 187]);
   ([200; 191], [226; 177; 190]); ([201; 128], [226; 177; 191]); ([201;
   130], [201; 129]); ([201; 135], [201; 134]); ([201; 137], [201; 136]);
   ([201; 139], [201; 138]); ([201; 141], [201; 140]); ([201; 143], [201;
   142]); ([201; 144], [226; 177; 175]); ([201; 145], [226; 177; 173]);
   ([201; 146], [226; 177; 176]); ([201; 147], [198; 129]); ([201; 148],
   [198; 134]); ([201; 150], [198; 137]); ([201; 151], [198; 138]); ([201;
   153], [198; 143]); ([201; 155], [198; 144]); ([201; 156], [234; 158;
   171]); ([201; 160], [198; 147]); ([201; 161], [234; 158; 172]); ([201;
   163], [198; 148]); ([201; 165], [234; 158; 141]); ([201; 166], [234; 158;
   170]); ([201; 168], [198; 151]); ([201; 169], [198; 150]); ([201; 170],
   [234; 158; 174]); ([201; 171], [226; 177; 162]); ([201; 172], [234; 158;
   173]); ([201; 175], [198; 156]); ([201; 177], [226; 177; 174]); ([201;
   178], [198; 157]); ([201; 181], [198; 159]); ([201; 189], [226; 177;
   164]); ([202; 128], [198; 166]); ([202; 130], [234; 159; 133]); ([202;
   131], [198; 169]); ([202; 135], [234; 158; 177]); ([202; 136], [198;
   174]); ([202; 137], [201; 132]); ([202; 138], [198; 177]); ([202; 139],
   [198; 178]); ([202; 140], [201; 133]); ([202; 146], [198; 183]); ([202;
   157], [234; 158; 178]); ([202; 158], [234; 158; 176]); ([205; 133], [206;
   153]); ([205; 177], [205; 176]); ([205; 179], [205; 178]); ([205; 183],
   [205; 182]); ([205; 187], [207; 189]); ([205; 188], [207; 190]); ([205;
   189], [207; 191]); ([206; 144], [206; 153; 204; 136; 204; 129]); ([206;
   172], [206; 134]); ([206; 173], [206; 136]); ([206; 174], [206; 137]);
   ([206; 175], [206; 138]); ([206; 176], [206; 165; 204; 136; 204; 129]);
   ([206; 177], [206; 145]); ([206; 178], [206; 146]); ([206; 179], [206;
   147]); ([206; 180], [206; 148]); ([206; 181], [206; 149]); ([206; 182],
   [206; 150]); ([206; 183], [206; 151]); ([206; 184], [206; 152]); ([206;
   185], [206; 153]); ([206; 186], [206; 154]); ([206; 187], [206; 155]);
   ([206; 188], [206; 156]); ([206; 189], [206; 157]); ([206; 190], [206;
   158]); ([206; 191], [206; 159]); ([207; 128], [206; 160]); ([207; 129],
   [206; 161]); ([207; 130], [206; 163]); ([207; 131], [206; 163]); ([207;
   132], [206; 164]); ([207; 133], [206; 165]); ([207; 134], [206; 166]);
   ([207; 135], [206; 167]); ([207; 136], [206; 168]); ([207; 137], [206;
   169]); ([207; 138], [206; 170]); ([207; 139], [206; 171]); ([207; 140],
   [206; 140]); ([207; 141], [206; 142]); ([207; 142], [206; 143]); ([207;
   144], [206; 146]); ([207; 145], [206; 152]); ([207; 149], [206; 166]);
   ([207; 150], [206; 160]); ([207; 151], [207; 143]); ([207; 153], [207;
   152]); ([207; 155], [207; 154]); ([207; 157], [207; 156]); ([207; 159],
   [207; 158]); ([207; 161], [207; 160]); ([207; 163], [207; 162]); ([207;
   165], [207; 164]); ([207; 167], [207; 166]); ([207; 169], [207; 168]);
   ([207; 171], [207; 170]); ([207; 173], [207; 172]); ([207; 175], [207;
   174]); ([207; 176], [206; 154]); ([207; 177], [206; 161]); ([207; 178],
   [207; 185]); ([207; 179], [205; 191]); ([207; 181], [206; 149]); ([207;
   184], [207; 183]); ([207; 187], [207; 186]); ([208; 176], [208; 144]);
   ([208; 177], [208; 145]); ([208; 178], [208; 146]); ([208; 179], [208;
   147]); ([208; 180], [208; 148]); ([208; 181], [208; 149]); ([208; 182],
   [208; 150]); ([208; 183], [208; 151]); ([208; 184], [208; 152]); ([208;
   185], [208; 153]); ([208; 186], [208; 154]); ([208; 187], [208; 155]);
   ([208; 188], [208; 156]); ([208; 189], [208; 157]); ([208; 190], [208;
   158]); ([208; 191], [208; 159]); ([209; 128], [208; 160]); ([209; 129],
   [208; 161]); ([209; 130], [208; 162]); ([209; 131], [208; 163]); ([209;
   132], [208; 164]); ([209; 133], [208; 165]); ([209; 134], [208; 166]);
   ([209; 135], [208; 167]); ([209; 136], [208; 168]); ([209; 137], [208;
   169]); ([209; 138], [208; 170]); ([209; 139], [208; 171]); ([209; 140],
   [208; 172]); ([209; 141], [208; 173]); ([209; 142], [208; 174]); ([209;
   143], [208; 175]); ([209; 144], [208; 128]); ([209; 145], [208; 129]);
   ([209; 146], [208; 130]); ([209; 147], [208; 131]); ([209; 148], [208;
   132]); ([209; 149], [208; 133]); ([209; 150], [208; 134]); ([209; 151],
   [208; 135]); ([209; 152], [208; 136]); ([209; 153], [208; 137]); ([209;
   154], [208; 138]); ([209; 155], [208; 139]); ([209; 156], [208; 140]);
   ([209; 157], [208; 141]); ([209; 158], [208; 142]); ([209; 159], [208;
   143]); ([209; 161], [209; 160]); ([209; 163], [209; 162]); ([209; 165],
   [209; 164]); ([209; 167], [209; 166]); ([209; 169], [209; 168]); ([209;
   171], [209; 170]); ([209; 173], [209; 172]); ([209; 175], [209; 174]);
   ([209; 177], [209; 176]); ([209; 179], [209; 178]); ([209; 181], [209;
   180]); ([209; 183], [209; 182]); ([209; 185], [209; 184]); ([209; 187],
   [209; 186]); ([209; 189], [209; 188]); ([209; 191], [209; 190]); ([210;
   129], [210; 128]); ([210; 139], [210; 138]); ([210; 141], [210; 140]);
   ([210; 143], [210; 142]); ([210; 145], [210; 144]); ([210; 147], [210;
   146]); ([210; 149], [210; 148]); ([210; 151], [210; 150]); ([210; 153],
   [210; 152]); ([210; 155], [210; 154]); ([210; 157], [210; 156]); ([210;
   159], [210; 158]); ([210; 161], [210; 160]); ([210; 163], [210; 162]);
   ([210; 165], [210; 164]); ([210; 167], [210; 166]); ([210; 169], [210;
   168]); ([210; 171], [210; 170]); ([210; 173], [210; 172]); ([210; 175],
   [210; 174]); ([210; 177], [210; 176]); ([210; 179], [210; 178]); ([210;
   181], [210; 180]); ([210; 183], [210; 182]); ([210; 185], [210; 184]);
   ([210; 187], [210; 186]); ([210; 189], [210; 188]); ([210; 191], [210;
   190]); ([211; 130], [211; 129]); ([211; 132], [211; 131]); ([211; 134],
   [211; 133]); ([211; 136], [211; 135]); ([211; 138], [211; 137]); ([211;
   140], [211; 139]); ([211; 142], [211; 141]); ([211; 143], [211; 128]);
   ([211; 145], [211; 144]); ([211; 147], [211; 146]); ([211; 149], [211;
   148]); ([211; 151], [211; 150]); ([211; 153], [211; 152]); ([211; 155],
   [211; 154]); ([211; 157], [211; 156]); ([211; 159], [211; 158]); ([211;
   161], [211; 160]); ([211; 163], [211; 162]); ([211; 165], [211; 164]);
   ([211; 167], [211; 166]); ([211; 169], [211; 168]); ([211; 171], [211;
   170]); ([211; 173], [211; 172]); ([211; 175], [211; 174]); ([211; 177],
   [211; 176]); ([211; 179], [211; 178]); ([211; 181], [211; 180]); ([211;
   183], [211; 182]); ([211; 185], [211; 184]); ([211; 187], [211; 186]);
   ([211; 189], [211; 188]); ([211; 191], [211; 190]); ([212; 129], [212;
   128]); ([212; 131], [212; 130]); ([212; 133], [212; 132]); ([212; 135],
   [212; 134]); ([212; 137], [212; 136]); ([212; 139], [212; 138]); ([212;
   141], [212; 140]); ([212; 143], [212; 142]); ([212; 145], [212; 144]);
   ([212; 147], [212; 146]); ([212; 149], [212; 148]); ([212; 151], [212;
   150]); ([212; 153], [212; 152]); ([212; 155], [212; 154]); ([212; 157],
   [212; 156]); ([212; 159], [212; 158]); ([212; 161], [212; 160]); ([212;
   163], [212; 162]); ([212; 165], [212; 164]); ([212; 167], [212; 166]);
   ([212; 169], [212; 168]); ([212; 171], [212; 170]); ([212; 173], [212;
   172]); ([212; 175], [212; 174]); ([213; 161], [212; 177]); ([213; 162],
   [212; 178]); ([213; 163], [212; 179]); ([213; 164], [212; 180]); ([213;
   165], [212; 181]); ([213; 166], [212; 182]); ([213; 167], [212; 183]);
   ([213; 168], [212; 184]); ([213; 169], [212; 185]); ([213; 170], [212;
   186]); ([213; 171], [212; 187]); ([213; 172], [212; 188]); ([213; 173],
   [212; 189]); ([213; 174], [212; 190]); ([213; 175], [212; 191]); ([213;
   176], [213; 128]); ([213; 177], [213; 129]); ([213; 178], [213; 130]);
   ([213; 179], [213; 131]); ([213; 180], [213; 132]); ([213; 181], [213;
   133]); ([213; 182], [213; 134]); ([213; 183], [213; 135]); ([213; 184],
   [213; 136]); ([213; 185], [213; 137]); ([213; 186], [213; 138]); ([213;
   187], [213; 139]); ([213; 188], [213; 140]); ([213; 189], [213; 141]);
   ([213; 190], [213; 142]); ([213; 191], [213; 143]); ([214; 128], [213;
   144]); ([214; 129], [213; 145]); ([214; 130], [213; 146]); ([214; 131],
   [213; 147]); ([214; 132], [213; 148]); ([214; 133], [213; 149]); ([214;
   134], [213; 150]); ([214; 135], [212; 181; 213; 146]); ([225; 131; 144],
   [225; 178; 144]); ([225; 131; 145], [225; 178; 145]); ([225; 131; 146],
   [225; 178; 146]); ([225; 131; 147], [225; 178; 147]); ([225; 131; 148],
   [225; 178; 148]); ([225; 131; 149], [225; 178; 149]); ([225; 131; 150],
   [225; 178; 150]); ([225; 131; 151], [225; 178; 151]); ([225; 131; 152],
   [225; 178; 152]); ([225; 131; 153], [225; 178; 153]); ([225; 131; 154],
   [225; 178; 154]); ([225; 131; 155], [225; 178; 155]); ([225; 131; 156],
   [225; 178; 156]); ([225; 131; 157], [225; 178; 157]); ([225; 131; 158],
   [225; 178; 158]); ([225; 131; 159], [225; 178; 159]); ([225; 131; 160],
   [225; 178; 160]); ([225; 131; 161], [225; 178; 161]); ([225; 131; 162],
   [225; 178; 162]); ([225; 131; 163], [225; 178; 163]); ([225; 131; 164],
   [225; 178; 164]); ([225; 131; 165], [225; 178; 165]); ([225; 131; 166],
   [225; 178; 166]); ([225; 131; 167], [225; 178; 167]); ([225; 131; 168],
   [225; 178; 168]); ([225; 131; 169], [225; 178; 169]); ([225; 131; 170],
   [225; 178; 170]); ([225; 131; 171], [225; 178; 171]); ([225; 131; 172],
   [225; 178; 172]); ([225; 131; 173], [225; 178; 173]); ([225; 131; 174],
   [225; 178; 174]); ([225; 131; 175], [225; 178; 175]); ([225; 131; 176],
   [225; 178; 176]); ([225; 131; 177], [225; 178; 177]); ([225; 131; 178],
   [225; 178; 178]); ([225; 131; 179], [225; 178; 179]); ([225; 131; 180],
   [225; 178; 180]); ([225; 131; 181], [225; 178; 181]); ([225; 131; 182],
   [225; 178; 182]); ([225; 131; 183], [225; 178; 183]); ([225; 131; 184],
   [225; 178; 184]); ([225; 131; 185], [225; 178; 185]); ([225; 131; 186],
   [225; 178; 186]); ([225; 131; 189], [225; 178; 189]); ([225; 131; 190],
   [225; 178; 190]); ([225; 131; 191], [225; 178; 191]); ([225; 143; 184],
   [225; 143; 176]); ([225; 143; 185], [225; 143; 177]); ([225; 143; 186],
   [225; 143; 178]); ([225; 143; 187], [225; 143; 179]); ([225; 143; 188],
   [225; 143; 180]); ([225; 143; 189], [225; 143; 181]); ([225; 178; 128],
   [208; 146]); ([225; 178; 129], [208; 148]); ([225; 178; 130], [208;
   158]); ([225; 178; 131], [208; 161]); ([225; 178; 132], [208; 162]);
   ([225; 178; 133], [208; 162]); ([225; 178; 134], [208; 170]); ([225; 178;
   135], [209; 162]); ([225; 178; 136], [234; 153; 138]); ([225; 181; 185],
   [234; 157; 189]); ([225; 181; 189], [226; 177; 163]); ([225; 182; 142],
   [234; 159; 134]); ([225; 184; 129], [225; 184; 128]); ([225; 184; 131],
   [225; 184; 130]); ([225; 184; 133], [225; 184; 132]); ([225; 184; 135],
   [225; 184; 134]); ([225; 184; 137], [225; 184; 136]); ([225; 184; 139],
   [225; 184; 138]); ([225; 184; 141], [225; 184; 140]); ([225; 184; 143],
   [225; 184; 142]); ([225; 184; 145], [225; 184; 144]); ([225; 184; 147],
   [225; 184; 146]); ([225; 184; 149], [225; 184; 148]); ([225; 184; 151],
   [225; 184; 150]); ([225; 184; 153], [225; 184; 152]); ([225; 184; 155],
   [225; 184; 154]); ([225; 184; 157], [225; 184; 156]); ([225; 184; 159],
   [225; 184; 158]); ([225; 184; 161], [225; 184; 160]); ([225; 184; 163],
   [225; 184; 162]); ([225; 184; 165], [225; 184; 164]); ([225; 184; 167],
   [225; 184; 166]); ([225; 184; 169], [225; 184; 168]); ([225; 184; 171],
   [225; 184; 170]); ([225; 184; 173], [225; 184; 172]); ([225; 184; 175],
   [225; 184; 174]); ([225; 184; 177], [225; 184; 176]); ([225; 184; 179],
   [225; 184; 178]); ([225; 184; 181], [225; 184; 180]); ([225; 184; 183],
   [225; 184; 182]); ([225; 184; 185], [225; 184; 184]); ([225; 184; 187],
   [225; 184; 186]); ([225; 184; 189], [225; 184; 188]); ([225; 184; 191],
   [225; 184; 190]); ([225; 185; 129], [225; 185; 128]); ([225; 185; 131],
   [225; 185; 130]); ([225; 185; 133], [225; 185; 132]); ([225; 185; 135],
   [225; 185; 134]); ([225; 185; 137], [225; 185; 136]); ([225; 185; 139],
   [225; 185; 138]); ([225; 185; 141], [225; 185; 140]); ([225; 185; 143],
   [225; 185; 142]); ([225; 185; 145], [225; 185; 144]); ([225; 185; 147],
   [225; 185; 146]); ([225; 185; 149], [225; 185; 148]); ([225; 185; 151],
   [225; 185; 150]); ([225; 185; 153], [225; 185; 152]); ([225; 185; 155],
   [225; 185; 154]); ([225; 185; 157], [225; 185; 156]); ([225; 185; 159],
   [225; 185; 158]); ([225; 185; 161], [225; 185; 160]); ([225; 185; 163],
   [225; 185; 162]); ([225; 185; 165], [225; 185; 164]); ([225; 185; 167],
   [225; 185; 166]); ([225; 185; 169], [225; 185; 168]); ([225; 185; 171],
   [225; 185; 170]); ([225; 185; 173], [225; 185; 172]); ([225; 185; 175],
   [225; 185; 174]); ([225; 185; 177], [225; 185; 176]); ([225; 185; 179],
   [225; 185; 178]); ([225; 185; 181], [225; 185; 180]); ([225; 185; 183],
   [225; 185; 182]); ([225; 185; 185], [225; 185; 184]); ([225; 185; 187],
   [225; 185; 186]); ([225; 185; 189], [225; 185; 188]); ([225; 185; 191],
   [225; 185; 190]); ([225; 186; 129], [225; 186; 128]); ([225; 186; 131],
   [225; 186; 130]); ([225; 186; 133], [225; 186; 132]); ([225; 186; 135],
   [225; 186; 134]); ([225; 186; 137], [225; 186; 136]); ([225; 186; 139],
   [225; 186; 138]); ([225; 186; 141], [225; 186; 140]); ([225; 186; 143],
   [225; 186; 142]); ([225; 186; 145], [225; 186; 144]); ([225; 186; 147],
   [225; 186; 146]); ([225; 186; 149], [225; 186; 148]); ([225; 186; 150],
   [72; 204; 177]); ([225; 186; 151], [84; 204; 136]); ([225; 186; 152],
   [87; 204; 138]); ([225; 186; 153], [89; 204; 138]); ([225; 186; 154],
   [65; 202; 190]); ([225; 186; 155], [225; 185; 160]); ([225; 186; 161],
   [225; 186; 160]); ([225; 186; 163], [225; 186; 162]); ([225; 186; 165],
   [225; 186; 164]); ([225; 186; 167], [225; 186; 166]); ([225; 186; 169],
   [225; 186; 168]); ([225; 186; 171], [225; 186; 170]); ([225; 186; 173],
   [225; 186; 172]); ([225; 186; 175], [225; 186; 174]); ([225; 186; 177],
   [225; 186; 176]); ([225; 186; 179], [225; 186; 178]); ([225; 186; 181],
   [225; 186; 180]); ([225; 186; 183], [225; 186; 182]); ([225; 186; 185],
   [225; 186; 184]); ([225; 186; 187], [225; 186; 186]); ([225; 186; 189],
   [225; 186; 188]); ([225; 186; 191], [225; 186; 190]); ([225; 187; 129],
   [225; 187; 128]); ([225; 187; 131], [225; 187; 130]); ([225; 187; 133],
   [225; 187; 132]); ([225; 187; 135], [225; 187; 134]); ([225; 187; 137],
   [225; 187; 136]); ([225; 187; 139], [225; 187; 138]); ([225; 187; 141],
   [225; 187; 140]); ([225; 187; 143], [225; 187; 142]); ([225; 187; 145],
   [225; 187; 144]); ([225; 187; 147], [225; 187; 146]); ([225; 187; 149],
   [225; 187; 148]); ([225; 187; 151], [225; 187; 150]); ([225; 187; 153],
   [225; 187; 152]); ([225; 187; 155], [225; 187; 154]); ([225; 187; 157],
   [225; 187; 156]); ([225; 187; 159], [225; 187; 158]); ([225; 187; 161],
   [225; 187; 160]); ([225; 187; 163], [225; 187; 162]); ([225; 187; 165],
   [225; 187; 164]); ([225; 187; 167], [225; 187; 166]); ([225; 187; 169],
   [225; 187; 168]); ([225; 187; 171], [225; 187; 170]); ([225; 187; 173],
   [225; 187; 172]); ([225; 187; 175], [225; 187; 174]); ([225; 187; 177],
   [225; 187; 176]); ([225; 187; 179], [225; 187; 178]); ([225; 187; 181],
   [225; 187; 180]); ([225; 187; 183], [225; 187; 182]); ([225; 187; 185],
   [225; 187; 184]); ([225; 187; 187], [225; 187; 186]); ([225; 187; 189],
   [225; 187; 188]); ([225; 187; 191], [225; 187; 190]); ([225; 188; 128],
   [225; 188; 136]); ([225; 188; 129], [225; 188; 137]); ([225; 188; 130],
   [225; 188; 138]); ([225; 188; 131], [225; 188; 139]); ([225; 188; 132],
   [225; 188; 140]); ([225; 188; 133], [225; 188; 141]); ([225; 188; 134],
   [225; 188; 142]); ([225; 188; 135], [225; 188; 143]); ([225; 188; 144],
   [225; 188; 152]); ([225; 188; 145], [225; 188; 153]); ([225; 188; 146],
   [225; 188; 154]); ([225; 188; 147], [225; 188; 155]); ([225; 188; 148],
   [225; 188; 156]); ([225; 188; 149], [225; 188; 157]); ([225; 188; 160],
   [225; 188; 168]); ([225; 188; 161], [225; 188; 169]); ([225; 188; 162],
   [225; 188; 170]); ([225; 188; 163], [225; 188; 171]); ([225; 188; 164],
   [225; 188; 172]); ([225; 188; 165], [225; 188; 173]); ([225; 188; 166],
   [225; 188; 174]); ([225; 188; 167], [225; 188; 175]); ([225; 188; 176],
   [225; 188; 184]); ([225; 188; 177], [225; 188; 185]); ([225; 188; 178],
   [225; 188; 186]); ([225; 188; 179], [225; 188; 187]); ([225; 188; 180],
   [225; 188; 188]); ([225; 188; 181], [225; 188; 189]); ([225; 188; 182],
   [225; 188; 190]); ([225; 188; 183], [225; 188; 191]); ([225; 189; 128],
   [225; 189; 136]); ([225; 189; 129], [225; 189; 137]); ([225; 189; 130],
   [225; 189; 138]); ([225; 189; 131], [225; 189; 139]); ([225; 189; 132],
   [225; 189; 140]); ([225; 189; 133], [225; 189; 141]); ([225; 189; 144],
   [206; 165; 204; 147]); ([225; 189; 145], [225; 189; 153]); ([225; 189;
   146], [206; 165; 204; 147; 204; 128]); ([225; 189; 147], [225; 189;
   155]); ([225; 189; 148], [206; 165; 204; 147; 204; 129]); ([225; 189;
   149], [225; 189; 157]); ([225; 189; 150], [206; 165; 204; 147; 205;
   130]); ([225; 189; 151], [225; 189; 159]); ([225; 189; 160], [225; 189;
   168]); ([225; 189; 161], [225; 189; 169]); ([225; 189; 162], [225; 189;
   170]); ([225; 189; 163], [225; 189; 171]); ([225; 189; 164], [225; 189;
   172]); ([225; 189; 165], [225; 189; 173]); ([225; 189; 166], [225; 189;
   174]); ([225; 189; 167], [225; 189; 175]); ([225; 189; 176], [225; 190;
   186]); ([225; 189; 177], [225; 190; 187]); ([225; 189; 178], [225; 191;
   136]); ([225; 189; 179], [225; 191; 137]); ([225; 189; 180], [225; 191;
   138]); ([225; 189; 181], [225; 191; 139]); ([225; 189; 182], [225; 191;
   154]); ([225; 189; 183], [225; 191; 155]); ([225; 189; 184], [225; 191;
   184]); ([225; 189; 185], [225; 191; 185]); ([225; 189; 186], [225; 191;
   170]); ([225; 189; 187], [225; 191; 171]); ([225; 189; 188], [225; 191;
   186]); ([225; 189; 189], [225; 191; 187]); ([225; 190; 128], [225; 188;
   136; 206; 153]); ([225; 190; 129], [225; 188; 137; 206; 153]); ([225;
   190; 130], [225; 188; 138; 206; 153]); ([225; 190; 131], [225; 188; 139;
   206; 153]); ([225; 190; 132], [225; 188; 140; 206; 153]); ([225; 190;
   133], [225; 188; 141; 206; 153]); ([225; 190; 134], [225; 188; 142; 206;
   153]); ([225; 190; 135], [225; 188; 143; 206; 153]); ([225; 190; 136],
   [225; 188; 136; 206; 153]); ([225; 190; 137], [225; 188; 137; 206; 153]);
   ([225; 190; 138], [225; 188; 138; 206; 153]); ([225; 190; 139], [225;
   188; 139; 206; 153]); ([225; 190; 140], [225; 188; 140; 206; 153]);
   ([225; 190; 141], [225; 188; 141; 206; 153]); ([225; 190; 142], [225;
   188; 142; 206; 153]); ([225; 190; 143], [225; 188; 143; 206; 153]);
   ([225; 190; 144], [225; 188; 168; 206; 153]); ([225; 190; 145], [225;
   188; 169; 206; 153]); ([225; 190; 146], [225; 188; 170; 206; 153]);
   ([225; 190; 147], [225; 188; 171; 206; 153]); ([225; 190; 148], [225;
   188; 172; 206; 153]); ([225; 190; 149], [225; 188; 173; 206; 153]);
   ([225; 190; 150], [225; 188; 174; 206; 153]); ([225; 190; 151], [225;
   188; 175; 206; 153]); ([225; 190; 152], [225; 188; 168; 206; 153]);
   ([225; 190; 153], [225; 188; 169; 206; 153]); ([225; 190; 154], [225;
   188; 170; 206; 153]); ([225; 190; 155], [225; 188; 171; 206; 153]);
   ([225; 190; 156], [225; 188; 172; 206; 153]); ([225; 190; 157], [225;
   188; 173; 206; 153]); ([225; 190; 158], [225; 188; 174; 206; 153]);
   ([225; 190; 159], [225; 188; 175; 206; 153]); ([225; 190; 160], [225;
   189; 168; 206; 153]); ([225; 190; 161], [225; 189; 169; 206; 153]);
   ([225; 190; 162], [225; 189; 170; 206; 153]); ([225; 190; 163], [225;
   189; 171; 206; 153]); ([225; 190; 164], [225; 189; 172; 206; 153]);
   ([225; 190; 165], [225; 189; 173; 206; 153]); ([225; 190; 166], [225;
   189; 174; 206; 153]); ([225; 190; 167], [225; 189; 175; 206; 153]);
   ([225; 190; 168], [225; 189; 168; 206; 153]); ([225; 190; 169], [225;
   189; 169; 206; 153]); ([225; 190; 170], [225; 189; 170; 206; 153]);
   ([225; 190; 171], [225; 189; 171; 206; 153]); ([225; 190; 172], [225;
   189; 172; 206; 153]); ([225; 190; 173], [225; 189; 173; 206; 153]);
   ([225; 190; 174], [225; 189; 174; 206; 153]); ([225; 190; 175], [225;
   189; 175; 206; 153]); ([225; 190; 176], [225; 190; 184]); ([225; 190;
   177], [225; 190; 185]); ([225; 190; 178], [225; 190; 186; 206; 153]);
   ([225; 190; 179], [206; 145; 206; 153]); ([225; 190; 180], [206; 134;
   206; 153]); ([225; 190; 182], [206; 145; 205; 130]); ([225; 190; 183],
   [206; 145; 205; 130; 206; 153]); ([225; 190; 188], [206; 145; 206; 153]);
   ([225; 190; 190], [206; 153]); ([225; 191; 130], [225; 191; 138; 206;
   153]); ([225; 191; 131], [206; 151; 206; 153]); ([225; 191; 132], [206;
   137; 206; 153]); ([225; 191; 134], [206; 151; 205; 130]); ([225; 191;
   135], [206; 151; 205; 130; 206; 153]); ([225; 191; 140], [206; 151; 206;
   153]); ([225; 191; 144], [225; 191; 152]); ([225; 191; 145], [225; 191;
   153]); ([225; 191; 146], [206; 153; 204; 136; 204; 128]); ([225; 191;
   147], [206; 153; 204; 136; 204; 129]); ([225; 191; 150], [206; 153; 205;
   130]); ([225; 191; 151], [206; 153; 204; 136; 205; 130]); ([225; 191;
   160], [225; 191; 168]); ([225; 191; 161], [225; 191; 169]); ([225; 191;
   162], [206; 165; 204; 136; 204; 128]); ([225; 191; 163], [206; 165; 204;
   136; 204; 129]); ([225; 191; 164], [206; 161; 204; 147]); ([225; 191;
   165], [225; 191; 172]); ([225; 191; 166], [206; 165; 205; 130]); ([225;
   191; 167], [206; 165; 204; 136; 205; 130]); ([225; 191; 178], [225; 191;
   186; 206; 153]); ([225; 191; 179], [206; 169; 206; 153]); ([225; 191;
   180], [206; 143; 206; 153]); ([225; 191; 182], [206; 169; 205; 130]);
   ([225; 191; 183], [206; 169; 205; 130; 206; 153]); ([225; 191; 188],
   [206; 169; 206; 153]); ([226; 133; 142], [226; 132; 178]); ([226; 133;
   176], [226; 133; 160]); ([226; 133; 177], [226; 133; 161]); ([226; 133;
   178], [226; 133; 162]); ([226; 133; 179], [226; 133; 163]); ([226; 133;
   180], [226; 133; 164]); ([226; 133; 181], [226; 133; 165]); ([226; 133;
   182], [226; 133; 166]); ([226; 133; 183], [226; 133; 167]); ([226; 133;
   184], [226; 133; 168]); ([226; 133; 185], [226; 133; 169]); ([226; 133;
   186], [226; 133; 170]); ([226; 133; 187], [226; 133; 171]); ([226; 133;
   188], [226; 133; 172]); ([226; 133; 189], [226; 133; 173]); ([226; 133;
   190], [226; 133; 174]); ([226; 133; 191], [226; 133; 175]); ([226; 134;
   132], [226; 134; 131]); ([226; 147; 144], [226; 146; 182]); ([226; 147;
   145], [226; 146; 183]); ([226; 147; 146], [226; 146; 184]); ([226; 147;
   147], [226; 146; 185]); ([226; 147; 148], [226; 146; 186]); ([226; 147;
   149], [226; 146; 187]); ([226; 147; 150], [226; 146; 188]); ([226; 147;
   151], [226; 146; 189]); ([226; 147; 152], [226; 146; 190]); ([226; 147;
   153], [226; 146; 191]); ([226; 147; 154], [226; 147; 128]); ([226; 147;
   155], [226; 147; 129]); ([226; 147; 156], [226; 147; 130]); ([226; 147;
   157], [226; 147; 131]); ([226; 147; 158], [226; 147; 132]); ([226; 147;
   159], [226; 147; 133]); ([226; 147; 160], [226; 147; 134]); ([226; 147;
   161], [226; 147; 135]); ([226; 147; 162], [226; 147; 136]); ([226; 147;
   163], [226; 147; 137]); ([226; 147; 164], [226; 147; 138]); ([226; 147;
   165], [226; 147; 139]); ([226; 147; 166], [226; 147; 140]); ([226; 147;
   167], [226; 147; 141]); ([226; 147; 168], [226; 147; 142]); ([226; 147;
   169], [226; 147; 143]); ([226; 176; 176], [226; 176; 128]); ([226; 176;
   177], [226; 176; 129]); ([226; 176; 178], [226; 176; 130]); ([226; 176;
   179], [226; 176; 131]); ([226; 176; 180], [226; 176; 132]); ([226; 176;
   181], [226; 176; 133]); ([226; 176; 182], [226; 176; 134]); ([226; 176;
   183], [226; 176; 135]); ([226; 176; 184], [226; 176; 136]); ([226; 176;
   185], [226; 176; 137]); ([226; 176; 186], [226; 176; 138]); ([226; 176;
   187], [226; 176; 139]); ([226; 176; 188], [226; 176; 140]); ([226; 176;
   189], [226; 176; 141]); ([226; 176; 190], [226; 176; 142]); ([226; 176;
   191], [226; 176; 143]); ([226; 177; 128], [226; 176; 144]); ([226; 177;
   129], [226; 176; 145]); ([226; 177; 130], [226; 176; 146]); ([226; 177;
   131], [226; 176; 147]); ([226; 177; 132], [226; 176; 148]); ([226; 177;
   133], [226; 176; 149]); ([226; 177; 134], [226; 176; 150]); ([226; 177;
   135], [226; 176; 151]); ([226; 177; 136], [226; 176; 152]); ([226; 177;
   137], [226; 176; 153]); ([226; 177; 138], [226; 176; 154]); ([226; 177;
   139], [226; 176; 155]); ([226; 177; 140], [226; 176; 156]); ([226; 177;
   141], [226; 176; 157]); ([226; 177; 142], [226; 176; 158]); ([226; 177;
   143], [226; 176; 159]); ([226; 177; 144], [226; 176; 160]); ([226; 177;
   145], [226; 176; 161]); ([226; 177; 146], [226; 176; 162]); ([226; 177;
   147], [226; 176; 163]); ([226; 177; 148], [226; 176; 164]); ([226; 177;
   149], [226; 176; 165]); ([226; 177; 150], [226; 176; 166]); ([226; 177;
   151], [226; 176; 167]); ([226; 177; 152], [226; 176; 168]); ([226; 177;
   153], [226; 176; 169]); ([226; 177; 154], [226; 176; 170]); ([226; 177;
   155], [226; 176; 171]); ([226; 177; 156], [226; 176; 172]); ([226; 177;
   157], [226; 176; 173]); ([226; 177; 158], [226; 176; 174]); ([226; 177;
   159], [226; 176; 175]); ([226; 177; 161], [226; 177; 160]); ([226; 177;
   165], [200; 186]); ([226; 177; 166], [200; 190]); ([226; 177; 168], [226;
   177; 167]); ([226; 177; 170], [226; 177; 169]); ([226; 177; 172], [226;
   177; 171]); ([226; 177; 179], [226; 177; 178]); ([226; 177; 182], [226;
   177; 181]); ([226; 178; 129], [226; 178; 128]); ([226; 178; 131], [226;
   178; 130]); ([226; 178; 133], [226; 178; 132]); ([226; 178; 135], [226;
   178; 134]); ([226; 178; 137], [226; 178; 136]); ([226; 178; 139], [226;
   178; 138]); ([226; 178; 141], [226; 178; 140]); ([226; 178; 143], [226;
   178; 142]); ([226; 178; 145], [226; 178; 144]); ([226; 178; 147], [226;
   178; 146]); ([226; 178; 149], [226; 178; 148]); ([226; 178; 151], [226;
   178; 150]); ([226; 178; 153], [226; 178; 152]); ([226; 178; 155], [226;
   178; 154]); ([226; 178; 157], [226; 178; 156]); ([226; 178; 159], [226;
   178; 158]); ([226; 178; 161], [226; 178; 160]); ([226; 178; 163], [226;
   178; 162]); ([226; 178; 165], [226; 178; 164]); ([226; 178; 167], [226;
   178; 166]); ([226; 178; 169], [226; 178; 168]); ([226; 178; 171], [226;
   178; 170]); ([226; 178; 173], [226; 178; 172]); ([226; 178; 175], [226;
   178; 174]); ([226; 178; 177], [226; 178; 176]); ([226; 178; 179], [226;
   178; 178]); ([226; 178; 181], [226; 178; 180]); ([226; 178; 183], [226;
   178; 182]); ([226; 178; 185], [226; 178; 184]); ([226; 178; 187], [226;
   178; 186]); ([226; 178; 189], [226; 178; 188]); ([226; 178; 191], [226;
   178; 190]); ([226; 179; 129], [226; 179; 128]); ([226; 179; 131], [226;
   179; 130]); ([226; 179; 133], [226; 179; 132]); ([226; 179; 135], [226;
   179; 134]); ([226; 179; 137], [226; 179; 136]); ([226; 179; 139], [226;
   179; 138]); ([226; 179; 141], [226; 179; 140]); ([226; 179; 143], [226;
   179; 142]); ([226; 179; 145], [226; 179; 144]); ([226; 179; 147], [226;
   179; 146]); ([226; 179; 149], [226; 179; 148]); ([226; 179; 151], [226;
   179; 150]); ([226; 179; 153], [226; 179; 152]); ([226; 179; 155], [226;
   179; 154]); ([226; 179; 157], [226; 179; 156]); ([226; 179; 159], [226;
   179; 158]); ([226; 179; 161], [226; 179; 160]); ([226; 179; 163], [226;
   179; 162]); ([226; 179; 172], [226; 179; 171]); ([226; 179; 174], [226;
   179; 173]); ([226; 179; 179], [226; 179; 178]); ([226; 180; 128], [225;
   130; 160]); ([226; 180; 129], [225; 130; 161]); ([226; 180; 130], [225;
   130; 162]); ([226; 180; 131], [225; 130; 163]); ([226; 180; 132], [225;
   130; 164]); ([226; 180; 133], [225; 130; 165]); ([226; 180; 134], [225;
   130; 166]); ([226; 180; 135], [225; 130; 167]); ([226; 180; 136], [225;
   130; 168]); ([226; 180; 137], [225; 130; 169]); ([226; 180; 138], [225;
   130; 170]); ([226; 180; 139], [225; 130; 171]); ([226; 180; 140], [225;
   130; 172]); ([226; 180; 141], [225; 130; 173]); ([226; 180; 142], [225;
   130; 174]); ([226; 180; 143], [225; 130; 175]); ([226; 180; 144], [225;
   130; 176]); ([226; 180; 145], [225; 130; 177]); ([226; 180; 146], [225;
   130; 178]); ([226; 180; 147], [225; 130; 179]); ([226; 180; 148], [225;
   130; 180]); ([226; 180; 149], [225; 130; 181]); ([226; 180; 150], [225;
   130; 182]); ([226; 180; 151], [225; 130; 183]); ([226; 180; 152], [225;
   130; 184]); ([226; 180; 153], [225; 130; 185]); ([226; 180; 154], [225;
   130; 186]); ([226; 180; 155], [225; 130; 187]); ([226; 180; 156], [225;
   130; 188]); ([226; 180; 157], [225; 130; 189]); ([226; 180; 158], [225;
   130; 190]); ([226; 180; 159], [225; 130; 191]); ([226; 180; 160], [225;
   131; 128]); ([226; 180; 161], [225; 131; 129]); ([226; 180; 162], [225;
   131; 130]); ([226; 180; 163], [225; 131; 131]); ([226; 180; 164], [225;
   131; 132]); ([226; 180; 165], [225; 131; 133]); ([226; 180; 167], [225;
   131; 135]); ([226; 180; 173], [225; 131; 141]); ([234; 153; 129], [234;
   153; 128]); ([234; 153; 131], [234; 153; 130]); ([234; 153; 133], [234;
   153; 132]); ([234; 153; 135], [234; 153; 134]); ([234; 153; 137], [234;
   153; 136]); ([234; 153; 139], [234; 153; 138]); ([234; 153; 141], [234;
   153; 140]); ([234; 153; 143], [234; 153; 142]); ([234; 153; 145], [234;
   153; 144]); ([234; 153; 147], [234; 153; 146]); ([234; 153; 149], [234;
   153; 148]); ([234; 153; 151], [234; 153; 150]); ([234; 153; 153], [234;
   153; 152]); ([234; 153; 155], [234; 153; 154]); ([234; 153; 157], [234;
   153; 156]); ([234; 153; 159], [234; 153; 158]); ([234; 153; 161], [234;
   153; 160]); ([234; 153; 163], [234; 153; 162]); ([234; 153; 165], [234;
   153; 164]); ([234; 153; 167], [234; 153; 166]); ([234; 153; 169], [234;
   153; 168]); ([234; 153; 171], [234; 153; 170]); ([234; 153; 173], [234;
   153; 172]); ([234; 154; 129], [234; 154; 128]); ([234; 154; 131], [234;
   154; 130]); ([234; 154; 133], [234; 154; 132]); ([234; 154; 135], [234;
   154; 134]); ([234; 154; 137], [234; 154; 136]); ([234; 154; 139], [234;
   154; 138]); ([234; 154; 141], [234; 154; 140]); ([234; 154; 143], [234;
   154; 142]); ([234; 154; 145], [234; 154; 144]); ([234; 154; 147], [234;
   154; 146]); ([234; 154; 149], [234; 154; 148]); ([234; 154; 151], [234;
   154; 150]); ([234; 154; 153], [234; 154; 152]); ([234; 154; 155], [234;
   154; 154]); ([234; 156; 163], [234; 156; 162]); ([234; 156; 165], [234;
   156; 164]); ([234; 156; 167], [234; 156; 166]); ([234; 156; 169], [234;
   156; 168]); ([234; 156; 171], [234; 156; 170]); ([234; 156; 173], [234;
   156; 172]); ([234; 156; 175], [234; 156; 174]); ([234; 156; 179], [234;
   156; 178]); ([234; 156; 181], [234; 156; 180]); ([234; 156; 183], [234;
   156; 182]); ([234; 156; 185], [234; 156; 184]); ([234; 156; 187], [234;
   156; 186]); ([234; 156; 189], [234; 156; 188]); ([234; 156; 191], [234;
   156; 190]); ([234; 157; 129], [234; 157; 128]); ([234; 157; 131], [234;
   157; 130]); ([234; 157; 133], [234; 157; 132]); ([234; 157; 135], [234;
   157; 134]); ([234; 157; 137], [234; 157; 136]); ([234; 157; 139], [234;
   157; 138]); ([234; 157; 141], [234; 157; 140]); ([234; 157; 143], [234;
   157; 142]); ([234; 157; 145], [234; 157; 144]); ([234; 157; 147], [234;
   157; 146]); ([234; 157; 149], [234; 157; 148]); ([234; 157; 151], [234;
   157; 150]); ([234; 157; 153], [234; 157; 152]); ([234; 157; 155], [234;
   157; 154]); ([234; 157; 157], [234; 157; 156]); ([234; 157; 159], [234;
   157; 158]); ([234; 157; 161], [234; 157; 160]); ([234; 157; 163], [234;
   157; 162]); ([234; 157; 165], [234; 157; 164]); ([234; 157; 167], [234;
   157; 166]); ([234; 157; 169], [234; 157; 168]); ([234; 157; 171], [234;
   157; 170]); ([234; 157; 173], [234; 157; 172]); ([234; 157; 175], [234;
   157; 174]); ([234; 157; 186], [234; 157; 185]); ([234; 157; 188], [234;
   157; 187]); ([234; 157; 191], [234; 157; 190]); ([234; 158; 129], [234;
   158; 128]); ([234; 158; 131], [234; 158; 130]); ([234; 158; 133], [234;
   158; 132]); ([234; 158; 135], [234; 158; 134]); ([234; 158; 140], [234;
   158; 139]); ([234; 158; 145], [234; 158; 144]); ([234; 158; 147], [234;
   158; 146]); ([234; 158; 148], [234; 159; 132]); ([234; 158; 151], [234;
   158; 150]); ([234; 158; 153], [234; 158; 152]); ([234; 158; 155], [234;
   158; 154]); ([234; 158; 157], [234; 158; 156]); ([234; 158; 159], [234;
   158; 158]); ([234; 158; 161], [234; 158; 160]); ([234; 158; 163], [234;
   158; 162]); ([234; 158; 165], [234; 158; 164]); ([234; 158; 167], [234;
   158; 166]); ([234; 158; 169], [234; 158; 168]); ([234; 158; 181], [234;
   158; 180]); ([234; 158; 183], [234; 158; 182]); ([234; 158; 185], [234;
   158; 184]); ([234; 158; 187], [234; 158; 186]); ([234; 158; 189], [234;
   158; 188]); ([234; 158; 191], [234; 158; 190]); ([234; 159; 129], [234;
   159; 128]); ([234; 159; 131], [234; 159; 130]); ([234; 159; 136], [234;
   159; 135]); ([234; 159; 138], [234; 159; 137]); ([234; 159; 145], [234;
   159; 144]); ([234; 159; 151], [234; 159; 150]); ([234; 159; 153], [234;
   159; 152]); ([234; 159; 182], [234; 159; 181]); ([234; 173; 147], [234;
   158; 179]); ([234; 173; 176], [225; 142; 160]); ([234; 173; 177], [225;
   142; 161]); ([234; 173; 178], [225; 142; 162]); ([234; 173; 179], [225;
   142; 163]); ([234; 173; 180], [225; 142; 164]); ([234; 173; 181], [225;
   142; 165]); ([234; 173; 182], [225; 142; 166]); ([234; 173; 183], [225;
   142; 167]); ([234; 173; 184], [225; 142; 168]); ([234; 173; 185], [225;
   142; 169]); ([234; 173; 186], [225; 142; 170]); ([234; 173; 187], [225;
   142; 171]); ([234; 173; 188], [225; 142; 172]); ([234; 173; 189], [225;
   142; 173]); ([234; 173; 190], [225; 142; 174]); ([234; 173; 191], [225;
   142; 175]); ([234; 174; 128], [225; 142; 176]); ([234; 174; 129], [225;
   142; 177]); ([234; 174; 130], [225; 142; 178]); ([234; 174; 131], [225;
   142; 179]); ([234; 174; 132], [225; 142; 180]); ([234; 174; 133], [225;
   142; 181]); ([234; 174; 134], [225; 142; 182]); ([234; 174; 135], [225;
   142; 183]); ([234; 174; 136], [225; 142; 184]); ([234; 174; 137], [225;
   142; 185]); ([234; 174; 138], [225; 142; 186]); ([234; 174; 139], [225;
   142; 187]); ([234; 174; 140], [225; 142; 188]); ([234; 174; 141], [225;
   142; 189]); ([234; 174; 142], [225; 142; 190]); ([234; 174; 143], [225;
   142; 191]); ([234; 174; 144], [225; 143; 128]); ([234; 174; 145], [225;
   143; 129]); ([234; 174; 146], [225; 143; 130]); ([234; 174; 147], [225;
   143; 131]); ([234; 174; 148], [225; 143; 132]); ([234; 174; 149], [225;
   143; 133]); ([234; 174; 150], [225; 143; 134]); ([234; 174; 151], [225;
   143; 135]); ([234; 174; 152], [225; 143; 136]); ([234; 174; 153], [225;
   143; 137]); ([234; 174; 154], [225; 143; 138]); ([234; 174; 155], [225;
   143; 139]); ([234; 174; 156], [225; 143; 140]); ([234; 174; 157], [225;
   143; 141]); ([234; 174; 158], [225; 143; 142]); ([234; 174; 159], [225;
   143; 143]); ([234; 174; 160], [225; 143; 144]); ([234; 174; 161], [225;
   143; 145]); ([234; 174; 162], [225; 143; 146]); ([234; 174; 163], [225;
   143; 147]); ([234; 174; 164], [225; 143; 148]); ([234; 174; 165], [225;
   143; 149]); ([234; 174; 166], [225; 143; 150]); ([234; 174; 167], [225;
   143; 151]); ([234; 174; 168], [225; 143; 152]); ([234; 174; 169], [225;
   143; 153]); ([234; 174; 170], [225; 143; 154]); ([234; 174; 171], [225;
   143; 155]); ([234; 174; 172], [225; 143; 156]); ([234; 174; 173], [225;
   143; 157]); ([234; 174; 174], [225; 143; 158]); ([234; 174; 175], [225;
   143; 159]); ([234; 174; 176], [225; 143; 160]); ([234; 174; 177], [225;
   143; 161]); ([234; 174; 178], [225; 143; 162]); ([234; 174; 179], [225;
   143; 163]); ([234; 174; 180], [225; 143; 164]); ([234; 174; 181], [225;
   143; 165]); ([234; 174; 182], [225; 143; 166]); ([234; 174; 183], [225;
   143; 167]); ([234; 174; 184], [225; 143; 168]); ([234; 174; 185], [225;
   143; 169]); ([234; 174; 186], [225; 143; 170]); ([234; 174; 187], [225;
   143; 171]); ([234; 174; 188], [225; 143; 172]); ([234; 174; 189], [225;
   143; 173]); ([234; 174; 190], [225; 143; 174]); ([234; 174; 191], [225;
   143; 175]); ([239; 172; 128], [70; 70]); ([239; 172; 129], [70; 73]);
   ([239; 172; 130], [70; 76]); ([239; 172; 131], [70; 70; 73]); ([239; 172;
   132], [70; 70; 76]); ([239; 172; 133], [83; 84]); ([239; 172; 134], [83;
   84]); ([239; 172; 147], [213; 132; 213; 134]); ([239; 172; 148], [213;
   132; 212; 181]); ([239; 172; 149], [213; 132; 212; 187]); ([239; 172;
   150], [213; 142; 213; 134]); ([239; 172; 151], [213; 132; 212; 189]);
   ([239; 189; 129], [239; 188; 161]); ([239; 189; 130], [239; 188; 162]);
   ([239; 189; 131], [239; 188; 163]); ([239; 189; 132], [239; 188; 164]);
   ([239; 189; 133], [239; 188; 165]); ([239; 189; 134], [239; 188; 166]);
   ([239; 189; 135], [239; 188; 167]); ([239; 189; 136], [239; 188; 168]);
   ([239; 189; 137], [239; 188; 169]); ([239; 189; 138], [239; 188; 170]);
   ([239; 189; 139], [239; 188; 171]); ([239; 189; 140], [239; 188; 172]);
   ([239; 189; 141], [239; 188; 173]); ([239; 189; 142], [239; 188; 174]);
   ([239; 189; 143], [239; 188; 175]); ([239; 189; 144], [239; 188; 176]);
   ([239; 189; 145], [239; 188; 177]); ([239; 189; 146], [239; 188; 178]);
   ([239; 189; 147], [239; 188; 179]); ([239; 189; 148], [239; 188; 180]);
   ([239; 189; 149], [239; 188; 181]); ([239; 189; 150], [239; 188; 182]);
   ([239; 189; 151], [239; 188; 183]); ([239; 189; 152], [239; 188; 184]);
   ([239; 189; 153], [239; 188; 185]); ([239; 189; 154], [239; 188; 186]);
   ([240; 144; 144; 168], [240; 144; 144; 128]); ([240; 144; 144; 169],
   [240; 144; 144; 129]); ([240; 144; 144; 170], [240; 144; 144; 130]);
   ([240; 144; 144; 171], [240; 144; 144; 131]); ([240; 144; 144; 172],
   [240; 144; 144; 132]); ([240; 144; 144; 173], [240; 144; 144; 133]);
   ([240; 144; 144; 174], [240; 144; 144; 134]); ([240; 144; 144; 175],
   [240; 144; 144; 135]); ([240; 144; 144; 176], [240; 144; 144; 136]);
   ([240; 144; 144; 177], [240; 144; 144; 137]); ([240; 144; 144; 178],
   [240; 144; 144; 138]); ([240; 144; 144; 179], [240; 144; 144; 139]);
   ([240; 144; 144; 180], [240; 144; 144; 140]); ([240; 144; 144; 181],
   [240; 144; 144; 141]); ([240; 144; 144; 182], [240; 144; 144; 142]);
   ([240; 144; 144; 183], [240; 144; 144; 143]); ([240; 144; 144; 184],
   [240; 144; 144; 144]); ([240; 144; 144; 185], [240; 144; 144; 145]);
   ([240; 144; 144; 186], [240; 144; 144; 146]); ([240; 144; 144; 187],
   [240; 144; 144; 147]); ([240; 144; 144; 188], [240; 144; 144; 148]);
   ([240; 144; 144; 189], [240; 144; 144; 149]); ([240; 144; 144; 190],
   [240; 144; 144; 150]); ([240; 144; 144; 191], [240; 144; 144; 151]);
   ([240; 144; 145; 128], [240; 144; 144; 152]); ([240; 144; 145; 129],
   [240; 144; 144; 153]); ([240; 144; 145; 130], [240; 144; 144; 154]);
   ([240; 144; 145; 131], [240; 144; 144; 155]); ([240; 144; 145; 132],
   [240; 144; 144; 156]); ([240; 144; 145; 133], [240; 144; 144; 157]);
   ([240; 144; 145; 134], [240; 144; 144; 158]); ([240; 144; 145; 135],
   [240; 144; 144; 159]); ([240; 144; 145; 136], [240; 144; 144; 160]);
   ([240; 144; 145; 137], [240; 144; 144; 161]); ([240; 144; 145; 138],
   [240; 144; 144; 162]); ([240; 144; 145; 139], [240; 144; 144; 163]);
   ([240; 144; 145; 140], [240; 144; 144; 164]); ([240; 144; 145; 141],
   [240; 144; 144; 165]); ([240; 144; 145; 142], [240; 144; 144; 166]);
   ([240; 144; 145; 143], [240; 144; 144; 167]); ([240; 144; 147; 152],
   [240; 144; 146; 176]); ([240; 144; 147; 153], [240; 144; 146; 177]);
   ([240; 144; 147; 154], [240; 144; 146; 178]); ([240; 144; 147; 155],
   [240; 144; 146; 179]); ([240; 144; 147; 156], [240; 144; 146; 180]);
   ([240; 144; 147; 157], [240; 144; 146; 181]); ([240; 144; 147; 158],
   [240; 144; 146; 182]); ([240; 144; 147; 159], [240; 144; 146; 183]);
   ([240; 144; 147; 160], [240; 144; 146; 184]); ([240; 144; 147; 161],
   [240; 144; 146; 185]); ([240; 144; 147; 162], [240; 144; 146; 186]);
   ([240; 144; 147; 163], [240; 144; 146; 187]); ([240; 144; 147; 164],
   [240; 144; 146; 188]); ([240; 144; 147; 165], [240; 144; 146; 189]);
   ([240; 144; 147; 166], [240; 144; 146; 190]); ([240; 144; 147; 167],
   [240; 144; 146; 191]); ([240; 144; 147; 168], [240; 144; 147; 128]);
   ([240; 144; 147; 169], [240; 144; 147; 129]); ([240; 144; 147; 170],
   [240; 144; 147; 130]); ([240; 144; 147; 171], [240; 144; 147; 131]);
   ([240; 144; 147; 172], [240; 144; 147; 132]); ([240; 144; 147; 173],
   [240; 144; 147; 133]); ([240; 144; 147; 174], [240; 144; 147; 134]);
   ([240; 144; 147; 175], [240; 144; 147; 135]); ([240; 144; 147; 176],
   [240; 144; 147; 136]); ([240; 144; 147; 177], [240; 144; 147; 137]);
   ([240; 144; 147; 178], [240; 144; 147; 138]); ([240; 144; 147; 179],
   [240; 144; 147; 139]); ([240; 144; 147; 180], [240; 144; 147; 140]);
   ([240; 144; 147; 181], [240; 144; 147; 141]); ([240; 144; 147; 182],
   [240; 144; 147; 142]); ([240; 144; 147; 183], [240; 144; 147; 143]);
   ([240; 144; 147; 184], [240; 144; 147; 144]); ([240; 144; 147; 185],
   [240; 144; 147; 145]); ([240; 144; 147; 186], [240; 144; 147; 146]);
   ([240; 144; 147; 187], [240; 144; 147; 147]); ([240; 144; 150; 151],
   [240; 144; 149; 176]); ([240; 144; 150; 152], [240; 144; 149; 177]);
   ([240; 144; 150; 153], [240; 144; 149; 178]); ([240; 144; 150; 154],
   [240; 144; 149; 179]); ([240; 144; 150; 155], [240; 144; 149; 180]);
   ([240; 144; 150; 156], [240; 144; 149; 181]); ([240; 144; 150; 157],
   [240; 144; 149; 182]); ([240; 144; 150; 158], [240; 144; 149; 183]);
   ([240; 144; 150; 159], [240; 144; 149; 184]); ([240; 144; 150; 160],
   [240; 144; 149; 185]); ([240; 144; 150; 161], [240; 144; 149; 186]);
   ([240; 144; 150; 163], [240; 144; 149; 188]); ([240; 144; 150; 164],
   [240; 144; 149; 189]); ([240; 144; 150; 165], [240; 144; 149; 190]);
   ([240; 144; 150; 166], [240; 144; 149; 191]); ([240; 144; 150; 167],
   [240; 144; 150; 128]); ([240; 144; 150; 168], [240; 144; 150; 129]);
   ([240; 144; 150; 169], [240; 144; 150; 130]); ([240; 144; 150; 170],
   [240; 144; 150; 131]); ([240; 144; 150; 171], [240; 144; 150; 132]);
   ([240; 144; 150; 172], [240; 144; 150; 133]); ([240; 144; 150; 173],
   [240; 144; 150; 134]); ([240; 144; 150; 174], [240; 144; 150; 135]);
   ([240; 144; 150; 175], [240; 144; 150; 136]); ([240; 144; 150; 176],
   [240; 144; 150; 137]); ([240; 144; 150; 177], [240; 144; 150; 138]);
   ([240; 144; 150; 179], [240; 144; 150; 140]); ([240; 144; 150; 180],
   [240; 144; 150; 141]); ([240; 144; 150; 181], [240; 144; 150; 142]);
   ([240; 144; 150; 182], [240; 144; 150; 143]); ([240; 144; 150; 183],
   [240; 144; 150; 144]); ([240; 144; 150; 184], [240; 144; 150; 145]);
   ([240; 144; 150; 185], [240; 144; 150; 146]); ([240; 144; 150; 187],
   [240; 144; 150; 148]); ([240; 144; 150; 188], [240; 144; 150; 149]);
   ([240; 144; 179; 128], [240; 144; 178; 128]); ([240; 144; 179; 129],
   [240; 144; 178; 129]); ([240; 144; 179; 130], [240; 144; 178; 130]);
   ([240; 144; 179; 131], [240; 144; 178; 131]); ([240; 144; 179; 132],
   [240; 144; 178; 132]); ([240; 144; 179; 133], [240; 144; 178; 133]);
   ([240; 144; 179; 134], [240; 144; 178; 134]); ([240; 144; 179; 135],
   [240; 144; 178; 135]); ([240; 144; 179; 136], [240; 144; 178; 136]);
   ([240; 144; 179; 137], [240; 144; 178; 137]); ([240; 144; 179; 138],
   [240; 144; 178; 138]); ([240; 144; 179; 139], [240; 144; 178; 139]);
   ([240; 144; 179; 140], [240; 144; 178; 140]); ([240; 144; 179; 141],
   [240; 144; 178; 141]); ([240; 144; 179; 142], [240; 144; 178; 142]);
   ([240; 144; 179; 143], [240; 144; 178; 143]); ([240; 144; 179; 144],
   [240; 144; 178; 144]); ([240; 144; 179; 145], [240; 144; 178; 145]);
   ([240; 144; 179; 146], [240; 144; 178; 146]); ([240; 144; 179; 147],
   [240; 144; 178; 147]); ([240; 144; 179; 148], [240; 144; 178; 148]);
   ([240; 144; 179; 149], [240; 144; 178; 149]); ([240; 144; 179; 150],
   [240; 144; 178; 150]); ([240; 144; 179; 151], [240; 144; 178; 151]);
   ([240; 144; 179; 152], [240; 144; 178; 152]); ([240; 144; 179; 153],
   [240; 144; 178; 153]); ([240; 144; 179; 154], [240; 144; 178; 154]);
   ([240; 144; 179; 155], [240; 144; 178; 155]); ([240; 144; 179; 156],
   [240; 144; 178; 156]); ([240; 144; 179; 157], [240; 144; 178; 157]);
   ([240; 144; 179; 158], [240; 144; 178; 158]); ([240; 144; 179; 159],
   [240; 144; 178; 159]); ([240; 144; 179; 160], [240; 144; 178; 160]);
   ([240; 144; 179; 161], [240; 144; 178; 161]); ([240; 144; 179; 162],
   [240; 144; 178; 162]); ([240; 144; 179; 163], [240; 144; 178; 163]);
   ([240; 144; 179; 164], [240; 144; 178; 164]); ([240; 144; 179; 165],
   [240; 144; 178; 165]); ([240; 144; 179; 166], [240; 144; 178; 166]);
   ([240; 144; 179; 167], [240; 144; 178; 167]); ([240; 144; 179; 168],
   [240; 144; 178; 168]); ([240; 144; 179; 169], [240; 144; 178; 169]);
   ([240; 144; 179; 170], [240; 144; 178; 170]); ([240; 144; 179; 171],
   [240; 144; 178; 171]); ([240; 144; 179; 172], [240; 144; 178; 172]);
   ([240; 144; 179; 173], [240; 144; 178; 173]); ([240; 144; 179; 174],
   [240; 144; 178; 174]); ([240; 144; 179; 175], [240; 144; 178; 175]);
   ([240; 144; 179; 176], [240; 144; 178; 176]); ([240; 144; 179; 177],
   [240; 144; 178; 177]); ([240; 144; 179; 178], [240; 144; 178; 178]);
   ([240; 145; 163; 128], [240; 145; 162; 160]); ([240; 145; 163; 129],
   [240; 145; 162; 161]); ([240; 145; 163; 130], [240; 145; 162; 162]);
   ([240; 145; 163; 131], [240; 145; 162; 163]); ([240; 145; 163; 132],
   [240; 145; 162; 164]); ([240; 145; 163; 133], [240; 145; 162; 165]);
   ([240; 145; 163; 134], [240; 145; 162; 166]); ([240; 145; 163; 135],
   [240; 145; 162; 167]); ([240; 145; 163; 136], [240; 145; 162; 168]);
   ([240; 145; 163; 137], [240; 145; 162; 169]); ([240; 145; 163; 138],
   [240; 145; 162; 170]); ([240; 145; 163; 139], [240; 145; 162; 171]);
   ([240; 145; 163; 140], [240; 145; 162; 172]); ([240; 145; 163; 141],
   [240; 145; 162; 173]); ([240; 145; 163; 142], [240; 145; 162; 174]);
   ([240; 145; 163; 143], [240; 145; 162; 175]); ([240; 145; 163; 144],
   [240; 145; 162; 176]); ([240; 145; 163; 145], [240; 145; 162; 177]);
   ([240; 145; 163; 146], [240; 145; 162; 178]); ([240; 145; 163; 147],
   [240; 145; 162; 179]); ([240; 145; 163; 148], [240; 145; 162; 180]);
   ([240; 145; 163; 149], [240; 145; 162; 181]); ([240; 145; 163; 150],
   [240; 145; 162; 182]); ([240; 145; 163; 151], [240; 145; 162; 183]);
   ([240; 145; 163; 152], [240; 145; 162; 184]); ([240; 145; 163; 153],
   [240; 145; 162; 185]); ([240; 145; 163; 154], [240; 145; 162; 186]);
   ([240; 145; 163; 155], [240; 145; 162; 187]); ([240; 145; 163; 156],
   [240; 145; 162; 188]); ([240; 145; 163; 157], [240; 145; 162; 189]);
   ([240; 145; 163; 158], [240; 145; 162; 190]); ([240; 145; 163; 159],
   [240; 145; 162; 191]); ([240; 150; 185; 160], [240; 150; 185; 128]);
   ([240; 150; 185; 161], [240; 150; 185; 129]); ([240; 150; 185; 162],
   [240; 150; 185; 130]); ([240; 150; 185; 163], [240; 150; 185; 131]);
   ([240; 150; 185; 164], [240; 150; 185; 132]); ([240; 150; 185; 165],
   [240; 150; 185; 133]); ([240; 150; 185; 166], [240; 150; 185; 134]);
   ([240; 150; 185; 167], [240; 150; 185; 135]); ([240; 150; 185; 168],
   [240; 150; 185; 136]); ([240; 150; 185; 169], [240; 150; 185; 137]);
   ([240; 150; 185; 170], [240; 150; 185; 138]); ([240; 150; 185; 171],
   [240; 150; 185; 139]); ([240; 150; 185; 172], [240; 150; 185; 140]);
   ([240; 150; 185; 173], [240; 150; 185; 141]); ([240; 150; 185; 174],
   [240; 150; 185; 142]); ([240; 150; 185; 175], [240; 150; 185; 143]);
   ([240; 150; 185; 176], [240; 150; 185; 144]); ([240; 150; 185; 177],
   [240; 150; 185; 145]); ([240; 150; 185; 178], [240; 150; 185; 146]);
   ([240; 150; 185; 179], [240; 150; 185; 147]); ([240; 150; 185; 180],
   [240; 150; 185; 148]); ([240; 150; 185; 181], [240; 150; 185; 149]);
   ([240; 150; 185; 182], [240; 150; 185; 150]); ([240; 150; 185; 183],
   [240; 150; 185; 151]); ([240; 150; 185; 184], [240; 150; 185; 152]);
   ([240; 150; 185; 185], [240; 150; 185; 153]); ([240; 150; 185; 186],
   [240; 150; 185; 154]); ([240; 150; 185; 187], [240; 150; 185; 155]);
   ([240; 150; 185; 188], [240; 150; 185; 156]); ([240; 150; 185; 189],
   [240; 150; 185; 157]); ([240; 150; 185; 190], [240; 150; 185; 158]);
   ([240; 150; 185; 191], [240; 150; 185; 159]); ([240; 158; 164; 162],
   [240; 158; 164; 128]); ([240; 158; 164; 163], [240; 158; 164; 129]);
   ([240; 158; 164; 164], [240; 158; 164; 130]); ([240; 158; 164; 165],
   [240; 158; 164; 131]); ([240; 158; 164; 166], [240; 158; 164; 132]);
   ([240; 158; 164; 167], [240; 158; 164; 133]); ([240; 158; 164; 168],
   [240; 158; 164; 134]); ([240; 158; 164; 169], [240; 158; 164; 135]);
   ([240; 158; 164; 170], [240; 158; 164; 136]); ([240; 158; 164; 171],
   [240; 158; 164; 137]); ([240; 158; 164; 172], [240; 158; 164; 138]);
   ([240; 158; 164; 173], [240; 158; 164; 139]); ([240; 158; 164; 174],
   [240; 158; 164; 140]); ([240; 158; 164; 175], [240; 158; 164; 141]);
   ([240; 158; 164; 176], [240; 158; 164; 142]); ([240; 158; 164; 177],
   [240; 158; 164; 143]); ([240; 158; 164; 178], [240; 158; 164; 144]);
   ([240; 158; 164; 179], [240; 158; 164; 145]); ([240; 158; 164; 180],
   [240; 158; 164; 146]); ([240; 158; 164; 181], [240; 158; 164; 147]);
   ([240; 158; 164; 182], [240; 158; 164; 148]); ([240; 158; 164; 183],
   [240; 158; 164; 149]); ([240; 158; 164; 184], [240; 158; 164; 150]);
   ([240; 158; 164; 185], [240; 158; 164; 151]); ([240; 158; 164; 186],
   [240; 158; 164; 152]); ([240; 158; 164; 187], [240; 158; 164; 153]);
   ([240; 158; 164; 188], [240; 158; 164; 154]); ([240; 158; 164; 189],
   [240; 158; 164; 155]); ([240; 158; 164; 190], [240; 158; 164; 156]);
   ([240; 158; 164; 191], [240; 158; 164; 157]); ([240; 158; 165; 128],
   [240; 158; 164; 158]); ([240; 158; 165; 129], [240; 158; 164; 159]);
   ([240; 158; 165; 130], [240; 158; 164; 160]); ([240; 158; 165; 131],
   [240; 158; 164; 161])]%N.

(** [str.upper()] on one character: the ASCII letters by their offset,
    the others by the table. *)
Definition upper_char (ch : string) : string :=
  match ch with
  | String c EmptyString =>
      let n := N_of_ascii c in
      if ((97 <=? n) && (n <=? 122))%N
      then String (ascii_of_N (n - 32)) EmptyString
      else ch
  | _ =>
      match List.find (fun e => String.eqb (of_codes e.1) ch) upper_table with
      | Some e => of_codes e.2
      | None => ch
      end
  end.

(** [str.upper()] *)
Definition upper (s : string) : string :=
  of_chars (List.map upper_char (chars s)).

(** [sep.join(l)] *)
Fixpoint join (sep : string) (l : list string) : string :=
  match l with
  | [] => EmptyString
  | [x] => x
  | x :: l' => x +:+ sep +:+ join sep l'
  end.

(** [str(n)] for a natural number: its decimal digits. *)
Definition str_of_nat (n : nat) : string :=
  NilZero.string_of_uint (Nat.to_uint n).

(** The first character is blank. *)
Definition leading_blank (s : string) : bool :=
  match chars s with
  | [] => false
  | ch :: _ => isspace ch
  end.

(** The last character is blank. *)
Definition trailing_blank (s : string) : bool :=
  match last (chars s) with
  | None => false
  | Some ch => isspace ch
  end.

(** Every character is blank (true of the empty string). *)
Definition blank (s : string) : bool := forallb isspace (chars s).

(** The number of places where a word begins: a character that is not
    blank, at the start or right after a blank. *)
Fixpoint word_starts (after_blank : bool) (l : list string) : nat :=
  match l with
  | [] => 0
  | ch :: l' =>
      ((if after_blank && negb (isspace ch) then 1 else 0)
       + word_starts (isspace ch) l')%nat
  end.

(** [c in s] for one byte. *)
Fixpoint contains (c : ascii) (s : string) : bool :=
  match s with
  | EmptyString => false
  | String c' s' => Ascii.eqb c' c || contains c s'
  end.

(** [s.startswith(prefix)] *)
Fixpoint startswith (s prefix : string) : bool :=
  match prefix, s with
  | EmptyString, _ => true
  | String p prefix', String c s' => Ascii.eqb c p && startswith s' prefix'
  | String _ _, EmptyString => false
  end.

(** [str(z)] for an integer. *)
Definition str_of_int (z : Z) : string :=
  NilZero.string_of_int (Z.to_int z).

End PyStr.

(** ** models.py *)

(** The [Post] dataclass.  [created_at] is the parsed timestamp.  The class
    has no [updated_at] attribute. *)
Module Post.

Record t : Type := mk {
  id : Z;
  title : string;
  category : string;
  color : string;
  size : string;
  excerpt : string;
  content : string;
  media_files : string;
  created_at : Z;
  read_time : string;
  markdown_content : string
}.

(** [get_media_list]: [[f.strip() for f in self.media_files.split(',')
    if f.strip()]], and the empty list for an empty [media_files]. *)
Definition get_media_list (self : t) : list string :=
  if PyStr.is_empty (media_files self) then []
  else
    List.map PyStr.strip
      (List.filter (fun f => negb (PyStr.is_empty (PyStr.strip f)))
         (PyStr.split_on "," (media_files self))).

(** [has_markdown] *)
Definition has_markdown (self : t) : bool :=
  negb (PyStr.is_empty (markdown_content self))
  && negb (PyStr.is_empty (PyStr.strip (markdown_content self))).

End Post.

(** ** The relational store under database.py *)

(** One row of [posts], without its key.  The three columns that
    [_row_to_post] reads through [or ''] may hold NULL ([None]). *)
Module Row.

Record t : Type := mk {
  title : string;
  category : string;
  color : string;
  size : string;
  excerpt : option string;
  content : string;
  markdown_content : option string;
  media_files : option string;
  created_at : Z;
  updated_at : Z;
  read_time : string
}.

Definition set_markdown_content (v : option string) (r : t) : t :=
  mk (title r) (category r) (color r) (size r) (excerpt r) (content r)
     v (media_files r) (created_at r) (updated_at r) (read_time r).

End Row.

(** The [posts] table: its columns in declaration order, its rows by
    primary key, and the largest key AUTOINCREMENT has handed out.  A field
    of a row whose column is not in [columns] carries no meaning.  Keys are
    integers; the 64-bit limit of SQLite on them is not modelled. *)
Record Table : Type := mkTable {
  columns : list string;
  rows : gmap Z Row.t;
  seq : Z
}.

(** The database file: [None] until the [posts] table has been created. *)
Definition DB : Type := option Table.

(** The exceptions the store can raise: [sqlite3.OperationalError] (a
    statement names a table or column that does not exist, or an ALTER is
    refused) and the [IndexError] of [sqlite3.Row] for an unknown key. *)
Inductive exn : Type := OperationalError | IndexError.

Inductive result (A : Type) : Type :=
| Ok (a : A)
| Raise (e : exn).
Arguments Ok {A} a.
Arguments Raise {A} e.

#[global] Instance result_ret : MRet result := fun A a => Ok a.

#[global] Instance result_bind : MBind result := fun A B k r =>
  match r with
  | Ok a => k a
  | Raise e => Raise e
  end.

Definition has_column (t : Table) (c : string) : bool :=
  bool_decide (c ∈ columns t).

(** A statement is prepared only if every column it names exists. *)
Definition prepare (t : Table) (named : list string) : result unit :=
  if forallb (has_column t) named then Ok tt else Raise OperationalError.

(** The statement needs the table itself. *)
Definition the_table (db : DB) : result Table :=
  match db with
  | Some t => Ok t
  | None => Raise OperationalError
  end.

(** The largest key in use. *)
Definition max_rowid (m : gmap Z Row.t) : Z :=
  map_fold (fun k _ acc => Z.max k acc) 0 m.

(** The key AUTOINCREMENT gives the next row: one more than every key that
    is or ever was in the table. *)
Definition next_rowid (t : Table) : Z :=
  Z.max (seq t) (max_rowid (rows t)) + 1.

(** The columns of [CREATE TABLE posts]. *)
Definition schema : list string :=
  ["id"; "title"; "category"; "color"; "size"; "excerpt"; "content";
   "markdown_content"; "media_files"; "created_at"; "updated_at";
   "read_time"].

(** [CREATE TABLE IF NOT EXISTS posts (...)] *)
Definition create_table_if_not_exists (db : DB) : Table :=
  match db with
  | Some t => t
  | None => mkTable schema ∅ 0
  end.

(** [ALTER TABLE posts ADD COLUMN markdown_content TEXT], with the empty
    string as DEFAULT:
    refused for a duplicate column; otherwise every row gets the default. *)
Definition add_column_markdown_content (t : Table) : result Table :=
  if has_column t "markdown_content" then Raise OperationalError
  else Ok (mkTable (columns t ++ ["markdown_content"])
                   (Row.set_markdown_content (Some "") <$> rows t)
                   (seq t)).

(** [ALTER TABLE posts ADD COLUMN updated_at TIMESTAMP DEFAULT
    CURRENT_TIMESTAMP]: refused for a duplicate column, and, the default
    not being a constant, refused for a table that has rows. *)
Definition add_column_updated_at (t : Table) : result Table :=
  if has_column t "updated_at" then Raise OperationalError
  else if bool_decide (rows t = ∅) then
    Ok (mkTable (columns t ++ ["updated_at"]) (rows t) (seq t))
  else Raise OperationalError.

(** [try: ... except sqlite3.OperationalError: pass] around a statement on
    the table. *)
Definition try_except_OperationalError
    (stmt : Table -> result Table) (t : Table) : result Table :=
  match stmt t with
  | Ok t' => Ok t'
  | Raise OperationalError => Ok t
  | Raise e => Raise e
  end.

(** The nine values of an [INSERT INTO posts (title, category, color, size,
    excerpt, content, markdown_content, media_files, read_time)]. *)
Record Values : Type := mkValues {
  v_title : string;
  v_category : string;
  v_color : string;
  v_size : string;
  v_excerpt : string;
  v_content : string;
  v_markdown_content : string;
  v_media_files : string;
  v_read_time : string
}.

Definition insert_columns : list string :=
  ["title"; "category"; "color"; "size"; "excerpt"; "content";
   "markdown_content"; "media_files"; "read_time"].

(** The INSERT: the key comes from AUTOINCREMENT, [created_at] and
    [updated_at] from their default [CURRENT_TIMESTAMP].  Gives the new
    table and [cursor.lastrowid]. *)
Definition insert (now : Z) (v : Values) (t : Table) : result (Table * Z) :=
  prepare t insert_columns ;;
  let k := next_rowid t in
  let r := Row.mk (v_title v) (v_category v) (v_color v) (v_size v)
                  (Some (v_excerpt v)) (v_content v)
                  (Some (v_markdown_content v)) (Some (v_media_files v))
                  now now (v_read_time v) in
  Ok (mkTable (columns t) (<[k := r]> (rows t)) k, k).

(** An integer that SQLite holds in an INTEGER column: 64 bits, signed.
    The sqlite3 binding takes no other Python [int] as a parameter: it
    raises [OverflowError] before the statement runs.  The statements of
    the store are modelled for ids in this range. *)
Definition int64 (z : Z) : bool :=
  (- 2 ^ 63 <=? z) && (z <? 2 ^ 63).

(** ** database.py *)

Module database.

(** The tuples of [sample_posts], in the column order of the INSERT. *)
Definition sample_posts : list Values :=
  [ mkValues
      "The Future of Web Development: HTMX and Hypermedia"
      "TECHNOLOGY"
      "neon-pink"
      "bento-large"
      "Exploring how HTMX is changing the way we think about building interactive web applications..."
      "<p>In recent years, the web development landscape has been dominated by JavaScript frameworks like React, Vue, and Angular. But a quiet revolution is happening, led by tools like HTMX that embrace the original hypermedia model of the web.</p>
            <p>HTMX allows you to access modern browser features directly from HTML, rather than using JavaScript. This means you can create dynamic, interactive web applications with significantly less code and complexity.</p>
            <h2>Why HTMX?</h2>
            <p>The main advantage of HTMX is simplicity. Instead of managing complex client-side state, you let the server handle the logic and return HTML fragments that HTMX swaps into your page.</p>
            <p>This approach has several benefits:</p>
            <ul>
                <li>Smaller bundle sizes</li>
                <li>Better SEO out of the box</li>
                <li>Simpler mental model</li>
                <li>Works with any backend language</li>
            </ul>"
      "# The Future of Web Development: HTMX and Hypermedia

In recent years, the web development landscape has been dominated by JavaScript frameworks like React, Vue, and Angular. But a quiet revolution is happening, led by tools like HTMX that embrace the original hypermedia model of the web.

HTMX allows you to access modern browser features directly from HTML, rather than using JavaScript. This means you can create dynamic, interactive web applications with significantly less code and complexity.

## Why HTMX?

The main advantage of HTMX is simplicity. Instead of managing complex client-side state, you let the server handle the logic and return HTML fragments that HTMX swaps into your page.

This approach has several benefits:

- Smaller bundle sizes
- Better SEO out of the box
- Simpler mental model
- Works with any backend language"
      ""
      "5 min read";
    mkValues
      "Neon Aesthetics in Modern UI"
      "DESIGN"
      "neon-cyan"
      "bento-medium"
      "Why glowing colors are making a comeback..."
      "<p>Neon colors have made a dramatic comeback in web design, bringing energy and personality to digital interfaces.</p>
            <p>The cyberpunk aesthetic, popularized by movies and games, has influenced modern UI design trends.</p>
            <h2>Key Principles</h2>
            <ul>
                <li>Use dark backgrounds to make colors pop</li>
                <li>Add subtle glow effects with box-shadow</li>
                <li>Limit your neon palette to maintain hierarchy</li>
            </ul>"
      "# Neon Aesthetics in Modern UI

Neon colors have made a dramatic comeback in web design, bringing energy and personality to digital interfaces.

The cyberpunk aesthetic, popularized by movies and games, has influenced modern UI design trends.

## Key Principles

- Use dark backgrounds to make colors pop
- Add subtle glow effects with box-shadow
- Limit your neon palette to maintain hierarchy"
      ""
      "3 min read";
    mkValues
      "Quick CSS Tricks"
      "TIPS"
      "neon-purple"
      "bento-small"
      ""
      "<p>Here are some useful CSS tricks:</p>
            <h3>Center anything with Flexbox</h3>
            <pre><code>display: flex;
align-items: center;
justify-content: center;</code></pre>"
      "# Quick CSS Tricks

Here are some useful CSS tricks:

### Center anything with Flexbox

```css
display: flex;
align-items: center;
justify-content: center;
```"
      ""
      "2 min read"
  ].

(** [_insert_sample_posts]: the INSERT once per tuple, in order. *)
Fixpoint insert_each (now : Z) (posts : list Values) (t : Table)
    : result Table :=
  match posts with
  | [] => Ok t
  | post :: posts' =>
      p ← insert now post t;
      insert_each now posts' p.1
  end.

Definition _insert_sample_posts (now : Z) (t : Table) : result Table :=
  insert_each now sample_posts t.

(** [init_db].  The two ALTER statements run inside their [try]; the
    sample posts go in only when [SELECT COUNT( * )] is zero.  An
    exception from the INSERT leaves the table as committed before it. *)
Definition init_db (now : Z) (db : DB) : DB * result unit :=
  let t0 := create_table_if_not_exists db in
  match try_except_OperationalError add_column_markdown_content t0 with
  | Raise e => (Some t0, Raise e)
  | Ok t1 =>
      match try_except_OperationalError add_column_updated_at t1 with
      | Raise e => (Some t1, Raise e)
      | Ok t2 =>
          if Nat.eqb (size (rows t2)) 0
          then match _insert_sample_posts now t2 with
               | Ok t3 => (Some t3, Ok tt)
               | Raise e => (Some t2, Raise e)
               end
          else (Some t2, Ok tt)
      end
  end.

(** [x or ''] for a column value. *)
Definition or_empty (v : option string) : string :=
  match v with
  | Some s => s
  | None => ""
  end.

(** The keys [_row_to_post] reads outside its [try]. *)
Definition row_keys : list string :=
  ["id"; "title"; "category"; "color"; "size"; "excerpt"; "content";
   "media_files"; "created_at"; "read_time"].

(** [_row_to_post].  A missing [markdown_content] key is caught and
    gives the empty string; any other missing key is an [IndexError].
    [updated_at] is not read. *)
Definition _row_to_post (t : Table) (k : Z) (row : Row.t)
    : result Post.t :=
  let markdown_content :=
    if has_column t "markdown_content"
    then or_empty (Row.markdown_content row)
    else "" in
  if forallb (has_column t) row_keys
  then Ok (Post.mk k (Row.title row) (Row.category row) (Row.color row)
             (Row.size row) (or_empty (Row.excerpt row))
             (Row.content row) (or_empty (Row.media_files row))
             (Row.created_at row) (Row.read_time row) markdown_content)
  else Raise IndexError.

(** [ORDER BY created_at DESC]: the later row first. *)
Definition newer_first (a b : Z * Row.t) : Prop :=
  Row.created_at b.2 <= Row.created_at a.2.

#[global] Instance newer_first_dec a b : Decision (newer_first a b).
Proof. unfold newer_first. apply _. Defined.

(** [SELECT * FROM posts ORDER BY created_at DESC].  SQL leaves the
    order of rows with equal [created_at] open; here it is the one the
    sort gives on the enumeration of the table. *)
Definition select_order_by_created_at_desc (t : Table)
    : result (list (Z * Row.t)) :=
  prepare t ["created_at"] ;;
  Ok (merge_sort newer_first (map_to_list (rows t))).

(** [get_all_posts] *)
Definition get_all_posts (db : DB) : result (list Post.t) :=
  t ← the_table db;
  rws ← select_order_by_created_at_desc t;
  mapM (fun kr => _row_to_post t kr.1 kr.2) rws.

(** [get_post_by_id], for a [post_id] that SQLite can hold ([int64]). *)
Definition get_post_by_id (db : DB) (post_id : Z)
    : result (option Post.t) :=
  t ← the_table db;
  prepare t ["id"] ;;
  match rows t !! post_id with
  | Some row => p ← _row_to_post t post_id row; Ok (Some p)
  | None => Ok None
  end.

(** [get_latest_post] *)
Definition get_latest_post (db : DB) : result (option Post.t) :=
  t ← the_table db;
  rws ← select_order_by_created_at_desc t;
  match rws with
  | kr :: _ => p ← _row_to_post t kr.1 kr.2; Ok (Some p)
  | [] => Ok None
  end.

(** [create_post] *)
Definition create_post (now : Z) (db : DB)
    (title category color size excerpt content : string)
    (media_files : list string) (markdown_content : string)
    : DB * result (option Post.t) :=
  let word_count := length (PyStr.split content) in
  let read_time :=
    PyStr.str_of_nat (Nat.max 1 (word_count / 200)%nat) +:+ " min read" in
  let media_str := PyStr.join "," media_files in
  match
    t ← the_table db;
    insert now
      (mkValues title (PyStr.upper category) color size excerpt content
         markdown_content media_str read_time) t
  with
  | Raise e => (db, Raise e)
  | Ok (t', post_id) => (Some t', get_post_by_id (Some t') post_id)
  end.

Definition update_columns : list string :=
  ["title"; "category"; "color"; "size"; "excerpt"; "content";
   "markdown_content"; "media_files"; "read_time"; "updated_at"; "id"].

(** The UPDATE: every column of the SET list is replaced in the row
    [WHERE id = ?], and [updated_at] becomes [CURRENT_TIMESTAMP]; no row,
    no change. *)
Definition update (now : Z) (post_id : Z) (v : Values) (t : Table)
    : result Table :=
  prepare t update_columns ;;
  match rows t !! post_id with
  | None => Ok t
  | Some old =>
      let r := Row.mk (v_title v) (v_category v) (v_color v) (v_size v)
                 (Some (v_excerpt v)) (v_content v)
                 (Some (v_markdown_content v)) (Some (v_media_files v))
                 (Row.created_at old) now (v_read_time v) in
      Ok (mkTable (columns t) (<[post_id := r]> (rows t)) (seq t))
  end.

(** [update_post], for a [post_id] that SQLite can hold ([int64]). *)
Definition update_post (now : Z) (db : DB) (post_id : Z)
    (title category color size excerpt content : string)
    (media_files : list string) (markdown_content : string)
    : DB * result (option Post.t) :=
  let word_count := length (PyStr.split content) in
  let read_time :=
    PyStr.str_of_nat (Nat.max 1 (word_count / 200)%nat) +:+ " min read" in
  let media_str := PyStr.join "," media_files in
  match
    t ← the_table db;
    update now post_id
      (mkValues title (PyStr.upper category) color size excerpt content
         markdown_content media_str read_time) t
  with
  | Raise e => (db, Raise e)
  | Ok t' => (Some t', get_post_by_id (Some t') post_id)
  end.

(** [delete_post]: [DELETE FROM posts WHERE id = ?], then
    [cursor.rowcount > 0]; for a [post_id] that SQLite can hold
    ([int64]). *)
Definition delete_post (db : DB) (post_id : Z) : DB * result bool :=
  match t ← the_table db; prepare t ["id"] ;; Ok t with
  | Raise e => (db, Raise e)
  | Ok t =>
      let rowcount : nat :=
        match rows t !! post_id with Some _ => 1%nat | None => 0%nat end in
      (Some (mkTable (columns t) (delete post_id (rows t)) (seq t)),
       Ok (Nat.ltb 0 rowcount))
  end.

End database.

(** ** main.py: the markdown entry point *)

Module main.

Definition MARKDOWN_EXTRAS : list string :=
  ["fenced-code-blocks"; "tables"; "strike"; "task_list"; "code-friendly";
   "cuddled-lists"; "header-ids"].

Section render.

(** [markdown2.markdown(text, extras=...)], the converter of the
    markdown2 package, which is not part of the repository. *)
Variable markdown2_markdown : string -> list string -> string.

(** [render_markdown] *)
Definition render_markdown (text : string) : string :=
  if PyStr.is_empty text then ""
  else markdown2_markdown text MARKDOWN_EXTRAS.

End render.

(** *** The handlers that answer without a page template

    One request at a time.  What a handler leaves behind is the store, the
    files written under [uploads/], and the number of UUIDs drawn. *)

Record World : Type := mkWorld {
  store : DB;
  disk : gmap string string;
  drawn : nat
}.

(** An uploaded file as the handlers see it: [filename], [content_type]
    and what [read()] gives. *)
Record UploadFile : Type := mkUploadFile {
  filename : option string;
  content_type : option string;
  body : string
}.

(** How a handler ends: with an [HTMLResponse], with a raised
    [HTTPException], or with an exception of the store that nothing
    catches. *)
Inductive outcome : Type :=
| HTMLResponse (content : string) (status_code : Z)
    (headers : list (string * string))
| HTTPException (status_code : Z) (detail : string)
| Uncaught (e : exn).

(** A value of the dictionary [health_check] returns. *)
Inductive json : Type :=
| JStr (s : string)
| JInt (n : Z).

(** The double quote. *)
Definition dq : string := String "034" EmptyString.

(** The text [preview_markdown] answers with for blank input. *)
Definition preview_placeholder : string :=
  "<p class=" +:+ dq +:+ "preview-placeholder" +:+ dq
  +:+ ">Start typing to see preview...</p>".

(** [health_check] *)
Definition health_check (db : DB) : result (list (string * json)) :=
  posts ← database.get_all_posts db;
  Ok [("status", JStr "healthy");
      ("posts_count", JInt (Z.of_nat (length posts)))].

Section handlers.

Variable markdown2_markdown : string -> list string -> string.

(** [Path(name).suffix] of pathlib: a piece of the last component of the
    path, so it holds no slash, and joining it under [uploads/] is plain
    concatenation. *)
Variable path_suffix : string -> string.

(** [str(uuid.uuid4())]: the value of the n-th draw. *)
Variable uuid4 : nat -> string.

(** [str.lower()] of the Python runtime, which the upload loop calls on
    the suffix of a file name. *)
Variable str_lower : string -> string.

(** [preview_markdown] *)
Definition preview_markdown (content : string) : outcome :=
  if PyStr.is_empty (PyStr.strip content)
  then HTMLResponse preview_placeholder 200 []
  else HTMLResponse (render_markdown markdown2_markdown content) 200 [].

(** [x and x.startswith(prefix)] for an optional string. *)
Definition and_startswith (x : option string) (prefix : string) : bool :=
  match x with
  | Some s => negb (PyStr.is_empty s) && PyStr.startswith s prefix
  | None => false
  end.

(** The upload loop, which [create_markdown_post], [update_markdown_post]
    and [create_new_post] each write out in the same words: every named
    file draws a UUID; an image or a video is written under its directory
    and its path appended to [media_files]; anything else is skipped. *)
Fixpoint save_media (media : list UploadFile) (w : World)
    (media_files : list string) : World * list string :=
  match media with
  | [] => (w, media_files)
  | file :: media' =>
      match filename file with
      | Some name =>
          if PyStr.is_empty name then save_media media' w media_files
          else
            let file_ext := str_lower (path_suffix name) in
            let unique_filename := uuid4 (drawn w) +:+ file_ext in
            let w1 := mkWorld (store w) (disk w) (S (drawn w)) in
            if and_startswith (content_type file) "image/" then
              let file_path := "uploads/images/" +:+ unique_filename in
              save_media media'
                (mkWorld (store w1) (<[file_path := body file]> (disk w1))
                   (drawn w1))
                (media_files ++ [file_path])
            else if and_startswith (content_type file) "video/" then
              let file_path := "uploads/videos/" +:+ unique_filename in
              save_media media'
                (mkWorld (store w1) (<[file_path := body file]> (disk w1))
                   (drawn w1))
                (media_files ++ [file_path])
            else save_media media' w1 media_files
      | None => save_media media' w media_files
      end
  end.

(** [create_markdown_post] *)
Definition create_markdown_post (now : Z) (w : World)
    (title category color size excerpt content : string)
    (media : list UploadFile) : World * outcome :=
  let '(w1, media_files) := save_media media w [] in
  let html_content := render_markdown markdown2_markdown content in
  match database.create_post now (store w1) title category color size
          excerpt html_content media_files content with
  | (db', Ok new_post) =>
      (mkWorld db' (disk w1) (drawn w1),
       HTMLResponse "" 200 [("HX-Redirect", "/")])
  | (db', Raise e) => (mkWorld db' (disk w1) (drawn w1), Uncaught e)
  end.

(** [update_markdown_post] *)
Definition update_markdown_post (now : Z) (w : World) (post_id : Z)
    (title category color size excerpt content : string)
    (media : list UploadFile) : World * outcome :=
  match database.get_post_by_id (store w) post_id with
  | Raise e => (w, Uncaught e)
  | Ok None => (w, HTTPException 404 "Post not found")
  | Ok (Some post) =>
      let '(w1, media_files) :=
        save_media media w (Post.get_media_list post) in
      let html_content := render_markdown markdown2_markdown content in
      match database.update_post now (store w1) post_id title category
              color size excerpt html_content media_files content with
      | (db', Ok _) =>
          (mkWorld db' (disk w1) (drawn w1),
           HTMLResponse "" 200
             [("HX-Redirect", "/posts/" +:+ PyStr.str_of_int post_id)])
      | (db', Raise e) => (mkWorld db' (disk w1) (drawn w1), Uncaught e)
      end
  end.

End handlers.

End main.

(** ** Well-formed stores and histories *)

(** Every column of [CREATE TABLE posts] is there: the table [init_db]
    creates in a fresh file, or an older one that has all of them. *)
Definition full_schema (t : Table) : bool :=
  forallb (has_column t) schema.

(** No key in the table is above the AUTOINCREMENT counter. *)
Definition seq_covers_keys (t : Table) : bool :=
  max_rowid (rows t) <=? seq t.

(** The post [_row_to_post] builds from a row of a table that has every
    column it reads. *)
Definition post_of_row (k : Z) (row : Row.t) : Post.t :=
  Post.mk k (Row.title row) (Row.category row) (Row.color row)
    (Row.size row) (database.or_empty (Row.excerpt row)) (Row.content row)
    (database.or_empty (Row.media_files row)) (Row.created_at row)
    (Row.read_time row) (database.or_empty (Row.markdown_content row)).

(** The same row with another [updated_at]. *)
Definition with_updated_at (u : Z) (r : Row.t) : Row.t :=
  Row.mk (Row.title r) (Row.category r) (Row.color r) (Row.size r)
    (Row.excerpt r) (Row.content r) (Row.markdown_content r)
    (Row.media_files r) (Row.created_at r) u (Row.read_time r).

(** The fields a caller passes to [create_post] and [update_post]. *)
Record Fields : Type := mkFields {
  f_title : string;
  f_category : string;
  f_color : string;
  f_size : string;
  f_excerpt : string;
  f_content : string;
  f_media_files : list string;
  f_markdown_content : string
}.

Definition create (now : Z) (db : DB) (f : Fields)
    : DB * result (option Post.t) :=
  database.create_post now db (f_title f) (f_category f) (f_color f)
    (f_size f) (f_excerpt f) (f_content f) (f_media_files f)
    (f_markdown_content f).

Definition update (now : Z) (db : DB) (post_id : Z) (f : Fields)
    : DB * result (option Post.t) :=
  database.update_post now db post_id (f_title f) (f_category f)
    (f_color f) (f_size f) (f_excerpt f) (f_content f) (f_media_files f)
    (f_markdown_content f).

(** One call into the store, with the clock reading it sees. *)
Inductive call : Type :=
| CallInit (now : Z)
| CallCreate (now : Z) (f : Fields)
| CallUpdate (now : Z) (post_id : Z) (f : Fields)
| CallDelete (post_id : Z).

(** The store after the call; what the call returned or raised is dropped. *)
Definition after (c : call) (db : DB) : DB :=
  match c with
  | CallInit now => (database.init_db now db).1
  | CallCreate now f => (create now db f).1
  | CallUpdate now post_id f => (update now db post_id f).1
  | CallDelete post_id => (database.delete_post db post_id).1
  end.

(** The store after a history of calls, oldest first. *)
Fixpoint after_all (cs : list call) (db : DB) : DB :=
  match cs with
  | [] => db
  | c :: cs' => after_all cs' (after c db)
  end.

(** The id is in no row and can no longer be handed out: the table has
    the full schema and its counter is at or above the id. *)
Definition gone (post_id : Z) (db : DB) : Prop :=
  exists t, db = Some t /\ full_schema t = true
            /\ rows t !! post_id = None /\ post_id <= seq t.

(** The label the specification gives for a word count: one minute per
    200 words, rounded down, at least one. *)
Definition spec_read_time (word_count : nat) : string :=
  PyStr.str_of_nat (Nat.max 1 (word_count / 200)%nat) +:+ " min read".

(** [n] one-letter words, each followed by a space. *)
Fixpoint words (n : nat) : string :=
  match n with
  | O => EmptyString
  | S n' => String "w" (String " " (words n'))
  end.

(** U+00A0, the no-break space, and U+2003, the em space. *)
Definition nbsp : string := PyStr.of_codes [194; 160]%N.

Definition em_space : string := PyStr.of_codes [226; 128; 131]%N.

(** [n] one-letter words, each followed by a no-break space. *)
Fixpoint nbsp_words (n : nat) : string :=
  match n with
  | O => EmptyString
  | S n' => String "w" (nbsp +:+ nbsp_words n')
  end.

(** The table of a fresh file after [init_db]: the three sample posts. *)
Definition seeded_table : Table :=
  create_table_if_not_exists (database.init_db 1700000000 None).1.

(** A table with one post, created at 1700000000, and its row. *)
Definition one_post_row : Row.t :=
  Row.mk "T" "NEWS" "c" "s" (Some "e") "text" (Some "") (Some "")
    1700000000 1700000000 "1 min read".

Definition one_post_table : Table :=
  mkTable schema {[1 := one_post_row]} 1.

(** A whole character: a first byte and the bytes it calls for. *)
Definition complete (x : string) : Prop :=
  match x with
  | EmptyString => False
  | String c y => String.length y = PyStr.tail_bytes c
  end.

(** A character, or the beginning of one as a text that is cut short
    ends with. *)
Definition chunk (x : string) : Prop :=
  match x with
  | EmptyString => False
  | String c y => (String.length y <= PyStr.tail_bytes c)%nat
  end.

(** A list of characters as [PyStr.chars] gives it: every one whole, but
    for the last, which may be cut short. *)
Fixpoint shaped (l : list string) : Prop :=
  match l with
  | [] => True
  | x :: l' =>
      match l' with
      | [] => chunk x
      | _ :: _ => complete x /\ shaped l'
      end
  end.

(** Whether a list is empty. *)
Definition nil_b {A : Type} (l : list A) : bool :=
  match l with [] => true | _ :: _ => false end.

(** The last character, if there is one, is blank. *)
Definition last_blank (l : list string) : bool :=
  match last l with
  | None => false
  | Some ch => PyStr.isspace ch
  end.

(** The first character, if there is one, is blank. *)
Definition head_blank (l : list string) : bool :=
  match l with
  | [] => false
  | ch :: _ => PyStr.isspace ch
  end.

(** A media path that survives the comma-separated column: not empty, no
    blank at either end, no comma. *)
Definition clean_path (f : string) : bool :=
  negb (PyStr.is_empty f)
  && negb (PyStr.leading_blank f)
  && negb (PyStr.trailing_blank f)
  && negb (PyStr.contains "," f).

(** A world to run the handlers in: a stand-in converter that wraps its
    input in a paragraph, a suffix function that answers [".PNG"] for
    every name, a lower-casing that knows that suffix, numbered UUIDs, the
    one-post store and an empty disk. *)
Definition demo_markdown (text : string) (extras : list string) : string :=
  "<p>" +:+ text +:+ "</p>".

Definition demo_suffix (name : string) : string := ".PNG".

Definition demo_lower (s : string) : string :=
  if String.eqb s ".PNG" then ".png" else s.

Definition demo_uuid4 (n : nat) : string := "uuid-" +:+ PyStr.str_of_nat n.

Definition demo_world : main.World :=
  main.mkWorld (Some one_post_table) ∅ 0.

Definition demo_media : list main.UploadFile :=
  [main.mkUploadFile (Some "a.PNG") (Some "image/png") "bytes of a";
   main.mkUploadFile (Some "notes.txt") (Some "text/plain") "bytes of n";
   main.mkUploadFile None (Some "video/mp4") "bytes of nothing";
   main.mkUploadFile (Some "clip.PNG") (Some "video/mp4") "bytes of c"].

(** * Properties *)

(** ** The string primitives on examples *)

Example split_ex : PyStr.split "  a bc
 d " = ["a"; "bc"; "d"].
Proof. reflexivity. Qed.

Example split_on_ex : PyStr.split_on "," "a,,b," = ["a"; ""; "b"; ""].
Proof. reflexivity. Qed.

Example split_on_empty_ex : PyStr.split_on "," "" = [""].
Proof. reflexivity. Qed.

Example strip_ex : PyStr.strip "  a b  " = "a b".
Proof. reflexivity. Qed.

Example upper_ex : PyStr.upper "tips-1 Az" = "TIPS-1 AZ".
Proof. reflexivity. Qed.

(** Letters outside ASCII have their upper case too, and one letter may
    become two. *)
Example upper_unicode_ex :
  PyStr.upper "café" = "CAFÉ" /\ PyStr.upper "straße" = "STRASSE".
Proof. split; reflexivity. Qed.

(** The no-break space and the em space are blanks. *)
Example split_unicode_ex :
  PyStr.split ("a" +:+ nbsp +:+ "b" +:+ em_space +:+ "é") = ["a"; "b"; "é"].
Proof. reflexivity. Qed.

Example strip_unicode_ex :
  PyStr.strip (nbsp +:+ " a" +:+ nbsp +:+ "b" +:+ em_space)
  = "a" +:+ nbsp +:+ "b".
Proof. reflexivity. Qed.

Example chars_ex :
  PyStr.chars "aé€" = ["a"; "é"; "€"] /\ PyStr.blank nbsp = true.
Proof. split; reflexivity. Qed.

Example join_ex : PyStr.join "," ["a"; "b"; "c"] = "a,b,c".
Proof. reflexivity. Qed.

Example str_ex : PyStr.str_of_nat 120 = "120" /\ PyStr.str_of_nat 0 = "0".
Proof. split; reflexivity. Qed.

(** ** Characters *)

Lemma snoc_not_empty (s : string) (c : ascii) :
  PyStr.is_empty (PyStr.snoc s c) = false.
Proof. by destruct s. Qed.

Lemma append_empty_r (s : string) : s +:+ "" = s.
Proof.
  induction s as [|c s IH]; [done|].
  change (String c (s +:+ "") = String c s). by rewrite IH.
Qed.

Lemma append_assoc (a b c : string) : (a +:+ b) +:+ c = a +:+ (b +:+ c).
Proof.
  induction a as [|x a IH]; [done|].
  change (String x ((a +:+ b) +:+ c) = String x (a +:+ (b +:+ c))).
  by rewrite IH.
Qed.

Lemma snoc_append (piece : string) (c : ascii) (x : string) :
  PyStr.snoc piece c +:+ x = piece +:+ String c x.
Proof. unfold PyStr.snoc. by rewrite append_assoc. Qed.

Lemma length_snoc (s : string) (c : ascii) :
  String.length (PyStr.snoc s c) = S (String.length s).
Proof.
  induction s as [|x s IH]; [done|].
  change (S (String.length (PyStr.snoc s c)) = S (S (String.length s))).
  by rewrite IH.
Qed.

(** The characters of a text, put together again, are the text. *)
Lemma of_chars_chars_go (s cur : string) (need : nat) :
  (need = 0%nat -> cur = "") ->
  PyStr.of_chars (PyStr.chars_go cur need s) = cur +:+ s.
Proof.
  revert cur need. induction s as [|c s IH]; intros cur need Hneed.
  - cbn [PyStr.chars_go]. rewrite append_empty_r.
    destruct cur; [done|]. cbn. by rewrite append_empty_r.
  - destruct need as [|[|k]]; cbn [PyStr.chars_go].
    + rewrite (Hneed eq_refl).
      destruct (PyStr.tail_bytes c); cbn [PyStr.of_chars].
      * by rewrite IH.
      * by rewrite IH.
    + cbn [PyStr.of_chars]. rewrite IH by done.
      change ("" +:+ s) with s. by rewrite snoc_append.
    + rewrite IH by done. by rewrite snoc_append.
Qed.

Lemma of_chars_chars (s : string) : PyStr.of_chars (PyStr.chars s) = s.
Proof. unfold PyStr.chars. by rewrite of_chars_chars_go. Qed.

Lemma complete_chunk (x : string) : complete x -> chunk x.
Proof. destruct x as [|c y]; [done|]. simpl. lia. Qed.

Lemma shaped_cons (x : string) (l : list string) :
  complete x -> shaped l -> shaped (x :: l).
Proof.
  intros Hx Hl. destruct l as [|y l]; [by apply complete_chunk|].
  by split.
Qed.

Lemma shaped_tail (x : string) (l : list string) :
  shaped (x :: l) -> shaped l.
Proof. destruct l as [|y l]; [done|]. by intros [_ H]. Qed.

Lemma shaped_head (x : string) (l : list string) :
  shaped (x :: l) -> chunk x.
Proof.
  destruct l as [|y l]; [done|]. intros [H _]. by apply complete_chunk.
Qed.

Lemma shaped_head_complete (x y : string) (l : list string) :
  shaped (x :: y :: l) -> complete x.
Proof. by intros [H _]. Qed.

Lemma shaped_chars_go (s cur : string) (need : nat) :
  match cur with
  | EmptyString => need = 0%nat
  | String c y =>
      (0 < need)%nat /\ (String.length y + need)%nat = PyStr.tail_bytes c
  end ->
  shaped (PyStr.chars_go cur need s).
Proof.
  revert cur need. induction s as [|c' s IH]; intros cur need Hcur.
  - destruct cur as [|c y]; [done|]. simpl. lia.
  - destruct need as [|[|k]]; cbn [PyStr.chars_go].
    + destruct cur as [|c y]; [|lia].
      destruct (PyStr.tail_bytes c') as [|k] eqn:Hc'.
      * apply shaped_cons; [by simpl|]. by apply IH.
      * apply IH. simpl. lia.
    + destruct cur as [|c y]; [done|].
      apply shaped_cons; [|by apply IH].
      change (String.length (PyStr.snoc y c') = PyStr.tail_bytes c).
      rewrite length_snoc. lia.
    + destruct cur as [|c y]; [done|]. apply IH.
      change ((0 < S k)%nat
              /\ (String.length (PyStr.snoc y c') + S k)%nat
                 = PyStr.tail_bytes c).
      rewrite length_snoc. lia.
Qed.

Lemma shaped_chars (s : string) : shaped (PyStr.chars s).
Proof. by apply shaped_chars_go. Qed.

Lemma chars_go_short (y cur : string) (need : nat) :
  (String.length y < need)%nat -> PyStr.is_empty cur = false ->
  PyStr.chars_go cur need y = [cur +:+ y].
Proof.
  revert cur need. induction y as [|c y IH]; intros cur need Hlen Hcur.
  - cbn [PyStr.chars_go]. by rewrite Hcur, append_empty_r.
  - destruct need as [|[|k]]; simpl in Hlen; [lia|lia|].
    cbn [PyStr.chars_go]. rewrite IH; [|lia|by apply snoc_not_empty].
    by rewrite snoc_append.
Qed.

Lemma chars_go_tail (y cur rest : string) (k : nat) :
  String.length y = S k ->
  PyStr.chars_go cur (S k) (y +:+ rest) = (cur +:+ y) :: PyStr.chars rest.
Proof.
  revert cur k. induction y as [|c y IH]; intros cur k Hlen; [done|].
  change (String c y +:+ rest) with (String c (y +:+ rest)).
  destruct k as [|k]; cbn [PyStr.chars_go].
  - destruct y; [done|discriminate].
  - simpl in Hlen. rewrite IH by lia. by rewrite snoc_append.
Qed.

(** A whole character at the front of a text is its first character. *)
Lemma chars_complete (x rest : string) :
  complete x -> PyStr.chars (x +:+ rest) = x :: PyStr.chars rest.
Proof.
  destruct x as [|c y]; [done|]. intros Hx. simpl in Hx.
  change (String c y +:+ rest) with (String c (y +:+ rest)).
  unfold PyStr.chars at 1. cbn [PyStr.chars_go].
  destruct (PyStr.tail_bytes c) as [|k].
  - by destruct y.
  - by rewrite chars_go_tail.
Qed.

Lemma chars_chunk (x : string) : chunk x -> PyStr.chars x = [x].
Proof.
  destruct x as [|c y]; [done|]. intros Hx. simpl in Hx.
  destruct (decide (String.length y = PyStr.tail_bytes c)) as [Heq|Hne].
  - rewrite <- (append_empty_r (String c y)) at 1.
    by rewrite chars_complete.
  - unfold PyStr.chars. cbn [PyStr.chars_go].
    destruct (PyStr.tail_bytes c) as [|k]; [lia|].
    rewrite chars_go_short; [done|lia|done].
Qed.

(** Characters put together and taken apart again are the same
    characters. *)
Lemma chars_of_chars (l : list string) :
  shaped l -> PyStr.chars (PyStr.of_chars l) = l.
Proof.
  induction l as [|x l IH]; [done|]. intros Hl.
  destruct l as [|y l].
  - cbn [PyStr.of_chars]. rewrite append_empty_r. by apply chars_chunk.
  - destruct Hl as [Hx Hl]. cbn [PyStr.of_chars].
    rewrite chars_complete by done. f_equal. by apply IH.
Qed.

Lemma shaped_not_empty (l : list string) :
  shaped l -> PyStr.is_empty (PyStr.of_chars l) = nil_b l.
Proof.
  destruct l as [|x l]; [done|]. intros Hl.
  apply shaped_head in Hl. by destruct x.
Qed.

(** ** [str.strip()] on the characters *)

Lemma shaped_lstrip (l : list string) :
  shaped l -> shaped (PyStr.lstrip_chars l).
Proof.
  induction l as [|x l IH]; [done|]. intros Hl. cbn [PyStr.lstrip_chars].
  destruct (PyStr.isspace x); [|done]. by eapply IH, shaped_tail.
Qed.

Lemma shaped_rstrip (l : list string) :
  shaped l -> shaped (PyStr.rstrip_chars l).
Proof.
  induction l as [|x l IH]; [done|]. intros Hl. cbn [PyStr.rstrip_chars].
  destruct (PyStr.rstrip_chars l) as [|y r] eqn:Hr.
  - destruct (PyStr.isspace x); [done|]. by eapply shaped_head.
  - split; [|by eapply IH, shaped_tail].
    destruct l as [|z l]; [done|]. by eapply shaped_head_complete.
Qed.

Lemma chars_strip (s : string) :
  PyStr.chars (PyStr.strip s)
  = PyStr.rstrip_chars (PyStr.lstrip_chars (PyStr.chars s)).
Proof.
  unfold PyStr.strip. apply chars_of_chars.
  apply shaped_rstrip, shaped_lstrip, shaped_chars.
Qed.

Lemma lstrip_chars_head (l : list string) :
  head_blank (PyStr.lstrip_chars l) = false.
Proof.
  induction l as [|x l IH]; [done|]. cbn [PyStr.lstrip_chars].
  destruct (PyStr.isspace x) eqn:Hx; [done|]. simpl. by rewrite Hx.
Qed.

Lemma rstrip_chars_head (l : list string) :
  head_blank l = false -> head_blank (PyStr.rstrip_chars l) = false.
Proof.
  destruct l as [|x l]; [done|]. simpl. intros Hx.
  destruct (PyStr.rstrip_chars l); [by rewrite Hx|done].
Qed.

Lemma rstrip_chars_last (l : list string) :
  last_blank (PyStr.rstrip_chars l) = false.
Proof.
  induction l as [|x l IH]; [done|]. cbn [PyStr.rstrip_chars].
  destruct (PyStr.rstrip_chars l) as [|y r] eqn:Hr.
  - destruct (PyStr.isspace x) eqn:Hx; [done|].
    unfold last_blank. simpl. by rewrite Hx.
  - done.
Qed.

Lemma lstrip_chars_id (l : list string) :
  head_blank l = false -> PyStr.lstrip_chars l = l.
Proof. destruct l as [|x l]; [done|]. simpl. by intros ->. Qed.

Lemma rstrip_chars_id (l : list string) :
  last_blank l = false -> PyStr.rstrip_chars l = l.
Proof.
  induction l as [|x l IH]; [done|]. intros Hl. cbn [PyStr.rstrip_chars].
  destruct l as [|y l].
  - unfold last_blank in Hl. simpl in *. by rewrite Hl.
  - rewrite IH by done. done.
Qed.

Lemma strip_chars_nil (l : list string) :
  nil_b (PyStr.rstrip_chars (PyStr.lstrip_chars l))
  = forallb PyStr.isspace l.
Proof.
  induction l as [|x l IH]; [done|]. cbn [PyStr.lstrip_chars forallb].
  destruct (PyStr.isspace x) eqn:Hx; [done|].
  cbn [PyStr.rstrip_chars andb].
  destruct (PyStr.rstrip_chars l); [by rewrite Hx|done].
Qed.

(** What [strip] gives begins and ends with a character that is not
    blank. *)
Lemma strip_no_blank_ends (s : string) :
  PyStr.leading_blank (PyStr.strip s) = false
  /\ PyStr.trailing_blank (PyStr.strip s) = false.
Proof.
  unfold PyStr.leading_blank, PyStr.trailing_blank. rewrite chars_strip.
  split.
  - apply (rstrip_chars_head _ (lstrip_chars_head _)).
  - apply rstrip_chars_last.
Qed.

(** [strip] gives the empty string exactly on blank text. *)
Lemma strip_empty_blank (s : string) :
  PyStr.is_empty (PyStr.strip s) = PyStr.blank s.
Proof.
  unfold PyStr.strip, PyStr.blank.
  rewrite shaped_not_empty
    by apply shaped_rstrip, shaped_lstrip, shaped_chars.
  apply strip_chars_nil.
Qed.

(** [strip] leaves a text with no blank at either end as it is. *)
Lemma strip_id (s : string) :
  PyStr.leading_blank s = false -> PyStr.trailing_blank s = false ->
  PyStr.strip s = s.
Proof.
  unfold PyStr.leading_blank, PyStr.trailing_blank, PyStr.strip.
  intros Hl Ht.
  rewrite (lstrip_chars_id _ Hl), (rstrip_chars_id _ Ht).
  apply of_chars_chars.
Qed.

Lemma contains_append (c : ascii) (a b : string) :
  PyStr.contains c (a +:+ b) = PyStr.contains c a || PyStr.contains c b.
Proof.
  induction a as [|x a IH]; [done|].
  change (String x a +:+ b) with (String x (a +:+ b)). simpl.
  by rewrite IH, orb_assoc.
Qed.

Lemma contains_of_chars (c : ascii) (l : list string) :
  PyStr.contains c (PyStr.of_chars l) = existsb (PyStr.contains c) l.
Proof.
  induction l as [|x l IH]; [done|]. simpl.
  by rewrite contains_append, IH.
Qed.

Lemma existsb_lstrip_chars (f : string -> bool) (l : list string) :
  existsb f l = false -> existsb f (PyStr.lstrip_chars l) = false.
Proof.
  induction l as [|x l IH]; [done|]. intros Hl. cbn [PyStr.lstrip_chars].
  destruct (PyStr.isspace x); [|done].
  simpl in Hl. apply orb_false_elim in Hl as [_ Hl]. by apply IH.
Qed.

Lemma existsb_rstrip_chars (f : string -> bool) (l : list string) :
  existsb f l = false -> existsb f (PyStr.rstrip_chars l) = false.
Proof.
  induction l as [|x l IH]; [done|]. intros Hl. cbn [PyStr.rstrip_chars].
  simpl in Hl. apply orb_false_elim in Hl as [Hx Hl].
  specialize (IH Hl).
  destruct (PyStr.rstrip_chars l) as [|y r].
  - destruct (PyStr.isspace x); [done|]. simpl. by rewrite Hx.
  - change (f x || existsb f (y :: r) = false). by rewrite Hx, IH.
Qed.

(** [strip] brings in no byte the text did not have. *)
Lemma contains_strip (c : ascii) (s : string) :
  PyStr.contains c s = false -> PyStr.contains c (PyStr.strip s) = false.
Proof.
  intros Hs. unfold PyStr.strip. rewrite contains_of_chars.
  apply existsb_rstrip_chars, existsb_lstrip_chars.
  by rewrite <- contains_of_chars, of_chars_chars.
Qed.

(** ** [str.split()] gives the words *)

Lemma split_go_length (word l : list string) :
  length (PyStr.split_go word l)
  = if nil_b word then PyStr.word_starts true l
    else S (PyStr.word_starts false l).
Proof.
  revert word. induction l as [|ch l IH]; intros word.
  - by destruct word.
  - cbn [PyStr.split_go PyStr.word_starts].
    destruct (PyStr.isspace ch) eqn:Hch.
    + destruct word as [|w word]; simpl; by rewrite IH.
    + rewrite IH. destruct word as [|w word]; simpl; done.
Qed.

(** The length of [content.split()] is the number of words of the content:
    the number of places where a run of non-blank characters begins. *)
Lemma split_length (s : string) :
  length (PyStr.split s) = PyStr.word_starts true (PyStr.chars s).
Proof.
  unfold PyStr.split. rewrite List.length_map. by rewrite split_go_length.
Qed.

Lemma split_go_words (word l : list string) :
  forallb (fun ch => negb (PyStr.isspace ch)) word = true ->
  Forall (fun w => nil_b w = false
                   /\ forallb (fun ch => negb (PyStr.isspace ch)) w = true)
         (PyStr.split_go word l).
Proof.
  revert word. induction l as [|ch l IH]; intros word Hword.
  - destruct word as [|w word]; [done|]. by repeat constructor.
  - cbn [PyStr.split_go]. destruct (PyStr.isspace ch) eqn:Hch.
    + destruct word as [|w word]; [by apply IH|].
      constructor; [done|]. by apply IH.
    + apply IH. rewrite forallb_app, Hword. simpl. by rewrite Hch.
Qed.

(** Every word of [content.split()] is a run of characters that is not
    empty and holds no blank. *)
Lemma split_words (s : string) :
  Forall (fun w => nil_b w = false
                   /\ forallb (fun ch => negb (PyStr.isspace ch)) w = true)
         (PyStr.split_go [] (PyStr.chars s)).
Proof. by apply split_go_words. Qed.

(** ** Keys *)

Lemma max_rowid_bounds (m : gmap Z Row.t) :
  0 <= max_rowid m /\ forall k r, m !! k = Some r -> k <= max_rowid m.
Proof.
  unfold max_rowid.
  apply (map_fold_weak_ind
           (fun b m => 0 <= b /\ forall k r, m !! k = Some r -> k <= b)).
  - split; [lia|]. intros k r Hk. by rewrite lookup_empty in Hk.
  - intros i x m' b Hi [Hb IH]. split; [lia|].
    intros k r Hk. destruct (decide (i = k)) as [->|Hne]; [lia|].
    rewrite lookup_insert_ne in Hk by done.
    specialize (IH k r Hk). lia.
Qed.

Lemma max_rowid_least (m : gmap Z Row.t) (s : Z) :
  0 <= s -> (forall k r, m !! k = Some r -> k <= s) -> max_rowid m <= s.
Proof.
  intros Hs. unfold max_rowid.
  apply (map_fold_weak_ind
           (fun b m => (forall k r, m !! k = Some r -> k <= s) -> b <= s)).
  - lia.
  - intros i x m' b Hi IH Hall.
    assert (i <= s) by (apply (Hall i x); by rewrite lookup_insert_eq).
    assert (b <= s); [|lia].
    apply IH. intros k r Hk. apply (Hall k r).
    rewrite lookup_insert_ne; [done|]. intros ->. congruence.
Qed.

Lemma next_rowid_above (t : Table) k r :
  rows t !! k = Some r -> k < next_rowid t.
Proof.
  intros Hk. unfold next_rowid.
  destruct (max_rowid_bounds (rows t)) as [_ Hmax].
  specialize (Hmax k r Hk). lia.
Qed.

Lemma next_rowid_fresh (t : Table) : rows t !! next_rowid t = None.
Proof.
  destruct (rows t !! next_rowid t) as [r|] eqn:Hk; [|done].
  apply next_rowid_above in Hk. lia.
Qed.

Lemma next_rowid_above_seq (t : Table) : seq t < next_rowid t.
Proof. unfold next_rowid. lia. Qed.

(** ** Statements on a table with the full schema *)

Ltac in_schema :=
  unfold insert_columns, database.update_columns, database.row_keys, schema;
  repeat constructor; set_solver.

Section FullSchema.

Variable t : Table.
Hypothesis Hfull : full_schema t = true.

Lemma has_column_full (c : string) :
  c ∈ schema -> has_column t c = true.
Proof.
  revert Hfull. unfold full_schema. rewrite forallb_forall.
  intros Hall Hc. apply Hall. by apply list_elem_of_In.
Qed.

Lemma forallb_columns_full (named : list string) :
  Forall (fun c => c ∈ schema) named ->
  forallb (has_column t) named = true.
Proof.
  intros Hnamed. apply forallb_forall. intros c Hc.
  apply has_column_full.
  rewrite Forall_forall in Hnamed. by apply Hnamed, list_elem_of_In.
Qed.

Lemma prepare_full (named : list string) :
  Forall (fun c => c ∈ schema) named -> prepare t named = Ok tt.
Proof.
  intros Hnamed. unfold prepare. by rewrite forallb_columns_full.
Qed.

Lemma insert_full (now : Z) (v : Values) :
  insert now v t =
    Ok (mkTable (columns t)
          (<[next_rowid t :=
               Row.mk (v_title v) (v_category v) (v_color v) (v_size v)
                 (Some (v_excerpt v)) (v_content v)
                 (Some (v_markdown_content v)) (Some (v_media_files v))
                 now now (v_read_time v)]> (rows t))
          (next_rowid t),
        next_rowid t).
Proof.
  unfold insert. rewrite prepare_full by in_schema. reflexivity.
Qed.

Lemma row_to_post_full (k : Z) (row : Row.t) :
  database._row_to_post t k row = Ok (post_of_row k row).
Proof.
  unfold database._row_to_post.
  rewrite forallb_columns_full by in_schema.
  rewrite has_column_full by in_schema. reflexivity.
Qed.

Lemma get_post_by_id_full (k : Z) :
  database.get_post_by_id (Some t) k = Ok (post_of_row k <$> rows t !! k).
Proof.
  unfold database.get_post_by_id. simpl.
  rewrite prepare_full by in_schema. simpl.
  destruct (rows t !! k) as [row|]; simpl; [|done].
  by rewrite row_to_post_full.
Qed.

Lemma update_full_absent (now : Z) (post_id : Z) (f : Fields) :
  rows t !! post_id = None ->
  update now (Some t) post_id f = (Some t, Ok None).
Proof.
  intros Hnone. unfold update, database.update_post. simpl.
  unfold database.update. rewrite prepare_full by in_schema.
  simpl. rewrite Hnone.
  rewrite get_post_by_id_full. by rewrite Hnone.
Qed.

Lemma delete_full (post_id : Z) :
  database.delete_post (Some t) post_id =
    (Some (mkTable (columns t) (delete post_id (rows t)) (seq t)),
     Ok (bool_decide (is_Some (rows t !! post_id)))).
Proof.
  unfold database.delete_post. simpl.
  rewrite prepare_full by in_schema. simpl.
  destruct (rows t !! post_id) as [row|] eqn:Hrow.
  - rewrite bool_decide_eq_true_2 by eauto. done.
  - rewrite bool_decide_eq_false_2; [done|]. by intros [? ?].
Qed.

End FullSchema.

Lemma full_schema_same_columns (t t' : Table) :
  columns t' = columns t -> full_schema t = true -> full_schema t' = true.
Proof. unfold full_schema, has_column. by intros ->. Qed.

(** The row [create_post] writes for the given fields, and what it
    returns. *)
Lemma create_full (t : Table) (Hfull : full_schema t = true)
    (now : Z) (f : Fields) :
  let k := next_rowid t in
  let r :=
    Row.mk (f_title f) (PyStr.upper (f_category f)) (f_color f) (f_size f)
      (Some (f_excerpt f)) (f_content f) (Some (f_markdown_content f))
      (Some (PyStr.join "," (f_media_files f))) now now
      (PyStr.str_of_nat
         (Nat.max 1 (length (PyStr.split (f_content f)) / 200)%nat)
       +:+ " min read") in
  create now (Some t) f =
    (Some (mkTable (columns t) (<[k := r]> (rows t)) k),
     Ok (Some (post_of_row k r))).
Proof.
  intros k r. unfold create, database.create_post. simpl.
  rewrite insert_full by done. simpl.
  rewrite (get_post_by_id_full (mkTable (columns t) _ _)) by done. simpl.
  by rewrite lookup_insert_eq.
Qed.

(** The row [update_post] writes over an existing one, and what it
    returns. *)
Lemma update_full_present (t : Table) (Hfull : full_schema t = true)
    (now : Z) (post_id : Z) (f : Fields) (old : Row.t) :
  rows t !! post_id = Some old ->
  let r :=
    Row.mk (f_title f) (PyStr.upper (f_category f)) (f_color f) (f_size f)
      (Some (f_excerpt f)) (f_content f) (Some (f_markdown_content f))
      (Some (PyStr.join "," (f_media_files f))) (Row.created_at old) now
      (PyStr.str_of_nat
         (Nat.max 1 (length (PyStr.split (f_content f)) / 200)%nat)
       +:+ " min read") in
  update now (Some t) post_id f =
    (Some (mkTable (columns t) (<[post_id := r]> (rows t)) (seq t)),
     Ok (Some (post_of_row post_id r))).
Proof.
  intros Hold r. unfold update, database.update_post. simpl.
  unfold database.update. rewrite prepare_full by (done || in_schema).
  simpl. rewrite Hold.
  rewrite (get_post_by_id_full (mkTable (columns t) _ _)) by done. simpl.
  by rewrite lookup_insert_eq.
Qed.

Lemma seeded_table_full : full_schema seeded_table = true.
Proof. reflexivity. Qed.

Lemma seeded_table_init :
  database.init_db 1700000000 None = (Some seeded_table, Ok tt).
Proof. reflexivity. Qed.

(** ** Reading back what was created *)

(** C1.  Round trip: [create_post] on a store with the full schema returns
    a post, [get_post_by_id] with the id of that post returns the same
    post, and its fields are the inputs, with the category upper-cased,
    the media list joined with commas, and the read time derived from the
    content; [created_at] is the time of the insertion and the id was not
    in use before. *)
Theorem create_then_get_roundtrip
    (now : Z) (t : Table)
    (title category color size excerpt content : string)
    (media_files : list string) (markdown_content : string) :
  full_schema t = true ->
  exists db' p,
    database.create_post now (Some t) title category color size excerpt
      content media_files markdown_content = (db', Ok (Some p))
    /\ database.get_post_by_id db' (Post.id p) = Ok (Some p)
    /\ rows t !! Post.id p = None
    /\ Post.title p = title
    /\ Post.category p = PyStr.upper category
    /\ Post.color p = color
    /\ Post.size p = size
    /\ Post.excerpt p = excerpt
    /\ Post.content p = content
    /\ Post.markdown_content p = markdown_content
    /\ Post.media_files p = PyStr.join "," media_files
    /\ Post.read_time p =
         PyStr.str_of_nat
           (Nat.max 1 (length (PyStr.split content) / 200)%nat)
         +:+ " min read"
    /\ Post.created_at p = now.
Proof.
  intros Hfull.
  pose proof (create_full t Hfull now
                (mkFields title category color size excerpt content
                   media_files markdown_content)) as Hc.
  cbv zeta in Hc. unfold create in Hc. simpl in Hc.
  eexists _, _. split; [exact Hc|].
  split.
  { rewrite get_post_by_id_full by done. simpl.
    by rewrite lookup_insert_eq. }
  split; [apply next_rowid_fresh|].
  repeat split.
Qed.

Lemma create_then_get_roundtrip_witness :
  full_schema seeded_table = true
  /\ exists db' p,
       database.create_post 1700000060 (Some seeded_table) "Hello" "tips"
         "neon-green" "bento-small" "" "one two three"
         ["uploads/images/a.png"; "uploads/videos/b.mp4"] "one two three"
       = (db', Ok (Some p))
       /\ database.get_post_by_id db' (Post.id p) = Ok (Some p)
       /\ rows seeded_table !! Post.id p = None
       /\ Post.title p = "Hello"
       /\ Post.category p = PyStr.upper "tips"
       /\ Post.color p = "neon-green"
       /\ Post.size p = "bento-small"
       /\ Post.excerpt p = ""
       /\ Post.content p = "one two three"
       /\ Post.markdown_content p = "one two three"
       /\ Post.media_files p =
            PyStr.join "," ["uploads/images/a.png"; "uploads/videos/b.mp4"]
       /\ Post.read_time p =
            PyStr.str_of_nat
              (Nat.max 1 (length (PyStr.split "one two three") / 200)%nat)
            +:+ " min read"
       /\ Post.created_at p = 1700000060.
Proof.
  split; [reflexivity|].
  apply (create_then_get_roundtrip 1700000060 seeded_table "Hello" "tips"
           "neon-green" "bento-small" "" "one two three"
           ["uploads/images/a.png"; "uploads/videos/b.mp4"] "one two three").
  reflexivity.
Defined.

Example create_on_seeded_ex :
  (database.create_post 1700000060 (Some seeded_table) "Hello" "tips"
     "neon-green" "bento-small" "" "one two three"
     ["uploads/images/a.png"; "uploads/videos/b.mp4"] "# md").2
  = Ok (Some (Post.mk 4 "Hello" "TIPS" "neon-green" "bento-small" ""
                "one two three" "uploads/images/a.png,uploads/videos/b.mp4"
                1700000060 "1 min read" "# md")).
Proof. vm_compute. reflexivity. Qed.

(** ** Derived fields *)

Lemma spec_read_time_examples :
  spec_read_time 199 = "1 min read"
  /\ spec_read_time 200 = "1 min read"
  /\ spec_read_time 401 = "2 min read".
Proof. repeat split. Qed.

(** C2.  [create_post] and [update_post] store and return as [read_time]
    the decimal of [max(1, word_count // 200)] followed by [" min read"],
    where [word_count] is the number of whitespace-separated words of the
    content: the number of places where a character that is not blank
    stands first or follows a blank; 199 and 200 words give
    ["1 min read"], 401 words give ["2 min read"]. *)
Theorem read_time_computation
    (now : Z) (t : Table) (post_id : Z)
    (title category color size excerpt content : string)
    (media_files : list string) (markdown_content : string) :
  full_schema t = true ->
  is_Some (rows t !! post_id) ->
  let n := length (PyStr.split content) in
  (exists t' p,
      database.create_post now (Some t) title category color size excerpt
        content media_files markdown_content = (Some t', Ok (Some p))
      /\ Post.read_time p = spec_read_time n
      /\ Row.read_time <$> rows t' !! Post.id p = Some (spec_read_time n))
  /\ (exists t' p,
      database.update_post now (Some t) post_id title category color size
        excerpt content media_files markdown_content
      = (Some t', Ok (Some p))
      /\ Post.read_time p = spec_read_time n
      /\ Row.read_time <$> rows t' !! post_id = Some (spec_read_time n))
  /\ n = PyStr.word_starts true (PyStr.chars content)
  /\ (n = 199%nat -> spec_read_time n = "1 min read")
  /\ (n = 200%nat -> spec_read_time n = "1 min read")
  /\ (n = 401%nat -> spec_read_time n = "2 min read").
Proof.
  intros Hfull [old Hold] n.
  set (f := mkFields title category color size excerpt content media_files
              markdown_content).
  split; [|split].
  - pose proof (create_full t Hfull now f) as Hc.
    cbv zeta in Hc. unfold create in Hc. simpl in Hc.
    eexists _, _. split; [exact Hc|]. simpl.
    split; [done|]. by rewrite lookup_insert_eq.
  - pose proof (update_full_present t Hfull now post_id f old Hold) as Hu.
    cbv zeta in Hu. unfold update in Hu. simpl in Hu.
    eexists _, _. split; [exact Hu|]. simpl.
    split; [done|]. by rewrite lookup_insert_eq.
  - split; [apply split_length|].
    repeat split; intros ->; reflexivity.
Qed.

Lemma words_count (n : nat) : length (PyStr.split (words n)) = n.
Proof.
  unfold PyStr.split. rewrite List.length_map.
  induction n as [|n IH]; [done|].
  change (PyStr.chars (words (S n)))
    with ("w" :: " " :: PyStr.chars (words n)).
  change (PyStr.split_go [] ("w" :: " " :: PyStr.chars (words n)))
    with (["w"] :: PyStr.split_go [] (PyStr.chars (words n))).
  simpl. by rewrite IH.
Qed.

Lemma read_time_computation_witness :
  full_schema seeded_table = true
  /\ is_Some (rows seeded_table !! 2)
  /\ (exists t' p,
        database.create_post 1700000060 (Some seeded_table) "T" "news" "c"
          "s" "e" (words 401) [] "" = (Some t', Ok (Some p))
        /\ Post.read_time p = "2 min read"
        /\ Row.read_time <$> rows t' !! Post.id p = Some "2 min read").
Proof.
  split; [reflexivity|]. split; [by eexists|].
  destruct (read_time_computation 1700000060 seeded_table 2 "T" "news" "c"
              "s" "e" (words 401) [] "")
    as [(t' & p & Hc & Hp & Hr) (_ & _ & _ & _ & H401)];
    [reflexivity | by eexists |].
  rewrite (H401 (words_count 401)) in Hp, Hr.
  exists t', p. split; [exact Hc|]. split; [exact Hp|exact Hr].
Defined.

Example read_time_199_ex :
  (database.create_post 5 (Some seeded_table) "T" "news" "c" "s" "e"
     (words 199) [] "").2
  = Ok (Some (Post.mk 4 "T" "NEWS" "c" "s" "e" (words 199) "" 5
                "1 min read" "")).
Proof. vm_compute. reflexivity. Qed.

Example read_time_200_ex :
  (database.update_post 5 (Some seeded_table) 2 "T" "news" "c" "s" "e"
     (words 200) [] "").2
  = Ok (Some (Post.mk 2 "T" "NEWS" "c" "s" "e" (words 200) "" 1700000000
                "1 min read" "")).
Proof. vm_compute. reflexivity. Qed.

(** Words that no-break spaces separate are counted as words. *)
Example read_time_nbsp_ex :
  (database.create_post 5 (Some seeded_table) "T" "news" "c" "s" "e"
     (nbsp_words 400) [] "").2
  = Ok (Some (Post.mk 4 "T" "NEWS" "c" "s" "e" (nbsp_words 400) "" 5
                "2 min read" "")).
Proof. vm_compute. reflexivity. Qed.

Example read_time_401_ex :
  (database.update_post 5 (Some seeded_table) 2 "T" "news" "c" "s" "e"
     (words 401) [] "").2
  = Ok (Some (Post.mk 2 "T" "NEWS" "c" "s" "e" (words 401) "" 1700000000
                "2 min read" "")).
Proof. vm_compute. reflexivity. Qed.

(** C7.  [create_post] and [update_post] store the category upper-cased
    and return it so; ["tips"] becomes ["TIPS"], and letters outside ASCII
    are upper-cased as well. *)
Theorem category_normalization
    (now : Z) (t : Table) (post_id : Z)
    (title category color size excerpt content : string)
    (media_files : list string) (markdown_content : string) :
  full_schema t = true ->
  is_Some (rows t !! post_id) ->
  (exists t' p,
      database.create_post now (Some t) title category color size excerpt
        content media_files markdown_content = (Some t', Ok (Some p))
      /\ Post.category p = PyStr.upper category
      /\ Row.category <$> rows t' !! Post.id p = Some (PyStr.upper category))
  /\ (exists t' p,
      database.update_post now (Some t) post_id title category color size
        excerpt content media_files markdown_content
      = (Some t', Ok (Some p))
      /\ Post.category p = PyStr.upper category
      /\ Row.category <$> rows t' !! post_id = Some (PyStr.upper category))
  /\ PyStr.upper "tips" = "TIPS"
  /\ PyStr.upper "café" = "CAFÉ"
  /\ PyStr.upper "straße" = "STRASSE".
Proof.
  intros Hfull [old Hold].
  set (f := mkFields title category color size excerpt content media_files
              markdown_content).
  split; [|split].
  - pose proof (create_full t Hfull now f) as Hc.
    cbv zeta in Hc. unfold create in Hc. simpl in Hc.
    eexists _, _. split; [exact Hc|]. simpl.
    split; [done|]. by rewrite lookup_insert_eq.
  - pose proof (update_full_present t Hfull now post_id f old Hold) as Hu.
    cbv zeta in Hu. unfold update in Hu. simpl in Hu.
    eexists _, _. split; [exact Hu|]. simpl.
    split; [done|]. by rewrite lookup_insert_eq.
  - repeat split.
Qed.

Lemma category_normalization_witness :
  full_schema seeded_table = true
  /\ is_Some (rows seeded_table !! 3)
  /\ (exists t' p,
        database.create_post 1700000060 (Some seeded_table) "T" "tips" "c"
          "s" "e" "text" [] "" = (Some t', Ok (Some p))
        /\ Post.category p = "TIPS"
        /\ Row.category <$> rows t' !! Post.id p = Some "TIPS").
Proof.
  split; [reflexivity|]. split; [by eexists|].
  destruct (category_normalization 1700000060 seeded_table 3 "T" "tips" "c"
              "s" "e" "text" [] "")
    as [Hcreate _]; [reflexivity | by eexists |].
  exact Hcreate.
Defined.

Example create_category_unicode_ex :
  (database.create_post 9 (Some seeded_table) "T" "café" "c" "s" "e" "text"
     [] "").2
  = Ok (Some (Post.mk 4 "T" "CAFÉ" "c" "s" "e" "text" "" 9 "1 min read"
                "")).
Proof. vm_compute. reflexivity. Qed.

Example update_category_ex :
  (database.update_post 9 (Some seeded_table) 3 "T" "Tips & tricks" "c" "s"
     "e" "text" [] "").2
  = Ok (Some (Post.mk 3 "T" "TIPS & TRICKS" "c" "s" "e" "text" ""
                1700000000 "1 min read" "")).
Proof. vm_compute. reflexivity. Qed.

(** ** Absent identifiers *)

(** C4.  [update_post] with an id that is in no row returns [None] and
    leaves the store as it was, for every id that SQLite can hold: an
    integer of 64 bits, signed. *)
Theorem update_absent_id_noop
    (now : Z) (t : Table) (post_id : Z)
    (title category color size excerpt content : string)
    (media_files : list string) (markdown_content : string) :
  full_schema t = true ->
  int64 post_id = true ->
  rows t !! post_id = None ->
  database.update_post now (Some t) post_id title category color size
    excerpt content media_files markdown_content
  = (Some t, Ok None).
Proof.
  intros Hfull _ Hnone.
  apply (update_full_absent t Hfull now post_id
           (mkFields title category color size excerpt content media_files
              markdown_content) Hnone).
Qed.

Lemma update_absent_id_noop_witness :
  full_schema seeded_table = true
  /\ int64 42 = true
  /\ rows seeded_table !! 42 = None
  /\ database.update_post 1700000060 (Some seeded_table) 42 "T" "tips" "c"
       "s" "e" "text" ["m.png"] "md"
     = (Some seeded_table, Ok None).
Proof.
  split; [reflexivity|]. split; [reflexivity|]. split; [reflexivity|].
  apply (update_absent_id_noop 1700000060 seeded_table 42 "T" "tips" "c"
           "s" "e" "text" ["m.png"] "md"); reflexivity.
Defined.

(** Whatever the schema, an UPDATE that matches no row changes nothing,
    also when the statement is refused. *)
Lemma update_absent_id_state
    (now : Z) (db : DB) (post_id : Z)
    (title category color size excerpt content : string)
    (media_files : list string) (markdown_content : string) :
  (forall t, db = Some t -> rows t !! post_id = None) ->
  (database.update_post now db post_id title category color size excerpt
     content media_files markdown_content).1 = db.
Proof.
  intros Hnone. unfold database.update_post.
  destruct db as [t|]; simpl; [|done].
  unfold database.update. destruct (prepare t _); simpl; [|done].
  by rewrite (Hnone t eq_refl).
Qed.

(** ** Insertion, initialisation and the counter *)

Lemma insert_effect (now : Z) (v : Values) (t : Table) :
  full_schema t = true ->
  exists t',
    insert now v t = Ok (t', next_rowid t)
    /\ columns t' = columns t
    /\ seq t < seq t'
    /\ (forall k, k <= seq t -> rows t' !! k = rows t !! k)
    /\ seq_covers_keys t' = true
    /\ rows t' <> ∅.
Proof.
  intros Hfull. eexists. split; [by apply insert_full|]. simpl.
  split; [done|]. split; [apply next_rowid_above_seq|].
  split; [|split].
  - intros k Hk. apply lookup_insert_ne.
    pose proof (next_rowid_above_seq t). lia.
  - unfold seq_covers_keys. simpl. apply Z.leb_le.
    apply max_rowid_least.
    + pose proof (max_rowid_bounds (rows t)) as [H0 _].
      unfold next_rowid. lia.
    + intros k r Hk. destruct (decide (next_rowid t = k)) as [->|Hne]; [lia|].
      rewrite lookup_insert_ne in Hk by done.
      apply next_rowid_above in Hk. lia.
  - apply insert_non_empty.
Qed.

Lemma insert_each_effect (now : Z) (posts : list Values) (t : Table) :
  full_schema t = true ->
  exists t',
    database.insert_each now posts t = Ok t'
    /\ columns t' = columns t
    /\ seq t <= seq t'
    /\ (forall k, k <= seq t -> rows t' !! k = rows t !! k)
    /\ (seq_covers_keys t = true -> seq_covers_keys t' = true)
    /\ (posts <> [] -> rows t' <> ∅).
Proof.
  revert t. induction posts as [|post posts IH]; intros t Hfull.
  - exists t. simpl. repeat split; (done || lia).
  - destruct (insert_effect now post t Hfull)
      as (t1 & Hins & Hcols1 & Hseq1 & Hrows1 & Hcov1 & Hne1).
    assert (full_schema t1 = true) as Hfull1.
    { unfold full_schema, has_column in *. by rewrite Hcols1. }
    destruct (IH t1 Hfull1) as (t2 & Heach & Hcols2 & Hseq2 & Hrows2 & Hcov2 & Hne2).
    exists t2. simpl. rewrite Hins. simpl.
    split; [done|]. split; [congruence|]. split; [lia|].
    split; [|split].
    + intros k Hk. rewrite Hrows2 by lia. by apply Hrows1.
    + intros _. by apply Hcov2.
    + intros _. destruct posts as [|post' posts'].
      * simpl in Heach. by inversion Heach; subst.
      * by apply Hne2.
Qed.

(** On a table with the full schema both ALTER statements are refused and
    caught. *)
Lemma init_db_full (now : Z) (t : Table) :
  full_schema t = true ->
  database.init_db now (Some t) =
    if Nat.eqb (size (rows t)) 0
    then match database._insert_sample_posts now t with
         | Ok t3 => (Some t3, Ok tt)
         | Raise e => (Some t, Raise e)
         end
    else (Some t, Ok tt).
Proof.
  intros Hfull. unfold database.init_db. simpl.
  unfold try_except_OperationalError, add_column_markdown_content.
  rewrite has_column_full by (done || in_schema).
  unfold add_column_updated_at.
  rewrite has_column_full by (done || in_schema).
  reflexivity.
Qed.

(** An id that is gone stays gone, whatever is called next. *)
Lemma gone_after (post_id : Z) (c : call) (db : DB) :
  gone post_id db -> gone post_id (after c db).
Proof.
  intros (t & -> & Hfull & Hnone & Hseq). destruct c as [now|now f|now k f|k].
  - simpl. rewrite init_db_full by done.
    destruct (Nat.eqb _ _); [|by exists t].
    unfold database._insert_sample_posts.
    destruct (insert_each_effect now database.sample_posts t Hfull)
      as (t' & -> & Hcols & Hseq' & Hrows & _ & _).
    exists t'. simpl. split; [done|].
    split; [by eapply full_schema_same_columns|].
    split; [by rewrite Hrows|lia].
  - simpl. rewrite create_full by done. simpl.
    eexists. split; [done|]. simpl. split; [done|].
    pose proof (next_rowid_above_seq t).
    split; [|lia]. rewrite lookup_insert_ne; [done|lia].
  - simpl. destruct (rows t !! k) as [old|] eqn:Hk.
    + rewrite (update_full_present t Hfull now k f old) by done. simpl.
      eexists. split; [done|]. simpl. split; [done|]. split; [|done].
      rewrite lookup_insert_ne; [done|]. intros ->. congruence.
    + rewrite update_full_absent by done. by exists t.
  - simpl. rewrite delete_full by done. simpl.
    eexists. split; [done|]. simpl. split; [done|]. split; [|done].
    by apply lookup_delete_None; right.
Qed.

Lemma gone_after_all (post_id : Z) (cs : list call) (db : DB) :
  gone post_id db -> gone post_id (after_all cs db).
Proof.
  revert db. induction cs as [|c cs IH]; intros db Hgone; [done|].
  simpl. by apply IH, gone_after.
Qed.

(** The counter bounds the keys in every store reached from a fresh file. *)
Lemma seq_covers_keys_after (c : call) (t : Table) :
  full_schema t = true -> seq_covers_keys t = true ->
  exists t', after c (Some t) = Some t'
             /\ full_schema t' = true /\ seq_covers_keys t' = true.
Proof.
  intros Hfull Hcov. destruct c as [now|now f|now k f|k]; simpl.
  - rewrite init_db_full by done.
    destruct (Nat.eqb _ _); [|by exists t].
    unfold database._insert_sample_posts.
    destruct (insert_each_effect now database.sample_posts t Hfull)
      as (t' & -> & Hcols & _ & _ & Hcov' & _).
    exists t'. simpl. split; [done|].
    split; [by eapply full_schema_same_columns|by apply Hcov'].
  - destruct (insert_effect now
                (mkValues (f_title f) (PyStr.upper (f_category f))
                   (f_color f) (f_size f) (f_excerpt f) (f_content f)
                   (f_markdown_content f)
                   (PyStr.join "," (f_media_files f))
                   (PyStr.str_of_nat
                      (Nat.max 1
                         (length (PyStr.split (f_content f)) / 200)%nat)
                    +:+ " min read")) t Hfull)
      as (t' & Hins & Hcols & _ & _ & Hcov' & _).
    rewrite insert_full in Hins by done. injection Hins as <-.
    rewrite create_full by done. simpl.
    eexists. split; [done|]. split; [done|exact Hcov'].
  - destruct (rows t !! k) as [old|] eqn:Hk.
    + rewrite (update_full_present t Hfull now k f old) by done. simpl.
      eexists. split; [done|]. split; [done|].
      unfold seq_covers_keys in *. simpl.
      apply Z.leb_le. apply Z.leb_le in Hcov.
      pose proof (max_rowid_bounds (rows t)) as [H0 Hmax].
      apply max_rowid_least; [lia|].
      intros j r Hj. destruct (decide (k = j)) as [->|Hne].
      * specialize (Hmax j old Hk). lia.
      * rewrite lookup_insert_ne in Hj by done.
        specialize (Hmax j r Hj). lia.
    + rewrite update_full_absent by done. by exists t.
  - rewrite delete_full by done. simpl.
    eexists. split; [done|]. split; [done|].
    unfold seq_covers_keys in *. simpl.
    apply Z.leb_le. apply Z.leb_le in Hcov.
    pose proof (max_rowid_bounds (rows t)) as [H0 Hmax].
    apply max_rowid_least; [lia|].
    intros j r Hj. apply lookup_delete_Some in Hj as [_ Hj].
    specialize (Hmax j r Hj). lia.
Qed.

Lemma init_db_fresh (now : Z) :
  exists t, database.init_db now None = (Some t, Ok tt)
            /\ full_schema t = true /\ seq_covers_keys t = true
            /\ rows t <> ∅.
Proof.
  change (database.init_db now None)
    with (database.init_db now (Some (mkTable schema ∅ 0))).
  rewrite init_db_full by reflexivity.
  cbn [rows]. rewrite map_size_empty. cbn [Nat.eqb].
  unfold database._insert_sample_posts.
  destruct (insert_each_effect now database.sample_posts
              (mkTable schema ∅ 0) eq_refl)
    as (t & -> & Hcols & _ & _ & Hcov & Hne).
  exists t. split; [done|].
  split; [by apply (full_schema_same_columns (mkTable schema ∅ 0))|].
  split; [by apply Hcov|by apply Hne].
Qed.

(** Every store reached from a fresh file by [init_db] and then any calls
    has the full schema and a counter that bounds its keys. *)
Lemma history_from_fresh (now : Z) (cs : list call) :
  exists t, after_all cs (database.init_db now None).1 = Some t
            /\ full_schema t = true /\ seq_covers_keys t = true.
Proof.
  destruct (init_db_fresh now) as (t0 & -> & Hfull & Hcov & _). simpl.
  revert t0 Hfull Hcov. induction cs as [|c cs IH]; intros t Hfull Hcov.
  - by exists t.
  - simpl. destruct (seq_covers_keys_after c t Hfull Hcov)
      as (t' & -> & Hfull' & Hcov').
    by apply IH.
Qed.

(** ** Deleting *)

(** C5.  [delete_post] on the id of an existing row returns [True] and
    removes that row and no other; from then on, whatever else is called
    on the store, [delete_post] with the same id returns [False].  On an
    id that is in no row, and that SQLite can hold (an integer of 64 bits,
    signed), it returns [False] and changes nothing. *)
Theorem delete_true_once_then_false (t : Table) (post_id : Z) :
  full_schema t = true ->
  seq_covers_keys t = true ->
  (is_Some (rows t !! post_id) ->
   exists t',
     database.delete_post (Some t) post_id = (Some t', Ok true)
     /\ rows t' !! post_id = None
     /\ (forall k, k <> post_id -> rows t' !! k = rows t !! k)
     /\ forall cs : list call,
          (database.delete_post (after_all cs (Some t')) post_id).2
          = Ok false)
  /\ (int64 post_id = true ->
      rows t !! post_id = None ->
      database.delete_post (Some t) post_id = (Some t, Ok false)).
Proof.
  intros Hfull Hcov. split.
  - intros [row Hrow].
    eexists. split.
    { rewrite delete_full by done.
      rewrite bool_decide_eq_true_2 by eauto. done. }
    simpl. split; [apply lookup_delete_eq|].
    split; [intros k Hk; by apply lookup_delete_ne|].
    intros cs.
    assert (gone post_id
              (Some (mkTable (columns t) (delete post_id (rows t)) (seq t))))
      as Hgone.
    { eexists. split; [done|]. simpl. split; [done|].
      split; [apply lookup_delete_eq|].
      apply Z.leb_le in Hcov.
      pose proof (max_rowid_bounds (rows t)) as [_ Hmax].
      specialize (Hmax post_id row Hrow). lia. }
    apply (gone_after_all post_id cs) in Hgone
      as (t2 & -> & Hfull2 & Hnone2 & _).
    rewrite delete_full by done. simpl.
    rewrite bool_decide_eq_false_2; [done|].
    rewrite Hnone2. by intros [? ?].
  - intros _ Hnone. rewrite delete_full by done.
    rewrite delete_id by done.
    rewrite bool_decide_eq_false_2 by (rewrite Hnone; by intros [? ?]).
    by destruct t.
Qed.

Lemma delete_true_once_then_false_witness :
  full_schema seeded_table = true
  /\ seq_covers_keys seeded_table = true
  /\ is_Some (rows seeded_table !! 2)
  /\ int64 7 = true
  /\ rows seeded_table !! 7 = None
  /\ (exists t',
        database.delete_post (Some seeded_table) 2 = (Some t', Ok true)
        /\ rows t' !! 2 = None
        /\ (database.delete_post
              (after_all
                 [CallCreate 1700000060
                    (mkFields "T" "tips" "c" "s" "e" "text" [] "");
                  CallDelete 1; CallDelete 3; CallDelete 4;
                  CallInit 1700000120; CallDelete 2]
                 (Some t')) 2).2 = Ok false)
  /\ database.delete_post (Some seeded_table) 7
     = (Some seeded_table, Ok false).
Proof.
  destruct (delete_true_once_then_false seeded_table 2)
    as [Hpresent _]; [reflexivity | reflexivity |].
  destruct (delete_true_once_then_false seeded_table 7)
    as [_ Habsent]; [reflexivity | reflexivity |].
  destruct Hpresent as (t' & Hdel & Hnone & _ & Hlater); [by eexists|].
  split; [reflexivity|]. split; [reflexivity|]. split; [by eexists|].
  split; [reflexivity|]. split; [reflexivity|].
  split; [|by apply Habsent].
  exists t'. split; [exact Hdel|]. split; [exact Hnone|]. apply Hlater.
Defined.

Example delete_history_ex :
  let db1 := (database.delete_post (Some seeded_table) 3).1 in
  let db2 := (create 1700000060 db1
                (mkFields "T" "tips" "c" "s" "e" "text" [] "")).1 in
  (database.delete_post (Some seeded_table) 3).2 = Ok true
  /\ (database.delete_post db1 3).2 = Ok false
  /\ (match (create 1700000060 db1
               (mkFields "T" "tips" "c" "s" "e" "text" [] "")).2 with
      | Ok (Some p) => Post.id p
      | _ => 0
      end) = 4
  /\ (database.delete_post db2 3).2 = Ok false.
Proof. vm_compute. repeat split. Qed.

(** ** Listing *)

#[local] Instance newer_first_total : Total database.newer_first.
Proof. intros a b. unfold database.newer_first. lia. Qed.

#[local] Instance newer_first_trans : Transitive database.newer_first.
Proof. intros a b c. unfold database.newer_first. lia. Qed.

Lemma mapM_all_ok {A B : Type} (f : A -> result B) (g : A -> B)
    (l : list A) :
  (forall x, f x = Ok (g x)) -> mapM f l = Ok (g <$> l).
Proof.
  intros Hf. induction l as [|x l IH]; [done|].
  simpl. rewrite Hf. simpl. rewrite IH. done.
Qed.

(** C6.  [get_all_posts] returns the posts of all rows of the table, each
    once, the later [created_at] first. *)
Theorem get_all_posts_sorted (t : Table) :
  full_schema t = true ->
  exists ps,
    database.get_all_posts (Some t) = Ok ps
    /\ ps ≡ₚ (fun kr => post_of_row kr.1 kr.2) <$> map_to_list (rows t)
    /\ StronglySorted
         (fun p q => Post.created_at q <= Post.created_at p) ps
    /\ length ps = size (rows t)
    /\ (forall k row, rows t !! k = Some row -> post_of_row k row ∈ ps)
    /\ (forall p, p ∈ ps ->
          exists row, rows t !! Post.id p = Some row
                      /\ p = post_of_row (Post.id p) row).
Proof.
  intros Hfull.
  set (g := fun kr : Z * Row.t => post_of_row kr.1 kr.2).
  set (sorted := merge_sort database.newer_first (map_to_list (rows t))).
  assert (sorted ≡ₚ map_to_list (rows t)) as Hperm
    by apply merge_sort_Permutation.
  exists (g <$> sorted). split; [|split; [|split; [|split; [|split]]]].
  - unfold database.get_all_posts,
      database.select_order_by_created_at_desc. simpl.
    rewrite prepare_full by (done || in_schema). simpl.
    apply mapM_all_ok. intros [k row]. by apply row_to_post_full.
  - by rewrite Hperm.
  - apply (StronglySorted_fmap g database.newer_first); [by intros [] []|].
    apply StronglySorted_merge_sort; apply _.
  - rewrite length_fmap, Hperm. by rewrite length_map_to_list.
  - intros k row Hk. rewrite Hperm, list_elem_of_fmap.
    exists (k, row). split; [done|]. by apply elem_of_map_to_list.
  - intros p Hp. rewrite Hperm, list_elem_of_fmap in Hp.
    destruct Hp as ([k row] & -> & Hin).
    apply elem_of_map_to_list in Hin. by exists row.
Qed.

Lemma get_all_posts_sorted_witness :
  full_schema seeded_table = true
  /\ exists ps,
       database.get_all_posts (Some seeded_table) = Ok ps
       /\ StronglySorted
            (fun p q => Post.created_at q <= Post.created_at p) ps
       /\ length ps = 3%nat.
Proof.
  split; [reflexivity|].
  destruct (get_all_posts_sorted seeded_table) as (ps & Hall & _ & Hs & Hl & _);
    [reflexivity|].
  exists ps. split; [exact Hall|]. split; [exact Hs|]. exact Hl.
Defined.

Example get_all_posts_ex :
  let db0 := Some (create_table_if_not_exists None) in
  let db1 := (create 1700000300 db0
                (mkFields "B" "news" "c" "s" "" "text" [] "")).1 in
  let db2 := (create 1700000200 db1
                (mkFields "A" "news" "c" "s" "" "text" [] "")).1 in
  let db3 := (create 1700000400 db2
                (mkFields "C" "news" "c" "s" "" "text" [] "")).1 in
  match database.get_all_posts db3 with
  | Ok ps => (fun p => (Post.id p, Post.created_at p)) <$> ps
  | Raise _ => []
  end
  = [(3, 1700000400); (1, 1700000300); (2, 1700000200)].
Proof. vm_compute. reflexivity. Qed.

(** ** Initialisation *)

Lemma prepare_cases (t : Table) (named : list string) :
  prepare t named = Ok tt \/ prepare t named = Raise OperationalError.
Proof. unfold prepare. destruct (forallb _ _); auto. Qed.

Lemma prepare_same_columns (t t' : Table) (named : list string) :
  columns t' = columns t -> prepare t' named = prepare t named.
Proof. unfold prepare, has_column. by intros ->. Qed.

Lemma insert_each_prepared (now : Z) (posts : list Values) (t : Table) :
  prepare t insert_columns = Ok tt ->
  exists t',
    database.insert_each now posts t = Ok t'
    /\ columns t' = columns t
    /\ (posts <> [] -> rows t' <> ∅).
Proof.
  revert t. induction posts as [|post posts IH]; intros t Hprep.
  - by exists t.
  - simpl. unfold insert at 1. rewrite Hprep. simpl.
    match goal with
    | |- context [database.insert_each now posts ?t1] =>
        destruct (IH t1) as (t2 & Heach & Hcols & Hne);
        [by rewrite (prepare_same_columns t t1)|]
    end.
    exists t2. split; [done|]. split; [done|]. intros _.
    destruct posts as [|post' posts'].
    + simpl in Heach. injection Heach as <-. simpl. apply insert_non_empty.
    + by apply Hne.
Qed.

Lemma insert_each_refused (now : Z) (posts : list Values) (t : Table) :
  prepare t insert_columns = Raise OperationalError ->
  posts <> [] ->
  database.insert_each now posts t = Raise OperationalError.
Proof.
  intros Hprep Hne. destruct posts as [|post posts]; [done|].
  simpl. unfold insert. by rewrite Hprep.
Qed.

Lemma has_column_app_l (t : Table) (c : string) (l : list string) rs s :
  has_column t c = true ->
  has_column (mkTable (columns t ++ l) rs s) c = true.
Proof.
  unfold has_column. simpl. rewrite !bool_decide_eq_true.
  intros Hc. apply elem_of_app. by left.
Qed.

Lemma has_column_app_r (t : Table) (c : string) rs s :
  has_column (mkTable (columns t ++ [c]) rs s) c = true.
Proof.
  unfold has_column. simpl. rewrite bool_decide_eq_true.
  apply elem_of_app. right. by apply list_elem_of_singleton.
Qed.

Lemma try_add_markdown_content (t : Table) :
  exists t1,
    try_except_OperationalError add_column_markdown_content t = Ok t1
    /\ has_column t1 "markdown_content" = true.
Proof.
  unfold try_except_OperationalError, add_column_markdown_content.
  destruct (has_column t "markdown_content") eqn:Hmd.
  - by exists t.
  - eexists. split; [done|]. apply has_column_app_r.
Qed.

Lemma try_add_updated_at (t : Table) :
  exists t2,
    try_except_OperationalError add_column_updated_at t = Ok t2
    /\ (has_column t "markdown_content" = true ->
        has_column t2 "markdown_content" = true)
    /\ (has_column t2 "updated_at" = true \/ rows t2 <> ∅).
Proof.
  unfold try_except_OperationalError, add_column_updated_at.
  destruct (has_column t "updated_at") eqn:Hup.
  - exists t. auto.
  - destruct (bool_decide_reflect (rows t = ∅)) as [Hemp|Hne].
    + eexists. split; [done|]. split.
      * apply has_column_app_l.
      * left. apply has_column_app_r.
    + exists t. auto.
Qed.

(** After the two guarded ALTER statements, [markdown_content] is a column
    of the table, and [updated_at] is one unless the table has rows. *)
Lemma migrations_effect (t0 : Table) :
  exists t1 t2,
    try_except_OperationalError add_column_markdown_content t0 = Ok t1
    /\ try_except_OperationalError add_column_updated_at t1 = Ok t2
    /\ has_column t2 "markdown_content" = true
    /\ (has_column t2 "updated_at" = true \/ rows t2 <> ∅).
Proof.
  destruct (try_add_markdown_content t0) as (t1 & H1 & Hmd).
  destruct (try_add_updated_at t1) as (t2 & H2 & Hmd2 & Hup).
  exists t1, t2. auto.
Qed.

(** On a table in that state both ALTER statements are refused. *)
Lemma migrations_settled (t : Table) :
  has_column t "markdown_content" = true ->
  has_column t "updated_at" = true \/ rows t <> ∅ ->
  try_except_OperationalError add_column_markdown_content t = Ok t
  /\ try_except_OperationalError add_column_updated_at t = Ok t.
Proof.
  intros Hmd Hup.
  unfold try_except_OperationalError, add_column_markdown_content,
    add_column_updated_at.
  rewrite Hmd. split; [done|].
  destruct (has_column t "updated_at"); [done|].
  destruct Hup as [?|Hne]; [done|].
  by rewrite bool_decide_eq_false_2.
Qed.

Lemma init_db_settled (now : Z) (t : Table) :
  has_column t "markdown_content" = true ->
  has_column t "updated_at" = true \/ rows t <> ∅ ->
  database.init_db now (Some t) =
    if Nat.eqb (size (rows t)) 0
    then match database._insert_sample_posts now t with
         | Ok t3 => (Some t3, Ok tt)
         | Raise e => (Some t, Raise e)
         end
    else (Some t, Ok tt).
Proof.
  intros Hmd Hup. destruct (migrations_settled t Hmd Hup) as [H1 H2].
  unfold database.init_db. simpl. by rewrite H1, H2.
Qed.

(** A store that has rows and went through the migrations is left alone:
    nothing is added and no row is touched. *)
Lemma init_db_with_rows (now : Z) (t : Table) :
  has_column t "markdown_content" = true ->
  rows t <> ∅ ->
  database.init_db now (Some t) = (Some t, Ok tt).
Proof.
  intros Hmd Hne. rewrite init_db_settled by auto.
  destruct (Nat.eqb_spec (size (rows t)) 0) as [Hsz|]; [|done].
  by apply map_size_empty_iff in Hsz.
Qed.

(** C9.  [init_db] is idempotent: run again on the store it leaves, at
    whatever time, it leaves that store as it is and ends the same way.
    The table is not created twice, adding a column that is there is
    caught, and the sample posts go in only when the table has no rows. *)
Theorem init_db_idempotent (now1 now2 : Z) (db : DB) :
  database.init_db now2 (database.init_db now1 db).1
  = database.init_db now1 db.
Proof.
  destruct (migrations_effect (create_table_if_not_exists db))
    as (t1 & t2 & H1 & H2 & Hmd & Hup).
  assert (database.init_db now1 db = database.init_db now1 (Some t2)) as ->.
  { rewrite (init_db_settled now1 t2) by done.
    unfold database.init_db. by rewrite H1, H2. }
  rewrite (init_db_settled now1 t2) by done.
  destruct (Nat.eqb_spec (size (rows t2)) 0) as [Hsz|Hsz].
  - unfold database._insert_sample_posts.
    destruct (prepare_cases t2 insert_columns) as [Hprep|Hprep].
    + destruct (insert_each_prepared now1 database.sample_posts t2 Hprep)
        as (t3 & -> & Hcols & Hne).
      simpl. apply init_db_with_rows.
      * unfold has_column in *. by rewrite Hcols.
      * by apply Hne.
    + rewrite (insert_each_refused now1) by done. simpl.
      rewrite (init_db_settled now2 t2) by done.
      destruct (Nat.eqb_spec (size (rows t2)) 0); [|done].
      unfold database._insert_sample_posts.
      by rewrite (insert_each_refused now2).
  - simpl. rewrite (init_db_settled now2 t2) by done.
    by destruct (Nat.eqb_spec (size (rows t2)) 0).
Qed.

Example init_db_twice_ex :
  database.init_db 1700000500 (Some seeded_table)
  = (Some seeded_table, Ok tt)
  /\ size (rows seeded_table) = 3%nat
  /\ columns seeded_table = schema.
Proof. vm_compute. repeat split. Qed.

(** The gate is the row count: once every post has been deleted, the next
    [init_db] seeds the three sample posts again, under new keys. *)
Example init_db_after_deleting_all_ex :
  let db1 := after_all [CallDelete 1; CallDelete 2; CallDelete 3]
               (Some seeded_table) in
  let db2 := (database.init_db 1700000500 db1).1 in
  database.get_all_posts db1 = Ok []
  /\ (fun k => Row.read_time <$> rows (create_table_if_not_exists db2) !! k)
       <$> [3; 4; 5; 6; 7]
     = [None; Some "5 min read"; Some "3 min read"; Some "2 min read"; None]
  /\ database.init_db 1700000900 db2 = (db2, Ok tt).
Proof. vm_compute. repeat split. Qed.

(** A table that an older version created without the two later columns:
    the first run adds them and seeds it, the second changes nothing. *)
Example init_db_older_table_ex :
  let older :=
    mkTable ["id"; "title"; "category"; "color"; "size"; "excerpt";
             "content"; "media_files"; "created_at"; "read_time"] ∅ 0 in
  let db1 := (database.init_db 1700000000 (Some older)).1 in
  db1 = Some (mkTable
                (["id"; "title"; "category"; "color"; "size"; "excerpt";
                  "content"; "media_files"; "created_at"; "read_time"]
                 ++ ["markdown_content"; "updated_at"])
                (rows seeded_table) 3)
  /\ database.init_db 1700000900 db1 = (db1, Ok tt).
Proof. vm_compute. repeat split. Qed.

(** The same older table with a row in it: [markdown_content] is added,
    the [updated_at] migration is refused and caught, nothing is seeded,
    and a second run changes nothing.  On the store that results,
    [update_post] raises, for its UPDATE names [updated_at]. *)
Example init_db_older_table_with_rows_ex :
  let cols := ["id"; "title"; "category"; "color"; "size"; "excerpt";
               "content"; "media_files"; "created_at"; "read_time"] in
  let row := Row.mk "T" "NEWS" "c" "s" (Some "e") "text" None (Some "")
               1600000000 0 "1 min read" in
  let older := mkTable cols {[1 := row]} 1 in
  let db1 := (database.init_db 1700000000 (Some older)).1 in
  database.init_db 1700000000 (Some older)
  = (Some (mkTable (cols ++ ["markdown_content"])
             {[1 := Row.set_markdown_content (Some "") row]} 1), Ok tt)
  /\ database.init_db 1700000900 db1 = (db1, Ok tt)
  /\ database.get_post_by_id db1 1
     = Ok (Some (Post.mk 1 "T" "NEWS" "c" "s" "e" "text" "" 1600000000
                   "1 min read" ""))
  /\ database.update_post 1700000950 db1 1 "T" "news" "c" "s" "e" "text"
       [] "" = (db1, Raise OperationalError).
Proof. vm_compute. repeat split. Qed.

(** ** What a post record carries *)

Example one_post_table_ex :
  (database.create_post 1700000000 (Some (mkTable schema ∅ 0)) "T" "news"
     "c" "s" "e" "text" [] "").1
  = Some one_post_table.
Proof. reflexivity. Qed.


(** C8, as the specification states it, fails: no function of the [Post]
    record gives the [updated_at] of the row it was read from.  Two stores
    that differ only in that column return the same record. *)
Lemma post_record_lacks_updated_at :
  ~ exists updated_at_of : Post.t -> Z,
      forall (t : Table) (k : Z) (row : Row.t) (p : Post.t),
        rows t !! k = Some row ->
        database.get_post_by_id (Some t) k = Ok (Some p) ->
        updated_at_of p = Row.updated_at row.
Proof.
  intros [updated_at_of Hall].
  set (p := Post.mk 1 "T" "NEWS" "c" "s" "e" "text" "" 1700000000
              "1 min read" "").
  set (updated :=
         mkTable schema
           {[1 := with_updated_at 1700000060 one_post_row]} 1).
  assert ((database.update_post 1700000060 (Some one_post_table) 1 "T"
             "news" "c" "s" "e" "text" [] "").1 = Some updated)
    as _ by reflexivity.
  pose proof (Hall one_post_table 1 one_post_row p eq_refl eq_refl) as H1.
  pose proof (Hall updated 1 (with_updated_at 1700000060 one_post_row) p
                eq_refl eq_refl) as H2.
  simpl in H1, H2. lia.
Qed.

Lemma row_to_post_ignores_updated_at (t : Table) (k u : Z) (row : Row.t) :
  database._row_to_post t k (with_updated_at u row)
  = database._row_to_post t k row.
Proof. reflexivity. Qed.

(** C8, amended.  A post record carries the eleven attributes of [Post]
    and no [updated_at]: what is read from a row does not depend on that
    column.  [update_post] on an existing row sets the stored [updated_at]
    to the time of the update and keeps [created_at]; so the stored value
    does not go back when the clock does not. *)
Theorem updated_at_on_update
    (now : Z) (t : Table) (post_id : Z) (old : Row.t)
    (title category color size excerpt content : string)
    (media_files : list string) (markdown_content : string) :
  full_schema t = true ->
  rows t !! post_id = Some old ->
  Row.updated_at old <= now ->
  exists t' new p,
    database.update_post now (Some t) post_id title category color size
      excerpt content media_files markdown_content
    = (Some t', Ok (Some p))
    /\ rows t' !! post_id = Some new
    /\ Row.updated_at new = now
    /\ Row.updated_at old <= Row.updated_at new
    /\ Row.created_at new = Row.created_at old
    /\ Post.created_at p = Row.created_at old
    /\ (forall u k row,
          database._row_to_post t' k (with_updated_at u row)
          = database._row_to_post t' k row)
    /\ (forall u,
          database._row_to_post t' post_id (with_updated_at u new) = Ok p).
Proof.
  intros Hfull Hold Hclock.
  pose proof (update_full_present t Hfull now post_id
                (mkFields title category color size excerpt content
                   media_files markdown_content) old Hold) as Hu.
  cbv zeta in Hu. unfold update in Hu. simpl in Hu.
  eexists _, _, _. split; [exact Hu|]. simpl.
  split; [apply lookup_insert_eq|].
  repeat split; try done.
  intros u. rewrite row_to_post_ignores_updated_at.
  by rewrite row_to_post_full.
Qed.

Lemma updated_at_on_update_witness :
  full_schema one_post_table = true
  /\ rows one_post_table !! 1 = Some one_post_row
  /\ Row.updated_at one_post_row <= 1700000060
  /\ exists t' new p,
       database.update_post 1700000060 (Some one_post_table) 1 "T2"
         "news" "c" "s" "e" "text" [] "" = (Some t', Ok (Some p))
       /\ rows t' !! 1 = Some new
       /\ Row.updated_at new = 1700000060
       /\ Row.created_at new = Row.created_at one_post_row
       /\ Post.created_at p = Row.created_at one_post_row.
Proof.
  split; [reflexivity|]. split; [reflexivity|]. split; [simpl; lia|].
  destruct (updated_at_on_update 1700000060 one_post_table 1 one_post_row
              "T2" "news" "c" "s" "e" "text" [] "")
    as (t' & new & p & Hu & Hnew & Hnow & _ & Hcreated & Hpost & _);
    [reflexivity | reflexivity | simpl; lia |].
  exists t', new, p. auto.
Defined.

(** Two updates at the same clock reading leave [updated_at] equal. *)
Example updated_at_same_second_ex :
  let db1 := (database.update_post 1700000060 (Some seeded_table) 2 "T"
                "news" "c" "s" "e" "one" [] "").1 in
  let db2 := (database.update_post 1700000060 db1 2 "T" "news" "c" "s" "e"
                "two" [] "").1 in
  (Row.updated_at <$> rows (create_table_if_not_exists db1) !! 2)
  = Some 1700000060
  /\ (Row.updated_at <$> rows (create_table_if_not_exists db2) !! 2)
     = Some 1700000060.
Proof. vm_compute. split; reflexivity. Qed.

(** ** The media list *)

Lemma map_filter_comm {A B : Type} (f : A -> B) (keep : B -> bool)
    (l : list A) :
  List.map f (List.filter (fun x => keep (f x)) l)
  = List.filter keep (List.map f l).
Proof.
  induction l as [|x l IH]; [done|].
  simpl. destruct (keep (f x)); simpl; by rewrite IH.
Qed.

Lemma is_empty_true (s : string) : PyStr.is_empty s = true <-> s = "".
Proof. destruct s; simpl; split; congruence. Qed.

(** What [strip] takes away is blanks: the characters of a text are
    blanks, the characters of the stripped text, and blanks again. *)
Lemma lstrip_chars_blanks (l : list string) :
  exists a, l = a ++ PyStr.lstrip_chars l /\ forallb PyStr.isspace a = true.
Proof.
  induction l as [|x l (a & Hl & Ha)]; [by exists []|].
  cbn [PyStr.lstrip_chars]. destruct (PyStr.isspace x) eqn:Hx.
  - exists (x :: a). simpl. rewrite Hx, Ha. split; [|done]. by f_equal.
  - by exists [].
Qed.

Lemma rstrip_chars_blanks (l : list string) :
  exists b, l = PyStr.rstrip_chars l ++ b /\ forallb PyStr.isspace b = true.
Proof.
  induction l as [|x l (b & Hl & Hb)]; [by exists []|].
  cbn [PyStr.rstrip_chars]. destruct (PyStr.rstrip_chars l) as [|y r].
  - simpl in Hl. subst l. destruct (PyStr.isspace x) eqn:Hx.
    + exists (x :: b). simpl. by rewrite Hx, Hb.
    + by exists b.
  - exists b. split; [|done].
    change (x :: l = x :: ((y :: r) ++ b)). by rewrite <- Hl.
Qed.

Lemma strip_between_blanks (s : string) :
  exists a b,
    PyStr.chars s = a ++ PyStr.chars (PyStr.strip s) ++ b
    /\ forallb PyStr.isspace a = true
    /\ forallb PyStr.isspace b = true.
Proof.
  destruct (lstrip_chars_blanks (PyStr.chars s)) as (a & Ha & Hablank).
  destruct (rstrip_chars_blanks (PyStr.lstrip_chars (PyStr.chars s)))
    as (b & Hb & Hbblank).
  exists a, b. rewrite chars_strip. by rewrite <- Hb, <- Ha.
Qed.

Lemma contains_snoc (c c' : ascii) (s : string) :
  PyStr.contains c s = false -> Ascii.eqb c' c = false ->
  PyStr.contains c (PyStr.snoc s c') = false.
Proof.
  intros Hs Hc. unfold PyStr.snoc. rewrite contains_append, Hs. simpl.
  by rewrite Hc.
Qed.

(** No piece of [split(sep)] holds the separator. *)
Lemma split_on_go_pieces (sep : ascii) (piece s : string) :
  PyStr.contains sep piece = false ->
  Forall (fun f => PyStr.contains sep f = false)
         (PyStr.split_on_go sep piece s).
Proof.
  revert piece. induction s as [|c s IH]; intros piece Hpiece; simpl.
  - by constructor.
  - destruct (Ascii.eqb c sep) eqn:Hc.
    + constructor; [done|]. by apply IH.
    + apply IH. by apply contains_snoc.
Qed.

(** The pieces of [split(sep)], joined with the separator, are the text. *)
Lemma join_split_on_go (sep : ascii) (piece s : string) :
  PyStr.join (String sep "") (PyStr.split_on_go sep piece s) = piece +:+ s.
Proof.
  revert piece. induction s as [|c s IH]; intros piece.
  - simpl. by rewrite append_empty_r.
  - cbn [PyStr.split_on_go]. destruct (Ascii.eqb c sep) eqn:Hc.
    + apply Ascii.eqb_eq in Hc as ->.
      specialize (IH ""). 
      destruct (PyStr.split_on_go sep "" s) as [|y r] eqn:Hs.
      { by destruct s; simpl in Hs; [|destruct (Ascii.eqb _ _)]. }
      change (piece +:+ String sep "" +:+ PyStr.join (String sep "") (y :: r)
              = piece +:+ String sep s).
      by rewrite IH.
    + rewrite IH. by rewrite snoc_append.
Qed.

(** C10.  [get_media_list] returns no empty string and no entry that
    begins or ends with a blank.  It returns the empty list for an empty
    [media_files]; in every case the result is the pieces between the
    commas of [media_files] (no piece holds a comma, and the pieces joined
    with commas are [media_files]), each stripped, without those that are
    empty once stripped, in order. *)
Theorem get_media_list_clean (p : Post.t) :
  Forall (fun f => f <> ""
                   /\ PyStr.leading_blank f = false
                   /\ PyStr.trailing_blank f = false)
         (Post.get_media_list p)
  /\ (Post.media_files p = "" -> Post.get_media_list p = [])
  /\ exists pieces,
       PyStr.join "," pieces = Post.media_files p
       /\ Forall (fun piece => PyStr.contains "," piece = false) pieces
       /\ Post.get_media_list p
          = List.filter (fun f => negb (PyStr.is_empty f))
              (List.map PyStr.strip pieces).
Proof.
  assert (Post.get_media_list p
          = List.filter (fun f => negb (PyStr.is_empty f))
              (List.map PyStr.strip
                 (PyStr.split_on "," (Post.media_files p)))) as Heq.
  { unfold Post.get_media_list.
    rewrite (map_filter_comm PyStr.strip
               (fun f => negb (PyStr.is_empty f))).
    destruct (Post.media_files p); reflexivity. }
  split; [|split].
  - rewrite Heq. apply Forall_forall. intros f Hf.
    apply list_elem_of_In, filter_In in Hf as [Hin Hne].
    apply in_map_iff in Hin as (piece & <- & _).
    split.
    + intros Hempty. apply is_empty_true in Hempty.
      by rewrite Hempty in Hne.
    + apply strip_no_blank_ends.
  - unfold Post.get_media_list. by intros ->.
  - exists (PyStr.split_on "," (Post.media_files p)).
    split; [apply (join_split_on_go "," "")|].
    split; [by apply split_on_go_pieces|exact Heq].
Qed.

Example get_media_list_ex :
  Post.get_media_list
    (Post.mk 1 "" "" "" "" "" "" " a.png , ,b c.jpg,, " 0 "" "")
  = ["a.png"; "b c.jpg"].
Proof. reflexivity. Qed.

(** A no-break space and an em space around the comma are stripped as
    well. *)
Example get_media_list_unicode_ex :
  Post.get_media_list
    (Post.mk 1 "" "" "" "" "" ""
       ("a.png" +:+ nbsp +:+ "," +:+ em_space +:+ "b.png") 0 "" "")
  = ["a.png"; "b.png"].
Proof. reflexivity. Qed.

(** ** The markdown entry point *)

(** C3, as the specification states it, fails for blank input that is not
    empty: [render_markdown] tests only [not text], so a single space,
    which is blank, goes to the converter, and what the converter answers
    comes back.  The markdown2 converter ends what it returns with a
    newline, so its answer is not the empty string, and neither is that
    of [render_markdown]. *)
Lemma render_markdown_blank_counterexample :
  PyStr.blank " " = true
  /\ forall markdown2_markdown : string -> list string -> string,
       markdown2_markdown " " main.MARKDOWN_EXTRAS <> "" ->
       main.render_markdown markdown2_markdown " " <> "".
Proof. split; [reflexivity|]. intros markdown2_markdown Hne. exact Hne. Qed.

(** C3, amended.  [render_markdown] maps the empty string to the empty
    string; any other input, blank or not, gives what the converter
    returns for it with the fixed extras, unchanged; so the output is
    empty exactly when the input is empty or the converter returns the
    empty string. *)
Theorem render_markdown_empty_iff
    (markdown2_markdown : string -> list string -> string)
    (c : ascii) (rest text : string) :
  main.render_markdown markdown2_markdown "" = ""
  /\ main.render_markdown markdown2_markdown (String c rest)
     = markdown2_markdown (String c rest) main.MARKDOWN_EXTRAS
  /\ (main.render_markdown markdown2_markdown text = ""
      <-> text = ""
          \/ markdown2_markdown text main.MARKDOWN_EXTRAS = "").
Proof.
  split; [reflexivity|]. split; [reflexivity|].
  unfold main.render_markdown. destruct text as [|c' text]; simpl.
  - split; auto.
  - split; [auto|]. by intros [?|?].
Qed.

(** * Further properties of the store *)

(** ** The latest post *)

Lemma select_full (t : Table) :
  full_schema t = true ->
  database.select_order_by_created_at_desc t
  = Ok (merge_sort database.newer_first (map_to_list (rows t))).
Proof.
  intros Hfull. unfold database.select_order_by_created_at_desc.
  by rewrite prepare_full by (done || in_schema).
Qed.

Lemma get_latest_post_full (t : Table) :
  full_schema t = true ->
  database.get_latest_post (Some t)
  = Ok (match merge_sort database.newer_first (map_to_list (rows t)) with
        | kr :: _ => Some (post_of_row kr.1 kr.2)
        | [] => None
        end).
Proof.
  intros Hfull. unfold database.get_latest_post. simpl.
  rewrite select_full by done. simpl.
  destruct (merge_sort _ _) as [|[k row] rest]; [done|].
  simpl. by rewrite row_to_post_full.
Qed.

(** The first row of the sorted selection is a row of the table, and no
    row of the table is newer. *)
Lemma sorted_head_newest (m : gmap Z Row.t) (kr : Z * Row.t) rest :
  merge_sort database.newer_first (map_to_list m) = kr :: rest ->
  m !! kr.1 = Some kr.2
  /\ forall k row, m !! k = Some row ->
                   Row.created_at row <= Row.created_at kr.2.
Proof.
  intros Hsort.
  pose proof (merge_sort_Permutation database.newer_first (map_to_list m))
    as Hperm.
  pose proof (StronglySorted_merge_sort database.newer_first
                (map_to_list m)) as Hsorted.
  rewrite Hsort in Hperm, Hsorted.
  split.
  - destruct kr as [k row]. apply elem_of_map_to_list.
    rewrite <- Hperm. by left.
  - intros k row Hk. apply elem_of_map_to_list in Hk.
    rewrite <- Hperm in Hk. apply StronglySorted_inv in Hsorted as [_ Hall].
    apply elem_of_cons in Hk as [<-|Hin]; [simpl; lia|].
    rewrite Forall_forall in Hall. by apply (Hall (k, row)).
Qed.

(** X1.  [get_latest_post] returns [None] exactly when the table has no
    row; otherwise it returns the post of a row of the table, and no row
    has a later [created_at].  It is the first post of [get_all_posts]. *)
Theorem get_latest_post_newest (t : Table) :
  full_schema t = true ->
  (database.get_latest_post (Some t) = Ok None <-> rows t = ∅)
  /\ (forall p,
        database.get_latest_post (Some t) = Ok (Some p) ->
        exists row,
          rows t !! Post.id p = Some row
          /\ p = post_of_row (Post.id p) row
          /\ forall k row', rows t !! k = Some row' ->
                            Row.created_at row' <= Post.created_at p)
  /\ (exists ps,
        database.get_all_posts (Some t) = Ok ps
        /\ database.get_latest_post (Some t) = Ok (head ps)).
Proof.
  intros Hfull. rewrite get_latest_post_full by done.
  destruct (merge_sort database.newer_first (map_to_list (rows t)))
    as [|kr rest] eqn:Hsort.
  - assert (rows t = ∅) as Hempty.
    { apply map_to_list_empty_iff, Permutation_nil_r.
      rewrite <- Hsort. symmetry. apply merge_sort_Permutation. }
    split; [done|]. split; [intros p Hp; discriminate|].
    exists []. split; [|done].
    unfold database.get_all_posts. simpl.
    rewrite select_full by done. simpl. by rewrite Hsort.
  - destruct (sorted_head_newest (rows t) kr rest Hsort) as [Hin Hnewest].
    split; [|split].
    + split; [discriminate|]. intros Hempty.
      rewrite Hempty, lookup_empty in Hin. discriminate.
    + intros p Hp. injection Hp as <-. exists kr.2. simpl.
      split; [done|]. split; [done|]. exact Hnewest.
    + exists ((fun kr => post_of_row kr.1 kr.2) <$> (kr :: rest)).
      split; [|done].
      unfold database.get_all_posts. simpl.
      rewrite select_full by done. rewrite Hsort.
      refine (mapM_all_ok _ (fun kr => post_of_row kr.1 kr.2)
                (kr :: rest) _).
      intros [k row]. by apply row_to_post_full.
Qed.

Lemma get_latest_post_newest_witness :
  full_schema one_post_table = true
  /\ rows one_post_table <> ∅
  /\ database.get_latest_post (Some one_post_table)
     = Ok (Some (post_of_row 1 one_post_row))
  /\ exists ps,
       database.get_all_posts (Some one_post_table) = Ok ps
       /\ database.get_latest_post (Some one_post_table) = Ok (head ps).
Proof.
  destruct (get_latest_post_newest one_post_table) as (_ & _ & Hhead);
    [reflexivity|].
  split; [reflexivity|]. split; [|split; [reflexivity|exact Hhead]].
  intros Hempty.
  assert (rows one_post_table !! 1 = None) as Hnone
    by (rewrite Hempty; apply lookup_empty).
  discriminate Hnone.
Defined.

(** ** Creating, then reading *)

Lemma get_all_posts_full (t : Table) :
  full_schema t = true ->
  database.get_all_posts (Some t)
  = Ok ((fun kr => post_of_row kr.1 kr.2)
          <$> merge_sort database.newer_first (map_to_list (rows t))).
Proof.
  intros Hfull. unfold database.get_all_posts. simpl.
  rewrite select_full by done.
  refine (mapM_all_ok _ (fun kr => post_of_row kr.1 kr.2) _ _).
  intros [k row]. by apply row_to_post_full.
Qed.

Lemma get_all_posts_perm (t : Table) :
  full_schema t = true ->
  exists ps,
    database.get_all_posts (Some t) = Ok ps
    /\ ps ≡ₚ (fun kr => post_of_row kr.1 kr.2) <$> map_to_list (rows t).
Proof.
  intros Hfull. eexists. split; [by apply get_all_posts_full|].
  by rewrite merge_sort_Permutation.
Qed.

(** X2.  After [create_post] the listing holds one post more: the posts
    it held before and the one created; every other id reads as before. *)
Theorem create_post_extends_listing (now : Z) (t : Table) (f : Fields) :
  full_schema t = true ->
  exists t' p ps ps',
    create now (Some t) f = (Some t', Ok (Some p))
    /\ database.get_all_posts (Some t) = Ok ps
    /\ database.get_all_posts (Some t') = Ok ps'
    /\ ps' ≡ₚ p :: ps
    /\ length ps' = S (length ps)
    /\ (forall k, k <> Post.id p ->
          database.get_post_by_id (Some t') k
          = database.get_post_by_id (Some t) k).
Proof.
  intros Hfull.
  pose proof (create_full t Hfull now f) as Hc. cbv zeta in Hc.
  set (k := next_rowid t) in *.
  match type of Hc with
  | _ = (Some ?tbl, Ok (Some (post_of_row _ ?row))) =>
      set (t' := tbl) in *; set (r := row) in *
  end.
  assert (full_schema t' = true) as Hfull' by done.
  destruct (get_all_posts_perm t Hfull) as (ps & Hps & Hperm).
  destruct (get_all_posts_perm t' Hfull') as (ps' & Hps' & Hperm').
  assert (ps' ≡ₚ post_of_row k r :: ps) as Hext.
  { rewrite Hperm', Hperm. unfold t'. simpl.
    rewrite map_to_list_insert by apply next_rowid_fresh. done. }
  exists t', (post_of_row k r), ps, ps'.
  split; [exact Hc|]. split; [done|]. split; [done|]. split; [done|].
  split; [by rewrite Hext|].
  intros j Hj. simpl in Hj. rewrite !get_post_by_id_full by done.
  unfold t'. simpl. by rewrite lookup_insert_ne.
Qed.

Lemma create_post_extends_listing_witness :
  full_schema seeded_table = true
  /\ exists t' p ps ps',
       create 1700000060 (Some seeded_table)
         (mkFields "T" "tips" "c" "s" "e" "text" [] "")
       = (Some t', Ok (Some p))
       /\ database.get_all_posts (Some seeded_table) = Ok ps
       /\ database.get_all_posts (Some t') = Ok ps'
       /\ ps' ≡ₚ p :: ps
       /\ length ps' = S (length ps).
Proof.
  split; [reflexivity|].
  destruct (create_post_extends_listing 1700000060 seeded_table
              (mkFields "T" "tips" "c" "s" "e" "text" [] ""))
    as (t' & p & ps & ps' & Hc & Hps & Hps' & Hperm & Hlen & _);
    [reflexivity|].
  exists t', p, ps, ps'. auto.
Defined.

(** X3.  When the clock at the insertion is later than the [created_at] of
    every stored row, the post [create_post] returns is the one
    [get_latest_post] returns next. *)
Theorem created_post_is_latest (now : Z) (t : Table) (f : Fields) :
  full_schema t = true ->
  (forall k row, rows t !! k = Some row -> Row.created_at row < now) ->
  exists t' p,
    create now (Some t) f = (Some t', Ok (Some p))
    /\ database.get_latest_post (Some t') = Ok (Some p).
Proof.
  intros Hfull Holder.
  pose proof (create_full t Hfull now f) as Hc. cbv zeta in Hc.
  set (k := next_rowid t) in *.
  match type of Hc with
  | _ = (Some ?tbl, Ok (Some (post_of_row _ ?row))) =>
      set (t' := tbl) in *; set (r := row) in *
  end.
  exists t', (post_of_row k r). split; [exact Hc|].
  rewrite get_latest_post_full by done.
  destruct (merge_sort database.newer_first (map_to_list (rows t')))
    as [|kr rest] eqn:Hsort.
  - exfalso.
    assert (rows t' = ∅) as Hempty.
    { apply map_to_list_empty_iff, Permutation_nil_r.
      rewrite <- Hsort. symmetry. apply merge_sort_Permutation. }
    unfold t' in Hempty. simpl in Hempty.
    by apply insert_non_empty in Hempty.
  - destruct (sorted_head_newest (rows t') kr rest Hsort) as [Hin Hnewest].
    destruct kr as [j row]. simpl in *.
    specialize (Hnewest k r (lookup_insert_eq _ _ _)).
    destruct (decide (k = j)) as [<-|Hne].
    + rewrite lookup_insert_eq in Hin. by injection Hin as <-.
    + rewrite lookup_insert_ne in Hin by done.
      specialize (Holder j row Hin). simpl in Hnewest. lia.
Qed.

Lemma created_post_is_latest_witness :
  full_schema one_post_table = true
  /\ (forall k row, rows one_post_table !! k = Some row ->
                    Row.created_at row < 1700000060)
  /\ exists t' p,
       create 1700000060 (Some one_post_table)
         (mkFields "T" "tips" "c" "s" "e" "text" [] "")
       = (Some t', Ok (Some p))
       /\ database.get_latest_post (Some t') = Ok (Some p).
Proof.
  assert (forall k row, rows one_post_table !! k = Some row ->
                        Row.created_at row < 1700000060) as Holder.
  { intros k row Hk. unfold one_post_table in Hk. simpl in Hk.
    apply lookup_singleton_Some in Hk as [_ <-]. simpl. lia. }
  split; [reflexivity|]. split; [exact Holder|].
  apply (created_post_is_latest 1700000060 one_post_table
           (mkFields "T" "tips" "c" "s" "e" "text" [] ""));
    [reflexivity|exact Holder].
Defined.

(** ** Identifiers *)

Lemma seq_grows_after (c : call) (t : Table) :
  full_schema t = true ->
  exists t', after c (Some t) = Some t'
             /\ full_schema t' = true /\ seq t <= seq t'.
Proof.
  intros Hfull. destruct c as [now|now f|now k f|k]; simpl.
  - rewrite init_db_full by done.
    destruct (Nat.eqb _ _); [|by exists t].
    unfold database._insert_sample_posts.
    destruct (insert_each_effect now database.sample_posts t Hfull)
      as (t' & -> & Hcols & Hseq & _).
    exists t'. simpl. split; [done|].
    split; [by eapply full_schema_same_columns|done].
  - rewrite create_full by done. simpl.
    eexists. split; [done|]. split; [done|]. simpl.
    pose proof (next_rowid_above_seq t). lia.
  - destruct (rows t !! k) as [old|] eqn:Hk.
    + rewrite (update_full_present t Hfull now k f old) by done. simpl.
      eexists. split; [done|]. split; [done|]. simpl. lia.
    + rewrite update_full_absent by done. exists t. split; [done|].
      split; [done|lia].
  - rewrite delete_full by done. simpl.
    eexists. split; [done|]. split; [done|]. simpl. lia.
Qed.

Lemma seq_grows_after_all (cs : list call) (t : Table) :
  full_schema t = true ->
  exists t', after_all cs (Some t) = Some t'
             /\ full_schema t' = true /\ seq t <= seq t'.
Proof.
  revert t. induction cs as [|c cs IH]; intros t Hfull.
  - exists t. split; [done|]. split; [done|lia].
  - simpl. destruct (seq_grows_after c t Hfull) as (t1 & -> & Hfull1 & Hseq1).
    destruct (IH t1 Hfull1) as (t2 & -> & Hfull2 & Hseq2).
    exists t2. split; [done|]. split; [done|lia].
Qed.

(** X4.  Identifiers only grow.  The id [create_post] gives is above every
    key in the table, and a post created later, whatever was called in
    between (deletions included), gets a larger id: no id is handed out
    twice. *)
Theorem ids_never_reused
    (t : Table) (now1 now2 : Z) (f1 f2 : Fields) (cs : list call) :
  full_schema t = true ->
  exists db1 p1 db2 p2,
    create now1 (Some t) f1 = (db1, Ok (Some p1))
    /\ create now2 (after_all cs db1) f2 = (db2, Ok (Some p2))
    /\ (forall k row, rows t !! k = Some row -> k < Post.id p1)
    /\ Post.id p1 < Post.id p2.
Proof.
  intros Hfull.
  pose proof (create_full t Hfull now1 f1) as Hc1. cbv zeta in Hc1.
  match type of Hc1 with
  | _ = (Some ?tbl, _) => set (t1 := tbl) in *
  end.
  assert (full_schema t1 = true) as Hfull1 by done.
  destruct (seq_grows_after_all cs t1 Hfull1) as (t2 & Hcs & Hfull2 & Hseq).
  pose proof (create_full t2 Hfull2 now2 f2) as Hc2. cbv zeta in Hc2.
  eexists _, _, _, _. split; [exact Hc1|].
  split; [rewrite Hcs; exact Hc2|]. simpl.
  split; [intros k row Hk; by eapply next_rowid_above|].
  pose proof (next_rowid_above_seq t2). unfold t1 in Hseq. simpl in Hseq.
  lia.
Qed.

Lemma ids_never_reused_witness :
  full_schema one_post_table = true
  /\ exists db1 p1 db2 p2,
       create 1700000060 (Some one_post_table)
         (mkFields "A" "tips" "c" "s" "e" "text" [] "")
       = (db1, Ok (Some p1))
       /\ create 1700000120
            (after_all [CallDelete 2; CallDelete 1] db1)
            (mkFields "B" "tips" "c" "s" "e" "text" [] "")
          = (db2, Ok (Some p2))
       /\ Post.id p1 < Post.id p2.
Proof.
  split; [reflexivity|].
  destruct (ids_never_reused one_post_table 1700000060 1700000120
              (mkFields "A" "tips" "c" "s" "e" "text" [] "")
              (mkFields "B" "tips" "c" "s" "e" "text" [] "")
              [CallDelete 2; CallDelete 1])
    as (db1 & p1 & db2 & p2 & H1 & H2 & _ & Hlt); [reflexivity|].
  exists db1, p1, db2, p2. auto.
Defined.

Example ids_after_delete_ex :
  let db1 := (create 1700000060 (Some one_post_table)
                (mkFields "A" "tips" "c" "s" "e" "text" [] "")).1 in
  let db2 := after_all [CallDelete 2; CallDelete 1] db1 in
  match (create 1700000120 db2
           (mkFields "B" "tips" "c" "s" "e" "text" [] "")).2 with
  | Ok (Some p) => Post.id p
  | _ => 0
  end = 3.
Proof. reflexivity. Qed.

(** ** Updating, then reading *)

(** X5.  Round trip of [update_post] on an existing row: it returns a
    post, [get_post_by_id] returns the same post, the id and [created_at]
    are those of the row, and every other field is the input, with the
    category upper-cased, the media list joined with commas and the read
    time derived from the new content. *)
Theorem update_then_get_roundtrip
    (now : Z) (t : Table) (post_id : Z) (old : Row.t)
    (title category color size excerpt content : string)
    (media_files : list string) (markdown_content : string) :
  full_schema t = true ->
  rows t !! post_id = Some old ->
  exists db' p,
    database.update_post now (Some t) post_id title category color size
      excerpt content media_files markdown_content = (db', Ok (Some p))
    /\ database.get_post_by_id db' post_id = Ok (Some p)
    /\ Post.id p = post_id
    /\ Post.created_at p = Row.created_at old
    /\ Post.title p = title
    /\ Post.category p = PyStr.upper category
    /\ Post.color p = color
    /\ Post.size p = size
    /\ Post.excerpt p = excerpt
    /\ Post.content p = content
    /\ Post.markdown_content p = markdown_content
    /\ Post.media_files p = PyStr.join "," media_files
    /\ Post.read_time p =
         PyStr.str_of_nat
           (Nat.max 1 (length (PyStr.split content) / 200)%nat)
         +:+ " min read".
Proof.
  intros Hfull Hold.
  pose proof (update_full_present t Hfull now post_id
                (mkFields title category color size excerpt content
                   media_files markdown_content) old Hold) as Hu.
  cbv zeta in Hu. unfold update in Hu. simpl in Hu.
  eexists _, _. split; [exact Hu|].
  split.
  { rewrite (get_post_by_id_full (mkTable (columns t) _ _)) by done.
    simpl. by rewrite lookup_insert_eq. }
  repeat split.
Qed.

Lemma update_then_get_roundtrip_witness :
  full_schema one_post_table = true
  /\ rows one_post_table !! 1 = Some one_post_row
  /\ exists db' p,
       database.update_post 1700000060 (Some one_post_table) 1 "New"
         "design" "neon-pink" "bento-wide" "" "a b" ["x.png"] "a b"
       = (db', Ok (Some p))
       /\ database.get_post_by_id db' 1 = Ok (Some p)
       /\ Post.created_at p = 1700000000
       /\ Post.category p = "DESIGN"
       /\ Post.title p = "New".
Proof.
  split; [reflexivity|]. split; [reflexivity|].
  destruct (update_then_get_roundtrip 1700000060 one_post_table 1
              one_post_row "New" "design" "neon-pink" "bento-wide" ""
              "a b" ["x.png"] "a b")
    as (db' & p & Hu & Hget & _ & Hcr & Htitle & Hcat & _);
    [reflexivity | reflexivity |].
  exists db', p. auto.
Defined.

(** X6.  [update_post] touches the addressed row and nothing else: the
    other rows, the set of ids, the number of rows, the columns and the
    AUTOINCREMENT counter are as before, whether the id exists or not. *)
Theorem update_post_frame
    (now : Z) (t : Table) (post_id : Z) (f : Fields) :
  full_schema t = true ->
  exists t',
    (update now (Some t) post_id f).1 = Some t'
    /\ (forall k, k <> post_id -> rows t' !! k = rows t !! k)
    /\ dom (rows t') = dom (rows t)
    /\ size (rows t') = size (rows t)
    /\ columns t' = columns t
    /\ seq t' = seq t.
Proof.
  intros Hfull. destruct (rows t !! post_id) as [old|] eqn:Hold.
  - rewrite (update_full_present t Hfull now post_id f old) by done.
    eexists. split; [done|]. simpl.
    assert (forall r : Row.t,
              dom (<[post_id := r]> (rows t)) = dom (rows t)) as Hdom.
    { intros r. apply dom_insert_lookup_L. eauto. }
    split; [intros k Hk; by apply lookup_insert_ne|].
    split; [apply Hdom|].
    split; [|done].
    rewrite <- !size_dom. by rewrite Hdom.
  - rewrite update_full_absent by done. by exists t.
Qed.

Lemma update_post_frame_witness :
  full_schema seeded_table = true
  /\ exists t',
       (update 1700000060 (Some seeded_table) 2
          (mkFields "T" "tips" "c" "s" "e" "text" [] "")).1 = Some t'
       /\ rows t' !! 1 = rows seeded_table !! 1
       /\ rows t' !! 3 = rows seeded_table !! 3
       /\ size (rows t') = 3%nat
       /\ seq t' = 3.
Proof.
  split; [reflexivity|].
  destruct (update_post_frame 1700000060 seeded_table 2
              (mkFields "T" "tips" "c" "s" "e" "text" [] ""))
    as (t' & Hu & Hother & _ & Hsize & _ & Hseq); [reflexivity|].
  exists t'. split; [exact Hu|].
  split; [by apply Hother|]. split; [by apply Hother|].
  split; [exact Hsize|exact Hseq].
Defined.

(** ** Deleting, then reading *)

(** X7.  After [delete_post] of an existing id, [get_post_by_id] of that
    id returns [None], every other id reads as before, and the listing
    has lost exactly that post. *)
Theorem delete_then_read (t : Table) (post_id : Z) (row : Row.t) :
  full_schema t = true ->
  rows t !! post_id = Some row ->
  exists t' ps ps',
    database.delete_post (Some t) post_id = (Some t', Ok true)
    /\ database.get_post_by_id (Some t') post_id = Ok None
    /\ (forall k, k <> post_id ->
          database.get_post_by_id (Some t') k
          = database.get_post_by_id (Some t) k)
    /\ database.get_all_posts (Some t) = Ok ps
    /\ database.get_all_posts (Some t') = Ok ps'
    /\ ps ≡ₚ post_of_row post_id row :: ps'.
Proof.
  intros Hfull Hrow.
  set (t' := mkTable (columns t) (delete post_id (rows t)) (seq t)).
  assert (full_schema t' = true) as Hfull' by done.
  destruct (get_all_posts_perm t Hfull) as (ps & Hps & Hperm).
  destruct (get_all_posts_perm t' Hfull') as (ps' & Hps' & Hperm').
  exists t', ps, ps'. split.
  { rewrite delete_full by done.
    by rewrite bool_decide_eq_true_2 by eauto. }
  split.
  { rewrite get_post_by_id_full by done. unfold t'. simpl.
    by rewrite lookup_delete_eq. }
  split.
  { intros k Hk. rewrite !get_post_by_id_full by done. unfold t'. simpl.
    by rewrite lookup_delete_ne. }
  split; [done|]. split; [done|].
  rewrite Hperm, Hperm'. unfold t'. simpl.
  by rewrite <- (map_to_list_delete (rows t) post_id row Hrow).
Qed.

Lemma delete_then_read_witness :
  full_schema one_post_table = true
  /\ rows one_post_table !! 1 = Some one_post_row
  /\ exists t',
       database.delete_post (Some one_post_table) 1 = (Some t', Ok true)
       /\ database.get_post_by_id (Some t') 1 = Ok None
       /\ database.get_all_posts (Some t') = Ok [].
Proof.
  split; [reflexivity|]. split; [reflexivity|].
  destruct (delete_then_read one_post_table 1 one_post_row)
    as (t' & ps & ps' & Hdel & Hget & _); [reflexivity | reflexivity |].
  exists t'. split; [exact Hdel|]. split; [exact Hget|].
  injection Hdel as <-. reflexivity.
Defined.

(** ** What initialisation adds *)

Lemma insert_each_rows (now : Z) (posts : list Values) (t : Table) :
  full_schema t = true ->
  exists t',
    database.insert_each now posts t = Ok t'
    /\ columns t' = columns t
    /\ size (rows t') = (size (rows t) + length posts)%nat
    /\ (forall k row, rows t !! k = Some row -> rows t' !! k = Some row)
    /\ (forall k row, rows t' !! k = Some row ->
          rows t !! k = Some row
          \/ (seq t < k /\ Row.created_at row = now
              /\ Row.updated_at row = now)).
Proof.
  revert t. induction posts as [|post posts IH]; intros t Hfull.
  - exists t. simpl. repeat split; (auto || lia).
  - simpl. rewrite insert_full by done. simpl.
    match goal with
    | |- context [database.insert_each now posts ?tbl] => set (t1 := tbl)
    end.
    assert (full_schema t1 = true) as Hfull1 by done.
    destruct (IH t1 Hfull1) as (t2 & -> & Hcols & Hsize & Hkeep & Hnew).
    pose proof (next_rowid_fresh t) as Hfresh.
    pose proof (next_rowid_above_seq t) as Hseq.
    exists t2. split; [done|]. split; [done|].
    split; [|split].
    + rewrite Hsize. unfold t1. simpl.
      rewrite map_size_insert_None by done. lia.
    + intros k row Hk. apply Hkeep. unfold t1. simpl.
      rewrite lookup_insert_ne; [done|]. intros <-. congruence.
    + intros k row Hk. destruct (Hnew k row Hk) as [Hold|(Hk1 & Hcr & Hup)].
      * unfold t1 in Hold. simpl in Hold.
        destruct (decide (next_rowid t = k)) as [<-|Hne].
        -- rewrite lookup_insert_eq in Hold. injection Hold as <-.
           right. simpl. auto.
        -- rewrite lookup_insert_ne in Hold by done. by left.
      * right. unfold t1 in Hk1. simpl in Hk1. split; [lia|done].
Qed.

(** X8.  The seeding gate of [init_db] on a table with the full schema.
    A table that has rows is left exactly as it is.  An empty table gets
    the sample posts and nothing else: as many rows as there are samples,
    under keys above the counter, stamped with the time of the run. *)
Theorem init_db_seeding_gate (now : Z) (t : Table) :
  full_schema t = true ->
  (rows t <> ∅ -> database.init_db now (Some t) = (Some t, Ok tt))
  /\ (rows t = ∅ ->
      exists t',
        database.init_db now (Some t) = (Some t', Ok tt)
        /\ columns t' = columns t
        /\ size (rows t') = length database.sample_posts
        /\ forall k row, rows t' !! k = Some row ->
             seq t < k /\ Row.created_at row = now).
Proof.
  intros Hfull. rewrite init_db_full by done. split.
  - intros Hne. destruct (Nat.eqb_spec (size (rows t)) 0) as [Hsz|]; [|done].
    by apply map_size_empty_iff in Hsz.
  - intros Hempty. rewrite Hempty, map_size_empty. simpl.
    unfold database._insert_sample_posts.
    destruct (insert_each_rows now database.sample_posts t Hfull)
      as (t' & -> & Hcols & Hsize & _ & Hnew).
    exists t'. split; [done|]. split; [done|]. split.
    + rewrite Hsize, Hempty, map_size_empty. done.
    + intros k row Hk. destruct (Hnew k row Hk) as [Hold|(? & ? & _)].
      * rewrite Hempty, lookup_empty in Hold. discriminate.
      * done.
Qed.

Lemma init_db_seeding_gate_witness :
  full_schema one_post_table = true
  /\ rows one_post_table <> ∅
  /\ database.init_db 1700000500 (Some one_post_table)
     = (Some one_post_table, Ok tt)
  /\ full_schema (mkTable schema ∅ 7) = true
  /\ exists t',
       database.init_db 1700000500 (Some (mkTable schema ∅ 7))
       = (Some t', Ok tt)
       /\ size (rows t') = 3%nat
       /\ forall k row, rows t' !! k = Some row ->
            7 < k /\ Row.created_at row = 1700000500.
Proof.
  assert (rows one_post_table <> ∅) as Hne.
  { intros Hempty.
    assert (rows one_post_table !! 1 = None) as Hnone
      by (rewrite Hempty; apply lookup_empty).
    discriminate Hnone. }
  destruct (init_db_seeding_gate 1700000500 one_post_table) as [Hkeep _];
    [reflexivity|].
  destruct (init_db_seeding_gate 1700000500 (mkTable schema ∅ 7))
    as [_ Hseed]; [reflexivity|].
  destruct (Hseed eq_refl) as (t' & Hinit & _ & Hsize & Hkeys).
  split; [reflexivity|]. split; [exact Hne|]. split; [by apply Hkeep|].
  split; [reflexivity|].
  exists t'. split; [exact Hinit|]. split; [exact Hsize|exact Hkeys].
Defined.

(** ** A table without the [markdown_content] column *)

(** X9.  On a table that lacks only the [markdown_content] column, reading
    still works: the missing key is caught and the post carries the empty
    string there.  Creating does not: the INSERT names the column, so
    [create_post] raises [OperationalError] and the store is unchanged. *)
Theorem missing_markdown_column
    (now : Z) (t : Table) (k : Z) (row : Row.t) (f : Fields) :
  forallb (has_column t) database.row_keys = true ->
  has_column t "markdown_content" = false ->
  rows t !! k = Some row ->
  database.get_post_by_id (Some t) k
  = Ok (Some (Post.mk k (Row.title row) (Row.category row) (Row.color row)
                (Row.size row) (database.or_empty (Row.excerpt row))
                (Row.content row)
                (database.or_empty (Row.media_files row))
                (Row.created_at row) (Row.read_time row) ""))
  /\ create now (Some t) f = (Some t, Raise OperationalError).
Proof.
  intros Hkeys Hmd Hrow. split.
  - unfold database.get_post_by_id. simpl.
    assert (prepare t ["id"] = Ok tt) as ->.
    { unfold prepare. simpl.
      unfold database.row_keys in Hkeys. simpl in Hkeys.
      apply andb_prop in Hkeys as [-> _]. done. }
    simpl. rewrite Hrow. simpl.
    unfold database._row_to_post. by rewrite Hkeys, Hmd.
  - unfold create, database.create_post. simpl.
    unfold insert, prepare.
    assert (forallb (has_column t) insert_columns = false) as ->; [|done].
    apply not_true_is_false. intros Hall.
    rewrite forallb_forall in Hall.
    specialize (Hall "markdown_content").
    rewrite Hmd in Hall. discriminate Hall.
    unfold insert_columns. simpl. auto 10.
Qed.

Lemma missing_markdown_column_witness :
  let older :=
    mkTable ["id"; "title"; "category"; "color"; "size"; "excerpt";
             "content"; "media_files"; "created_at"; "read_time"]
      {[1 := one_post_row]} 1 in
  forallb (has_column older) database.row_keys = true
  /\ has_column older "markdown_content" = false
  /\ rows older !! 1 = Some one_post_row
  /\ database.get_post_by_id (Some older) 1
     = Ok (Some (Post.mk 1 "T" "NEWS" "c" "s" "e" "text" "" 1700000000
                   "1 min read" ""))
  /\ create 1700000060 (Some older)
       (mkFields "A" "tips" "c" "s" "e" "text" [] "")
     = (Some older, Raise OperationalError).
Proof.
  intros older.
  destruct (missing_markdown_column 1700000060 older 1 one_post_row
              (mkFields "A" "tips" "c" "s" "e" "text" [] ""))
    as [Hget Hcreate]; [reflexivity | reflexivity | reflexivity |].
  split; [reflexivity|]. split; [reflexivity|]. split; [reflexivity|].
  split; [exact Hget|exact Hcreate].
Defined.

(** * Further properties of the post model *)

(** ** Blank strings and [strip] *)

(** X10.  [has_markdown] is true exactly when [markdown_content] holds a
    character that is not blank. *)
Theorem has_markdown_iff_not_blank (p : Post.t) :
  Post.has_markdown p = negb (PyStr.blank (Post.markdown_content p)).
Proof.
  unfold Post.has_markdown. rewrite strip_empty_blank.
  destruct (Post.markdown_content p) as [|c s]; [done|].
  simpl. done.
Qed.

Example has_markdown_ex :
  Post.has_markdown (Post.mk 1 "" "" "" "" "" "" "" 0 "" " 
 ") = false
  /\ Post.has_markdown (Post.mk 1 "" "" "" "" "" "" "" 0 "" " # H ") = true.
Proof. split; reflexivity. Qed.

(** A lone no-break space is no markdown. *)
Example has_markdown_nbsp_ex :
  Post.has_markdown (Post.mk 1 "" "" "" "" "" "" "" 0 "" nbsp) = false.
Proof. reflexivity. Qed.

(** ** The media list through the comma-separated column *)

(** A string without the separator is one piece. *)
Lemma split_on_go_one (sep : ascii) (piece x : string) :
  PyStr.contains sep x = false ->
  PyStr.split_on_go sep piece x = [piece +:+ x].
Proof.
  revert piece. induction x as [|c x IH]; intros piece Hx; simpl.
  - by rewrite append_empty_r.
  - simpl in Hx. apply orb_false_elim in Hx as [Hc Hx].
    rewrite Hc, IH by done. by rewrite snoc_append.
Qed.

(** The first separator ends the first piece. *)
Lemma split_on_go_first (sep : ascii) (piece x rest : string) :
  PyStr.contains sep x = false ->
  PyStr.split_on_go sep piece (x +:+ String sep rest)
  = (piece +:+ x) :: PyStr.split_on_go sep "" rest.
Proof.
  revert piece. induction x as [|c x IH]; intros piece Hx; simpl.
  - by rewrite Ascii.eqb_refl, append_empty_r.
  - simpl in Hx. apply orb_false_elim in Hx as [Hc Hx].
    rewrite Hc, IH by done. by rewrite snoc_append.
Qed.

(** Splitting what was joined gives the list back, when no entry holds
    the separator. *)
Lemma split_on_join (sep : ascii) (piece x : string) (l : list string) :
  Forall (fun f => PyStr.contains sep f = false) (x :: l) ->
  PyStr.split_on_go sep piece (PyStr.join (String sep "") (x :: l))
  = (piece +:+ x) :: l.
Proof.
  revert piece x. induction l as [|y l IH]; intros piece x Hall.
  - simpl. apply split_on_go_one. by inversion Hall.
  - inversion Hall as [|? ? Hx Hrest]; subst.
    change (PyStr.join (String sep "") (x :: y :: l))
      with (x +:+ String sep (PyStr.join (String sep "") (y :: l))).
    rewrite split_on_go_first by done. f_equal.
    by rewrite IH.
Qed.

Lemma clean_path_parts (f : string) :
  clean_path f = true ->
  PyStr.is_empty f = false /\ PyStr.leading_blank f = false
  /\ PyStr.trailing_blank f = false /\ PyStr.contains "," f = false.
Proof.
  unfold clean_path. rewrite !andb_true_iff, !negb_true_iff. tauto.
Qed.

Lemma media_pieces_kept (l : list string) :
  forallb clean_path l = true ->
  List.map PyStr.strip
    (List.filter (fun f => negb (PyStr.is_empty (PyStr.strip f))) l)
  = l.
Proof.
  induction l as [|x l IH]; [done|]. simpl.
  intros [Hx Hl]%andb_prop.
  destruct (clean_path_parts x Hx) as (Hne & Hlead & Htrail & _).
  rewrite strip_id, Hne by done. simpl.
  by rewrite strip_id, IH.
Qed.

(** What [get_media_list] gives for a joined list of clean paths. *)
Lemma get_media_list_of_join (p : Post.t) (l : list string) :
  Post.media_files p = PyStr.join "," l ->
  forallb clean_path l = true ->
  Post.get_media_list p = l.
Proof.
  intros Hmedia Hclean. unfold Post.get_media_list. rewrite Hmedia.
  destruct l as [|x l]; [done|].
  assert (PyStr.is_empty (PyStr.join "," (x :: l)) = false) as ->.
  { simpl in Hclean. apply andb_prop in Hclean as [Hx _].
    destruct (clean_path_parts x Hx) as (Hne & _).
    destruct x as [|c x]; [discriminate|]. by destruct l. }
  unfold PyStr.split_on.
  rewrite (split_on_join "," "" x l).
  - by apply media_pieces_kept.
  - apply Forall_forall. intros f Hf.
    rewrite forallb_forall in Hclean.
    apply list_elem_of_In, Hclean, clean_path_parts in Hf. tauto.
Qed.

(** Every entry of [get_media_list] is a clean path. *)
Lemma get_media_list_entries_clean (p : Post.t) :
  forallb clean_path (Post.get_media_list p) = true.
Proof.
  unfold Post.get_media_list.
  destruct (PyStr.is_empty (Post.media_files p)); [done|].
  apply forallb_forall. intros f Hf.
  apply in_map_iff in Hf as (piece & <- & Hin).
  apply filter_In in Hin as [Hin Hne].
  pose proof (split_on_go_pieces "," "" (Post.media_files p) eq_refl)
    as Hpieces.
  rewrite Forall_forall in Hpieces.
  apply list_elem_of_In, Hpieces in Hin.
  destruct (strip_no_blank_ends piece) as [Hlead Htrail].
  unfold clean_path. rewrite Hne, Hlead, Htrail. simpl.
  apply negb_true_iff. by apply contains_strip.
Qed.

Lemma forallb_clean_app (l1 l2 : list string) :
  forallb clean_path l1 = true -> forallb clean_path l2 = true ->
  forallb clean_path (l1 ++ l2) = true.
Proof. intros H1 H2. rewrite forallb_app. by rewrite H1, H2. Qed.

(** X11.  Round trip of the media list through [create_post]: when every
    path is clean (not empty, no blank at either end, no comma),
    [get_media_list] of the created post is the list that was passed, in
    order. *)
Theorem media_list_roundtrip
    (now : Z) (t : Table)
    (title category color size excerpt content : string)
    (media_files : list string) (markdown_content : string) :
  full_schema t = true ->
  forallb clean_path media_files = true ->
  exists db' p,
    database.create_post now (Some t) title category color size excerpt
      content media_files markdown_content = (db', Ok (Some p))
    /\ Post.get_media_list p = media_files.
Proof.
  intros Hfull Hclean.
  pose proof (create_full t Hfull now
                (mkFields title category color size excerpt content
                   media_files markdown_content)) as Hc.
  cbv zeta in Hc. unfold create in Hc. simpl in Hc.
  eexists _, _. split; [exact Hc|].
  by apply get_media_list_of_join.
Qed.

Lemma media_list_roundtrip_witness :
  full_schema seeded_table = true
  /\ forallb clean_path ["uploads/images/a b.png"; "uploads/videos/c.mp4"]
     = true
  /\ exists db' p,
       database.create_post 1700000060 (Some seeded_table) "T" "tips" "c"
         "s" "e" "text" ["uploads/images/a b.png"; "uploads/videos/c.mp4"]
         "" = (db', Ok (Some p))
       /\ Post.get_media_list p
          = ["uploads/images/a b.png"; "uploads/videos/c.mp4"].
Proof.
  split; [reflexivity|]. split; [reflexivity|].
  apply (media_list_roundtrip 1700000060 seeded_table "T" "tips" "c" "s"
           "e" "text" ["uploads/images/a b.png"; "uploads/videos/c.mp4"]
           ""); reflexivity.
Defined.

(** A path that ends with a no-break space is not clean. *)
Example clean_path_nbsp_ex :
  clean_path ("a.png" +:+ nbsp) = false /\ clean_path "a b.png" = true.
Proof. split; reflexivity. Qed.

(** A path with a comma or with blanks at its ends does not come back. *)
Example media_list_not_clean_ex :
  match (database.create_post 1700000060 (Some seeded_table) "T" "tips"
           "c" "s" "e" "text" ["uploads/images/a,b.png"; " c.mp4 "; ""]
           "").2 with
  | Ok (Some p) => Post.get_media_list p
  | _ => []
  end
  = ["uploads/images/a"; "b.png"; "c.mp4"].
Proof. vm_compute. reflexivity. Qed.

(** X12.  Saving a post again with its own media list, as read by
    [get_media_list], followed by new clean paths, keeps the media it
    had, in order, and appends the new ones. *)
Theorem update_keeps_media
    (now : Z) (t : Table) (post_id : Z) (old : Row.t)
    (title category color size excerpt content : string)
    (new_files : list string) (markdown_content : string) :
  full_schema t = true ->
  rows t !! post_id = Some old ->
  forallb clean_path new_files = true ->
  exists db' p,
    database.update_post now (Some t) post_id title category color size
      excerpt content
      (Post.get_media_list (post_of_row post_id old) ++ new_files)
      markdown_content = (db', Ok (Some p))
    /\ Post.get_media_list p
       = Post.get_media_list (post_of_row post_id old) ++ new_files.
Proof.
  intros Hfull Hold Hclean.
  pose proof (update_full_present t Hfull now post_id
                (mkFields title category color size excerpt content
                   (Post.get_media_list (post_of_row post_id old)
                    ++ new_files) markdown_content) old Hold) as Hu.
  cbv zeta in Hu. unfold update in Hu. simpl in Hu.
  eexists _, _. split; [exact Hu|].
  apply get_media_list_of_join; [done|].
  apply forallb_clean_app; [|done].
  apply get_media_list_entries_clean.
Qed.

Lemma update_keeps_media_witness :
  let t := mkTable schema
             {[1 := Row.mk "T" "NEWS" "c" "s" (Some "e") "text" (Some "")
                      (Some " a.png , ,b c.jpg,, ") 1700000000 1700000000
                      "1 min read"]} 1 in
  full_schema t = true
  /\ forallb clean_path ["uploads/videos/d.mp4"] = true
  /\ exists db' p,
       database.update_post 1700000060 (Some t) 1 "T" "news" "c" "s" "e"
         "text" (["a.png"; "b c.jpg"] ++ ["uploads/videos/d.mp4"]) ""
       = (db', Ok (Some p))
       /\ Post.get_media_list p
          = ["a.png"; "b c.jpg"; "uploads/videos/d.mp4"].
Proof.
  intros t. split; [reflexivity|]. split; [reflexivity|].
  apply (update_keeps_media 1700000060 t 1
           (Row.mk "T" "NEWS" "c" "s" (Some "e") "text" (Some "")
              (Some " a.png , ,b c.jpg,, ") 1700000000 1700000000
              "1 min read")
           "T" "news" "c" "s" "e" "text" ["uploads/videos/d.mp4"] "");
    reflexivity.
Defined.

(** * Further properties of the handlers *)

Example str_of_int_ex :
  PyStr.str_of_int 42 = "42" /\ PyStr.str_of_int 0 = "0"
  /\ PyStr.str_of_int (-7) = "-7".
Proof. repeat split. Qed.

(** ** The preview *)

(** X13.  [preview_markdown] answers blank input, the empty string
    included, with the placeholder and does not call the converter; any
    other input it answers with what the converter returns for it. *)
Theorem preview_markdown_cases
    (markdown2_markdown : string -> list string -> string)
    (content : string) :
  main.preview_markdown markdown2_markdown content
  = if PyStr.blank content
    then main.HTMLResponse main.preview_placeholder 200 []
    else main.HTMLResponse
           (markdown2_markdown content main.MARKDOWN_EXTRAS) 200 [].
Proof.
  unfold main.preview_markdown. rewrite strip_empty_blank.
  destruct (PyStr.blank content) eqn:Hb; [done|].
  unfold main.render_markdown.
  destruct content as [|c content]; [discriminate|done].
Qed.

Example preview_markdown_ex :
  main.preview_markdown (fun text _ => "<p>" +:+ text +:+ "</p>") " 
  " = main.HTMLResponse main.preview_placeholder 200 []
  /\ main.preview_markdown (fun text _ => "<p>" +:+ text +:+ "</p>") " a"
     = main.HTMLResponse "<p> a</p>" 200 [].
Proof. split; reflexivity. Qed.

(** A lone no-break space gets the placeholder. *)
Example preview_markdown_nbsp_ex :
  main.preview_markdown demo_markdown nbsp
  = main.HTMLResponse main.preview_placeholder 200 [].
Proof. reflexivity. Qed.

(** ** The health check *)

(** X14.  [health_check] reports as [posts_count] the number of rows of
    the table. *)
Theorem health_check_counts_rows (t : Table) :
  full_schema t = true ->
  main.health_check (Some t)
  = Ok [("status", main.JStr "healthy");
        ("posts_count", main.JInt (Z.of_nat (size (rows t))))].
Proof.
  intros Hfull. unfold main.health_check.
  rewrite get_all_posts_full by done. simpl.
  rewrite length_fmap, merge_sort_Permutation, length_map_to_list.
  reflexivity.
Qed.

Lemma health_check_counts_rows_witness :
  full_schema seeded_table = true
  /\ main.health_check (Some seeded_table)
     = Ok [("status", main.JStr "healthy"); ("posts_count", main.JInt 3)].
Proof.
  split; [reflexivity|].
  apply (health_check_counts_rows seeded_table). reflexivity.
Defined.

(** ** Uploads *)

Lemma startswith_append (prefix s : string) :
  PyStr.startswith (prefix +:+ s) prefix = true.
Proof.
  induction prefix as [|c prefix IH]; [by destruct s|].
  change (Ascii.eqb c c && PyStr.startswith (prefix +:+ s) prefix = true).
  by rewrite Ascii.eqb_refl, IH.
Qed.

Section Uploads.

Variable path_suffix : string -> string.
Variable uuid4 : nat -> string.
Variable str_lower : string -> string.

(** The paths a run of the loop adds do not depend on the list it starts
    from. *)
Lemma save_media_acc (media : list main.UploadFile) (w : main.World)
    (acc : list string) :
  main.save_media path_suffix uuid4 str_lower media w acc
  = ((main.save_media path_suffix uuid4 str_lower media w []).1,
     acc ++ (main.save_media path_suffix uuid4 str_lower media w []).2).
Proof.
  revert w acc. induction media as [|file media IH]; intros w acc.
  - simpl. by rewrite app_nil_r.
  - simpl. destruct (main.filename file) as [name|]; [|apply IH].
    destruct (PyStr.is_empty name); [apply IH|].
    destruct (main.and_startswith (main.content_type file) "image/").
    { rewrite (IH _ (acc ++ _)), (IH _ [_]). simpl.
      by rewrite <- app_assoc. }
    destruct (main.and_startswith (main.content_type file) "video/").
    { rewrite (IH _ (acc ++ _)), (IH _ [_]). simpl.
      by rewrite <- app_assoc. }
    apply IH.
Qed.

(** X15.  The upload loop never touches the store.  Every path it adds
    lies under [uploads/images/] or [uploads/videos/], the files on disk
    afterwards are those that were there and those paths, at most one
    path is added per uploaded file and at most one UUID drawn per file;
    when no file is an image or a video, nothing is added or written. *)
Theorem save_media_effect (media : list main.UploadFile) (w : main.World)
    (acc : list string) :
  exists w' saved,
    main.save_media path_suffix uuid4 str_lower media w acc = (w', acc ++ saved)
    /\ main.store w' = main.store w
    /\ Forall (fun p => PyStr.startswith p "uploads/images/"
                        || PyStr.startswith p "uploads/videos/" = true)
              saved
    /\ dom (main.disk w') = dom (main.disk w) ∪ list_to_set saved
    /\ (length saved <= length media)%nat
    /\ (main.drawn w <= main.drawn w' <= main.drawn w + length media)%nat
    /\ (Forall (fun file =>
                  main.and_startswith (main.content_type file) "image/"
                  = false
                  /\ main.and_startswith (main.content_type file) "video/"
                     = false) media ->
        saved = [] /\ main.disk w' = main.disk w).
Proof.
  revert w acc. induction media as [|file media IH]; intros w acc.
  - exists w, []. simpl. rewrite app_nil_r.
    split; [done|]. split; [done|]. split; [done|].
    split; [by rewrite (right_id_L ∅ (∪))|].
    split; [lia|]. split; [lia|]. done.
  - assert (forall w2 : main.World,
              main.store w2 = main.store w ->
              main.disk w2 = main.disk w ->
              (main.drawn w <= main.drawn w2 <= S (main.drawn w))%nat ->
              exists w' saved,
                main.save_media path_suffix uuid4 str_lower media w2 acc
                = (w', acc ++ saved)
                /\ main.store w' = main.store w
                /\ Forall (fun p => PyStr.startswith p "uploads/images/"
                                    || PyStr.startswith p "uploads/videos/"
                                    = true) saved
                /\ dom (main.disk w') = dom (main.disk w) ∪ list_to_set saved
                /\ (length saved <= length (file :: media))%nat
                /\ (main.drawn w <= main.drawn w'
                    <= main.drawn w + length (file :: media))%nat
                /\ (Forall (fun file =>
                              main.and_startswith (main.content_type file)
                                "image/" = false
                              /\ main.and_startswith
                                   (main.content_type file) "video/"
                                 = false) (file :: media) ->
                    saved = [] /\ main.disk w' = main.disk w)) as Hskipped.
    { intros w2 Hst2 Hdisk2 Hdr2.
      destruct (IH w2 acc)
        as (w' & saved & -> & Hst & Hpre & Hdom & Hlen & Hdr & Hskip).
      exists w', saved. split; [done|]. split; [congruence|].
      split; [done|]. split; [by rewrite Hdom, Hdisk2|].
      split; [simpl; lia|]. split; [simpl; lia|].
      intros Hall. apply Forall_inv_tail in Hall.
      rewrite <- Hdisk2. by apply Hskip. }
    assert (forall (dir : string) (w2 : main.World) (path : string),
              path = dir +:+ uuid4 (main.drawn w)
                     +:+ str_lower (path_suffix
                           (default "" (main.filename file))) ->
              dir = "uploads/images/" \/ dir = "uploads/videos/" ->
              main.and_startswith (main.content_type file) "image/" = true
              \/ main.and_startswith (main.content_type file) "video/"
                 = true ->
              w2 = main.mkWorld (main.store w)
                     (<[path := main.body file]> (main.disk w))
                     (S (main.drawn w)) ->
              exists w' saved,
                main.save_media path_suffix uuid4 str_lower media w2
                  (acc ++ [path])
                = (w', acc ++ saved)
                /\ main.store w' = main.store w
                /\ Forall (fun p => PyStr.startswith p "uploads/images/"
                                    || PyStr.startswith p "uploads/videos/"
                                    = true) saved
                /\ dom (main.disk w') = dom (main.disk w) ∪ list_to_set saved
                /\ (length saved <= length (file :: media))%nat
                /\ (main.drawn w <= main.drawn w'
                    <= main.drawn w + length (file :: media))%nat
                /\ (Forall (fun file =>
                              main.and_startswith (main.content_type file)
                                "image/" = false
                              /\ main.and_startswith
                                   (main.content_type file) "video/"
                                 = false) (file :: media) ->
                    saved = [] /\ main.disk w' = main.disk w)) as Hsaved.
    { intros dir w2 path Hpath Hdir Hkind ->.
      destruct (IH (main.mkWorld (main.store w)
                      (<[path := main.body file]> (main.disk w))
                      (S (main.drawn w))) (acc ++ [path]))
        as (w' & saved & -> & Hst & Hpre & Hdom & Hlen & Hdr & _).
      exists w', (path :: saved). simpl in *.
      rewrite <- app_assoc. split; [done|]. split; [done|].
      split.
      { constructor; [|done]. rewrite Hpath.
        destruct Hdir as [->| ->].
        - by rewrite (startswith_append "uploads/images/").
        - rewrite (startswith_append "uploads/videos/").
          apply orb_true_r. }
      split.
      { rewrite Hdom, dom_insert_L.
        rewrite (comm_L (∪) {[path]}). by rewrite <- (assoc_L (∪)). }
      split; [lia|]. split; [lia|].
      intros Hall. apply Forall_inv in Hall as [Hno1 Hno2].
      destruct Hkind; congruence. }
    simpl. destruct (main.filename file) as [name|]; [|by apply Hskipped; try lia].
    destruct (PyStr.is_empty name); [by apply Hskipped; try lia|].
    destruct (main.and_startswith (main.content_type file) "image/")
      eqn:Himg.
    { apply (Hsaved "uploads/images/"); auto. }
    destruct (main.and_startswith (main.content_type file) "video/")
      eqn:Hvid.
    { apply (Hsaved "uploads/videos/"); auto. }
    apply Hskipped; simpl; (done || lia).
Qed.

End Uploads.

(** ** The markdown handlers *)

Section MarkdownHandlers.

Variable markdown2_markdown : string -> list string -> string.
Variable path_suffix : string -> string.
Variable uuid4 : nat -> string.
Variable str_lower : string -> string.

Lemma save_media_store (media : list main.UploadFile) (w : main.World)
    (acc : list string) :
  main.store (main.save_media path_suffix uuid4 str_lower media w acc).1
  = main.store w.
Proof.
  revert w acc. induction media as [|file media IH]; intros w acc; [done|].
  simpl. destruct (main.filename file) as [name|]; [|apply IH].
  destruct (PyStr.is_empty name); [apply IH|].
  destruct (main.and_startswith _ "image/"); [by rewrite IH|].
  destruct (main.and_startswith _ "video/"); by rewrite IH.
Qed.

(** X16.  [create_markdown_post] stores the rendered HTML as [content] and
    the markdown as typed as [markdown_content]; the read time counts the
    words of the rendered HTML; the media are the paths the upload loop
    saved; the answer is an empty page that redirects home. *)
Theorem create_markdown_post_stores
    (now : Z) (w : main.World) (t : Table)
    (title category color size excerpt content : string)
    (media : list main.UploadFile) :
  main.store w = Some t ->
  full_schema t = true ->
  exists w' p,
    main.create_markdown_post markdown2_markdown path_suffix uuid4
      str_lower now w title category color size excerpt content media
    = (w', main.HTMLResponse "" 200 [("HX-Redirect", "/")])
    /\ database.get_post_by_id (main.store w') (next_rowid t) = Ok (Some p)
    /\ Post.content p = main.render_markdown markdown2_markdown content
    /\ Post.markdown_content p = content
    /\ Post.has_markdown p = negb (PyStr.blank content)
    /\ Post.read_time p
       = spec_read_time
           (length (PyStr.split
                      (main.render_markdown markdown2_markdown content)))
    /\ Post.media_files p
       = PyStr.join ","
           (main.save_media path_suffix uuid4 str_lower media w []).2
    /\ Post.title p = title
    /\ Post.category p = PyStr.upper category.
Proof.
  intros Hstore Hfull. unfold main.create_markdown_post.
  pose proof (save_media_store media w []) as Hst.
  destruct (main.save_media path_suffix uuid4 str_lower media w [])
    as [w1 media_files] eqn:Hsave.
  simpl in Hst. rewrite Hst, Hstore.
  pose proof (create_full t Hfull now
                (mkFields title category color size excerpt
                   (main.render_markdown markdown2_markdown content)
                   media_files content)) as Hc.
  cbv zeta in Hc. unfold create in Hc. simpl in Hc. rewrite Hc.
  eexists _, _. split; [done|]. simpl.
  split.
  { rewrite (get_post_by_id_full (mkTable (columns t) _ _)) by done.
    simpl. by rewrite lookup_insert_eq. }
  repeat split.
  unfold Post.has_markdown. simpl. rewrite strip_empty_blank.
  by destruct content.
Qed.

(** X17.  [update_markdown_post] with an id that is in no row, and that
    SQLite can hold (an integer of 64 bits, signed), raises
    [HTTPException] 404 before anything else happens: no file is written,
    no UUID drawn, the store is as it was. *)
Theorem update_markdown_post_absent
    (now : Z) (w : main.World) (t : Table) (post_id : Z)
    (title category color size excerpt content : string)
    (media : list main.UploadFile) :
  main.store w = Some t ->
  full_schema t = true ->
  int64 post_id = true ->
  rows t !! post_id = None ->
  main.update_markdown_post markdown2_markdown path_suffix uuid4 str_lower
    now w post_id title category color size excerpt content media
  = (w, main.HTTPException 404 "Post not found").
Proof.
  intros Hstore Hfull _ Hnone. unfold main.update_markdown_post.
  rewrite Hstore, get_post_by_id_full by done. by rewrite Hnone.
Qed.

(** X18.  [update_markdown_post] on an existing post keeps the media the
    post had and appends the paths the upload loop saved, provided those
    are clean; it stores the rendered HTML and the markdown as typed,
    keeps [created_at], and redirects to the page of the post. *)
Theorem update_markdown_post_keeps_media
    (now : Z) (w : main.World) (t : Table) (post_id : Z) (old : Row.t)
    (title category color size excerpt content : string)
    (media : list main.UploadFile) :
  main.store w = Some t ->
  full_schema t = true ->
  rows t !! post_id = Some old ->
  forallb clean_path (main.save_media path_suffix uuid4 str_lower media w []).2
  = true ->
  exists w' p,
    main.update_markdown_post markdown2_markdown path_suffix uuid4
      str_lower now w post_id title category color size excerpt content
      media
    = (w', main.HTMLResponse "" 200
             [("HX-Redirect", "/posts/" +:+ PyStr.str_of_int post_id)])
    /\ database.get_post_by_id (main.store w') post_id = Ok (Some p)
    /\ Post.get_media_list p
       = Post.get_media_list (post_of_row post_id old)
         ++ (main.save_media path_suffix uuid4 str_lower media w []).2
    /\ Post.content p = main.render_markdown markdown2_markdown content
    /\ Post.markdown_content p = content
    /\ Post.created_at p = Row.created_at old.
Proof.
  intros Hstore Hfull Hold Hclean. unfold main.update_markdown_post.
  rewrite Hstore, get_post_by_id_full by done. rewrite Hold. simpl.
  rewrite save_media_acc.
  pose proof (save_media_store media w []) as Hst.
  destruct (main.save_media path_suffix uuid4 str_lower media w [])
    as [w1 saved] eqn:Hsave.
  simpl in Hst, Hclean. simpl. rewrite Hst, Hstore.
  pose proof (update_full_present t Hfull now post_id
                (mkFields title category color size excerpt
                   (main.render_markdown markdown2_markdown content)
                   (Post.get_media_list (post_of_row post_id old) ++ saved)
                   content) old Hold) as Hu.
  cbv zeta in Hu. unfold update in Hu. simpl in Hu. rewrite Hu.
  eexists _, _. split; [done|]. simpl.
  split.
  { rewrite (get_post_by_id_full (mkTable (columns t) _ _)) by done.
    simpl. by rewrite lookup_insert_eq. }
  split; [|done].
  apply get_media_list_of_join; [done|].
  apply forallb_clean_app; [|done].
  apply get_media_list_entries_clean.
Qed.

End MarkdownHandlers.

Example save_media_ex :
  main.save_media demo_suffix demo_uuid4 demo_lower demo_media demo_world []
  = (main.mkWorld (Some one_post_table)
       (<["uploads/videos/uuid-2.png" := "bytes of c"]>
          (<["uploads/images/uuid-0.png" := "bytes of a"]> ∅)) 3,
     ["uploads/images/uuid-0.png"; "uploads/videos/uuid-2.png"]).
Proof. reflexivity. Qed.

Lemma create_markdown_post_stores_witness :
  main.store demo_world = Some one_post_table
  /\ full_schema one_post_table = true
  /\ exists w' p,
       main.create_markdown_post demo_markdown demo_suffix demo_uuid4
         demo_lower 1700000060 demo_world "T" "tips" "c" "s" "e" "# H"
         demo_media
       = (w', main.HTMLResponse "" 200 [("HX-Redirect", "/")])
       /\ database.get_post_by_id (main.store w') 2 = Ok (Some p)
       /\ Post.content p = "<p># H</p>"
       /\ Post.markdown_content p = "# H"
       /\ Post.has_markdown p = true
       /\ Post.media_files p
          = "uploads/images/uuid-0.png,uploads/videos/uuid-2.png".
Proof.
  split; [reflexivity|]. split; [reflexivity|].
  destruct (create_markdown_post_stores demo_markdown demo_suffix
              demo_uuid4 demo_lower 1700000060 demo_world one_post_table
              "T" "tips" "c" "s" "e" "# H" demo_media)
    as (w' & p & Hc & Hget & Hcontent & Hmd & Hhas & _ & Hmedia & _);
    [reflexivity | reflexivity |].
  exists w', p. split; [exact Hc|]. split; [exact Hget|].
  split; [exact Hcontent|]. split; [exact Hmd|]. split; [exact Hhas|].
  exact Hmedia.
Defined.

Lemma update_markdown_post_absent_witness :
  main.store demo_world = Some one_post_table
  /\ full_schema one_post_table = true
  /\ int64 5 = true
  /\ rows one_post_table !! 5 = None
  /\ main.update_markdown_post demo_markdown demo_suffix demo_uuid4
       demo_lower 1700000060 demo_world 5 "T" "tips" "c" "s" "e" "# H"
       demo_media
     = (demo_world, main.HTTPException 404 "Post not found").
Proof.
  split; [reflexivity|]. split; [reflexivity|]. split; [reflexivity|].
  split; [reflexivity|].
  apply (update_markdown_post_absent demo_markdown demo_suffix demo_uuid4
           demo_lower 1700000060 demo_world one_post_table 5 "T" "tips" "c"
           "s" "e" "# H" demo_media); reflexivity.
Defined.

Lemma update_markdown_post_keeps_media_witness :
  let t := mkTable schema
             {[1 := Row.mk "T" "NEWS" "c" "s" (Some "e") "text" (Some "")
                      (Some "uploads/images/old.png") 1700000000
                      1700000000 "1 min read"]} 1 in
  let w := main.mkWorld (Some t) ∅ 0 in
  main.store w = Some t
  /\ full_schema t = true
  /\ forallb clean_path
       (main.save_media demo_suffix demo_uuid4 demo_lower demo_media w []).2
     = true
  /\ exists w' p,
       main.update_markdown_post demo_markdown demo_suffix demo_uuid4
         demo_lower 1700000060 w 1 "T" "tips" "c" "s" "e" "# H" demo_media
       = (w', main.HTMLResponse "" 200 [("HX-Redirect", "/posts/1")])
       /\ database.get_post_by_id (main.store w') 1 = Ok (Some p)
       /\ Post.get_media_list p
          = ["uploads/images/old.png"; "uploads/images/uuid-0.png";
             "uploads/videos/uuid-2.png"]
       /\ Post.created_at p = 1700000000.
Proof.
  intros t w. split; [reflexivity|]. split; [reflexivity|].
  split; [reflexivity|].
  destruct (update_markdown_post_keeps_media demo_markdown demo_suffix
              demo_uuid4 demo_lower 1700000060 w t 1
              (Row.mk "T" "NEWS" "c" "s" (Some "e") "text" (Some "")
                 (Some "uploads/images/old.png") 1700000000 1700000000
                 "1 min read")
              "T" "tips" "c" "s" "e" "# H" demo_media)
    as (w' & p & Hu & Hget & Hmedia & _ & _ & Hcr);
    [reflexivity | reflexivity | reflexivity | reflexivity |].
  exists w', p. split; [exact Hu|]. split; [exact Hget|].
  split; [exact Hmedia|exact Hcr].
Defined.

(** A name whose suffix holds a comma breaks the list: the saved path
    comes back as two entries. *)
Example update_markdown_post_comma_ex :
  let w := main.mkWorld (Some one_post_table) ∅ 0 in
  let r := main.update_markdown_post demo_markdown (fun _ => ".a,b")
             demo_uuid4 demo_lower 1700000060 w 1 "T" "tips" "c" "s" "e"
             "# H"
             [main.mkUploadFile (Some "x.a,b") (Some "image/png") ""] in
  match database.get_post_by_id (main.store r.1) 1 with
  | Ok (Some p) => Post.get_media_list p
  | _ => []
  end
  = ["uploads/images/uuid-0.a"; "b"].
Proof. vm_compute. reflexivity. Qed.
